(** * FlexDetector: push-up counting from 2D pose keypoints

    A shallow embedding of [script.js]: the keypoint accessors, the baseline
    calibration, the per-frame posture evaluation and the up/down repetition
    state machine, together with the properties the specification states
    about them.

    - JavaScript numbers are IEEE 754 binary64 values.  They are modelled
      by the Standard Library's [spec_float] with [prec = 53] and
      [emax = 1024], so that [+], [-], [*], [/], the comparisons and
      [Math.abs] are the operations the script runs, rounding, infinities
      and NaN included.
    - [Math.hypot] and [Math.acos] are implementation-approximated in
      ECMAScript: they are parameters of the per-frame evaluation, and
      what ECMAScript fixes of them is a hypothesis where it is used.
    - The page's state ([STATE], the module-level variables, the texts on
      screen) is one record, passed explicitly.  [step] runs a handler
      from the click to its end; [turn] runs one synchronous stretch of a
      handler, from one [await] to the next, so that the handlers can
      overlap as they do on the page.  What is painted on the canvas is
      not modelled.
    - A call that throws (a keypoint the pose does not have, a rejected
      promise) is a [Throw] of the exception monad [Exc].
    - The clock [performance.now()] is read by the frames.  The timers
      the script awaits before the first frame are kept as a timeline,
      and a reading of the clock is only taken not to precede them. *)

From Stdlib Require Import ZArith NArith List Bool Lia.
From Stdlib Require Import Floats.SpecFloat.
Import ListNotations.

Set Implicit Arguments.

(* ===================================================================== *)
(** * Numbers *)
(* ===================================================================== *)

Definition number := spec_float.

Definition prec : Z := 53.
Definition emax : Z := 1024.

Declare Scope js_scope.
Delimit Scope js_scope with js.
Bind Scope js_scope with number.

Definition jadd : number -> number -> number := SFadd prec emax.
Definition jsub : number -> number -> number := SFsub prec emax.
Definition jmul : number -> number -> number := SFmul prec emax.
Definition jdiv : number -> number -> number := SFdiv prec emax.

(** [a < b], [a > b], [a >= b] and [a === b] on numbers: every comparison
    with NaN is false, and the two zeros are equal. *)
Definition jlt (a b : number) : bool := SFltb a b.
Definition jgt (a b : number) : bool := SFltb b a.
Definition jge (a b : number) : bool := SFleb b a.
Definition jeq (a b : number) : bool := SFeqb a b.

Infix "+" := jadd : js_scope.
Infix "-" := jsub : js_scope.
Infix "*" := jmul : js_scope.
Infix "/" := jdiv : js_scope.
Infix "<?" := jlt : js_scope.
Infix ">?" := jgt (at level 70) : js_scope.
Infix ">=?" := jge (at level 70) : js_scope.
Infix "===" := jeq (at level 70) : js_scope.

(** The number written [m * 2^e], normalised to binary64. *)
Definition lit (m e : Z) : number := binary_normalize prec emax m e false.

(** An integer literal, and a decimal literal [n / 10^k].  The quotient of
    two exactly represented integers is correctly rounded, so [dec n k] is
    the binary64 value nearest to the decimal, which is what the script's
    literal denotes. *)
Definition int (n : Z) : number := lit n 0.
Definition dec (n : Z) (k : Z) : number := jdiv (int n) (int (10 ^ k)).

Definition NaN : number := S754_nan.
Definition zero : number := S754_zero false.

(** ToBoolean on a number: [0], [-0] and [NaN] are falsy. *)
Definition truthy (a : number) : bool :=
  match a with
  | S754_zero _ | S754_nan => false
  | _ => true
  end.

(** [a || b] on numbers. *)
Definition orElse (a b : number) : number := if truthy a then a else b.

Definition Math_abs : number -> number := SFabs.

(** [Math.max] and [Math.min] of two arguments: NaN if either is NaN, and
    [+0] counts as larger than [-0]. *)
Definition Math_max (a b : number) : number :=
  match SFcompare a b with
  | None => NaN
  | Some Lt => b
  | Some Gt => a
  | Some Eq => match a with S754_zero true => b | _ => a end
  end.

Definition Math_min (a b : number) : number :=
  match SFcompare a b with
  | None => NaN
  | Some Lt => a
  | Some Gt => b
  | Some Eq => match a with S754_zero false => b | _ => a end
  end.

(** [Math.PI], 0x400921FB54442D18. *)
Definition Math_PI : number := lit 7074237752028440 (-51).

(** The constants of the script. *)
Definition COUNTDOWN_SECONDS : number := int 10.
Definition MIN_REP_INTERVAL_MS : number := int 800.
Definition MIN_DOWN_HOLD_MS : number := int 250.
Definition DOWN_ANGLE_THRESHOLD : number := int 90.
Definition UP_ANGLE_THRESHOLD : number := int 160.
Definition SHOULDER_DROP_RATIO : number := dec 18 2.

(** The arithmetic is left folded by [cbn] and [simpl]; [vm_compute] runs
    it. *)
Arguments jadd : simpl never.
Arguments jsub : simpl never.
Arguments jmul : simpl never.
Arguments jdiv : simpl never.
Arguments jlt : simpl never.
Arguments jgt : simpl never.
Arguments jge : simpl never.
Arguments jeq : simpl never.
Arguments lit : simpl never.
Arguments int : simpl never.
Arguments dec : simpl never.
Arguments Math_abs : simpl never.
Arguments Math_max : simpl never.
Arguments Math_min : simpl never.

(* ===================================================================== *)
(** * Exceptions *)
(* ===================================================================== *)

(** A computation that may throw (a [TypeError] on a missing keypoint, a
    rejected promise of the pose source). *)
Inductive Exc (A : Type) : Type :=
| Ok (a : A)
| Throw.
Arguments Throw {A}.

Definition bind {A B : Type} (c : Exc A) (k : A -> Exc B) : Exc B :=
  match c with
  | Ok a => k a
  | Throw => Throw
  end.

Notation "x <- c ;; k" := (bind c (fun x => k))
  (at level 61, c at next level, right associativity).

(* ===================================================================== *)
(** * Data *)
(* ===================================================================== *)

(** A keypoint as the pose source delivers it: [score] and [probability]
    may be missing ([undefined] or [null]). *)
Record RawKeypoint : Type := {
  raw_x : number;
  raw_y : number;
  raw_score : option number;
  raw_probability : option number
}.

Record Pose : Type := { keypoints : list RawKeypoint }.

(** What [getKey] returns. *)
Record Keypoint : Type := { x : number; y : number; score : number }.

Record Baseline : Type := {
  shoulderY : number;
  hipY : number;
  shoulderWidth : number;
  bodyHeight : number;
  shoulderDropThreshold : number
}.

(** The values [lastPosition] takes: ['up'] and ['down']. *)
Inductive Position : Type := Up | Down.

(** The texts written to [feedbackText]. *)
Inductive Feedback : Type :=
| FbNone                 (* the text of the page before any command *)
| FbCameraOn             (* 'Câmera ativa. Posicione-se ...' *)
| FbCameraError          (* 'Erro ao aceder à câmara: ...' *)
| FbCameraOff            (* 'Câmara desativada.' *)
| FbOpenCameraFirst      (* 'Abre a câmara primeiro.' *)
| FbLoadingModel         (* 'A carregar modelo (MoveNet) — aguarda ...' *)
| FbModelLoaded          (* 'Modelo carregado. Pronto para calibrar.' *)
| FbStopped              (* 'Detecção parada.' *)
| FbPreparing            (* 'Preparando...' *)
| FbCalibrationFailed    (* 'Falha na calibração ...' *)
| FbStarted              (* 'Detecção iniciada. ...' *)
| FbCountReset           (* 'Contagem zerada.' *)
| FbValidRep (total : N) (* `Flexão válida! Total: ${pushCount}` *)
| FbHoldLonger           (* 'Mantém a descida por mais uns ms para contar.' *)
| FbTooFast              (* 'Movimento rápido detectado — desacelera.' *)
| FbAdjustPosture        (* 'Ajusta postura: ...' *)
| FbDescentDetected      (* 'Descida detectada — mantém posição.' *)
| FbReturnToTop.         (* 'Volta à posição alta.' *)

(** What [updateUI] writes. *)
Inductive PostureMark : Type := MarkOk | MarkPending | MarkDash.

Record Screen : Type := {
  liveCounter : N;
  statusCamera : bool;
  statusDetection : bool;
  statusPosture : PostureMark;
  startDetectActive : bool
}.

(** The mutable state of the page: [STATE], the module-level variables and
    the texts on screen. *)
Record World : Type := {
  stream : bool;                 (* STATE.stream is not null *)
  running : bool;                (* STATE.detector.running *)
  pushCount : N;                 (* STATE.detector.pushCount *)
  detector : bool;               (* the pose model is loaded *)
  baseline : option Baseline;
  lastPosition : Position;
  lastRepTime : number;
  lastDownTime : number;
  feedbackText : Feedback;
  screen : Screen
}.

(** The page as loaded: the initialisers of lines 15-28, then [init]. *)
Definition initialWorld : World := {|
  stream := false;
  running := false;
  pushCount := 0;
  detector := false;
  baseline := None;
  lastPosition := Up;
  lastRepTime := zero;
  lastDownTime := zero;
  feedbackText := FbNone;
  screen := {| liveCounter := 0; statusCamera := false; statusDetection := false;
               statusPosture := MarkDash; startDetectActive := false |}
|}.

Definition set_stream (v : bool) (w : World) : World :=
  {| stream := v; running := running w; pushCount := pushCount w;
     detector := detector w; baseline := baseline w;
     lastPosition := lastPosition w; lastRepTime := lastRepTime w;
     lastDownTime := lastDownTime w; feedbackText := feedbackText w;
     screen := screen w |}.

Definition set_running (v : bool) (w : World) : World :=
  {| stream := stream w; running := v; pushCount := pushCount w;
     detector := detector w; baseline := baseline w;
     lastPosition := lastPosition w; lastRepTime := lastRepTime w;
     lastDownTime := lastDownTime w; feedbackText := feedbackText w;
     screen := screen w |}.

Definition set_pushCount (v : N) (w : World) : World :=
  {| stream := stream w; running := running w; pushCount := v;
     detector := detector w; baseline := baseline w;
     lastPosition := lastPosition w; lastRepTime := lastRepTime w;
     lastDownTime := lastDownTime w; feedbackText := feedbackText w;
     screen := screen w |}.

Definition set_detector (v : bool) (w : World) : World :=
  {| stream := stream w; running := running w; pushCount := pushCount w;
     detector := v; baseline := baseline w;
     lastPosition := lastPosition w; lastRepTime := lastRepTime w;
     lastDownTime := lastDownTime w; feedbackText := feedbackText w;
     screen := screen w |}.

Definition set_baseline (v : option Baseline) (w : World) : World :=
  {| stream := stream w; running := running w; pushCount := pushCount w;
     detector := detector w; baseline := v;
     lastPosition := lastPosition w; lastRepTime := lastRepTime w;
     lastDownTime := lastDownTime w; feedbackText := feedbackText w;
     screen := screen w |}.

Definition set_lastPosition (v : Position) (w : World) : World :=
  {| stream := stream w; running := running w; pushCount := pushCount w;
     detector := detector w; baseline := baseline w;
     lastPosition := v; lastRepTime := lastRepTime w;
     lastDownTime := lastDownTime w; feedbackText := feedbackText w;
     screen := screen w |}.

Definition set_lastRepTime (v : number) (w : World) : World :=
  {| stream := stream w; running := running w; pushCount := pushCount w;
     detector := detector w; baseline := baseline w;
     lastPosition := lastPosition w; lastRepTime := v;
     lastDownTime := lastDownTime w; feedbackText := feedbackText w;
     screen := screen w |}.

Definition set_lastDownTime (v : number) (w : World) : World :=
  {| stream := stream w; running := running w; pushCount := pushCount w;
     detector := detector w; baseline := baseline w;
     lastPosition := lastPosition w; lastRepTime := lastRepTime w;
     lastDownTime := v; feedbackText := feedbackText w;
     screen := screen w |}.

Definition set_feedbackText (v : Feedback) (w : World) : World :=
  {| stream := stream w; running := running w; pushCount := pushCount w;
     detector := detector w; baseline := baseline w;
     lastPosition := lastPosition w; lastRepTime := lastRepTime w;
     lastDownTime := lastDownTime w; feedbackText := v;
     screen := screen w |}.

Definition set_screen (v : Screen) (w : World) : World :=
  {| stream := stream w; running := running w; pushCount := pushCount w;
     detector := detector w; baseline := baseline w;
     lastPosition := lastPosition w; lastRepTime := lastRepTime w;
     lastDownTime := lastDownTime w; feedbackText := feedbackText w;
     screen := v |}.

(* ===================================================================== *)
(** * Geometry primitives *)
(* ===================================================================== *)

Local Open Scope js_scope.

(** [k.score ?? k.probability ?? 0]. *)
Definition scoreOf (k : RawKeypoint) : number :=
  match raw_score k with
  | Some s => s
  | None => match raw_probability k with
            | Some p => p
            | None => int 0
            end
  end.

(** [getKey(pose, idx)]: reading a field of a keypoint the pose does not
    have is a [TypeError]. *)
Definition getKey (pose : Pose) (idx : nat) : Exc Keypoint :=
  match nth_error (keypoints pose) idx with
  | Some k => Ok {| x := raw_x k; y := raw_y k; score := scoreOf k |}
  | None => Throw
  end.

(** [getMidpointY(pose, aIdx, bIdx)]: [None] is the script's [null]. *)
Definition getMidpointY (pose : Pose) (aIdx bIdx : nat) : Exc (option number) :=
  a <- getKey pose aIdx ;;
  b <- getKey pose bIdx ;;
  if (score a <? dec 35 2) || (score b <? dec 35 2) then Ok None
  else Ok (Some ((y a + y b) / int 2)).

(** ToBoolean on [null] or a number. *)
Definition truthyOpt (v : option number) : bool :=
  match v with
  | Some a => truthy a
  | None => false
  end.

(** The six joints [evaluateForPushUp] reads (lines 229-234). *)
Record Joints : Type := {
  leftShoulder : Keypoint;
  rightShoulder : Keypoint;
  leftElbow : Keypoint;
  rightElbow : Keypoint;
  leftWrist : Keypoint;
  rightWrist : Keypoint
}.

Definition getJoints (pose : Pose) : Exc Joints :=
  ls <- getKey pose 5 ;;
  rs <- getKey pose 6 ;;
  le <- getKey pose 7 ;;
  re <- getKey pose 8 ;;
  lw <- getKey pose 9 ;;
  rw <- getKey pose 10 ;;
  Ok {| leftShoulder := ls; rightShoulder := rs; leftElbow := le;
        rightElbow := re; leftWrist := lw; rightWrist := rw |}.

(** Line 235: the frame is skipped. *)
Definition shouldersUnusable (j : Joints) : bool :=
  (score (leftShoulder j) <? dec 35 2) || (score (rightShoulder j) <? dec 35 2).

(** Lines 244-245. *)
Definition wristsUnderOf (j : Joints) : bool :=
  let shoulderWidth := Math_abs (x (leftShoulder j) - x (rightShoulder j)) in
  ((score (leftWrist j) >=? dec 25 2) &&
   (Math_abs (x (leftWrist j) - x (leftShoulder j)) <? shoulderWidth * dec 9 1)) &&
  ((score (rightWrist j) >=? dec 25 2) &&
   (Math_abs (x (rightWrist j) - x (rightShoulder j)) <? shoulderWidth * dec 9 1)).

(** Lines 237 and 247, for a baseline that is set. *)
Definition shoulderDropOf (j : Joints) (b : Baseline) : number :=
  let shoulderMidY := (y (leftShoulder j) + y (rightShoulder j)) / int 2 in
  shoulderMidY - shoulderY b.

(** Lines 248 and 249. *)
Definition downDetectedOf (elbowAvg shoulderDrop : number) (wristsUnder : bool)
    (b : Baseline) : bool :=
  (elbowAvg <? DOWN_ANGLE_THRESHOLD) &&
  (shoulderDrop >? shoulderDropThreshold b * dec 85 2) && wristsUnder.

Definition upDetectedOf (elbowAvg shoulderDrop : number) (b : Baseline) : bool :=
  (elbowAvg >? UP_ANGLE_THRESHOLD) &&
  (shoulderDrop <? shoulderDropThreshold b * dec 45 2).

(* ===================================================================== *)
(** * The page's own state changes *)
(* ===================================================================== *)

(** [updateUI()]. *)
Definition updateUI (w : World) : World :=
  set_screen
    {| liveCounter := pushCount w;
       statusCamera := stream w;
       statusDetection := running w;
       statusPosture :=
         match baseline w with
         | Some _ => if running w then MarkOk else MarkDash
         | None => if running w then MarkPending else MarkDash
         end;
       startDetectActive := running w |} w.

(** [STATE.detector.pushCount++].  The counter is a binary64 number that
    holds an integer: adding one is exact below [2^53] and leaves [2^53]
    itself unchanged (ties round to even). *)
Definition MAX_EXACT : N := 2 ^ 53.

Definition increment (n : N) : N :=
  if (n <? MAX_EXACT)%N then (n + 1)%N else n.

(** Lines 251-277: the repetition state machine and the feedback it
    writes, from the two predicates of the frame and the clock reading. *)
Definition repetitionUpdate (downDetected upDetected : bool) (now : number)
    (w : World) : World :=
  let w1 :=
    match downDetected, lastPosition w with
    | true, Up => set_lastDownTime now (set_lastPosition Down w)
    | _, _ => w
    end in
  match lastPosition w1, upDetected with
  | Down, true =>
      let held := now - lastDownTime w1 in
      let sinceLastRep := now - lastRepTime w1 in
      if (held >=? MIN_DOWN_HOLD_MS) && (sinceLastRep >=? MIN_REP_INTERVAL_MS) then
        let w2 := set_pushCount (increment (pushCount w1)) w1 in
        let w3 := set_lastRepTime now w2 in
        let w4 := set_lastPosition Up w3 in
        let w5 := set_feedbackText (FbValidRep (pushCount w4)) w4 in
        updateUI w5
      else if held <? MIN_DOWN_HOLD_MS then set_feedbackText FbHoldLonger w1
      else if sinceLastRep <? MIN_REP_INTERVAL_MS then set_feedbackText FbTooFast w1
      else w1
  | _, _ =>
      if negb downDetected && negb upDetected then set_feedbackText FbAdjustPosture w1
      else if downDetected then set_feedbackText FbDescentDetected w1
      else if upDetected then set_feedbackText FbReturnToTop w1
      else w1
  end.

(** [stopDetection()]. *)
Definition stopDetection (w : World) : World :=
  let w1 := set_running false w in
  let w2 := set_baseline None w1 in
  let w3 := set_lastPosition Up w2 in
  set_feedbackText FbStopped (updateUI w3).

(** [stopCamera()]. *)
Definition stopCamera (w : World) : World :=
  let w1 := stopDetection w in
  let w2 := set_stream false w1 in
  updateUI (set_feedbackText FbCameraOff w2).

(** How [startCamera()] went: [getUserMedia] rejected, or it resolved and
    [video.play()] rejected, or both resolved. *)
Inductive CameraOutcome : Type := Denied | PlayFailed | Playing.

(** [startCamera()]. *)
Definition startCamera (outcome : CameraOutcome) (w : World) : World :=
  match outcome with
  | Denied => set_feedbackText FbCameraError w
  | PlayFailed => set_feedbackText FbCameraError (set_stream true w)
  | Playing => updateUI (set_feedbackText FbCameraOn (set_stream true w))
  end.

(** The click handler of the reset button (line 41). *)
Definition resetCount (w : World) : World :=
  set_feedbackText FbCountReset (updateUI (set_pushCount 0 w)).

(* ===================================================================== *)
(** * Calibration *)
(* ===================================================================== *)

(** What one call of [detector.estimatePoses] gives: a rejected promise, or
    the first pose of the list if the list has one. *)
Inductive Estimate : Type :=
| Rejected
| Poses (first : option Pose).

Record Sample : Type := {
  sampleShoulderY : number;
  sampleHipY : number;
  sampleShoulderWidth : number
}.

(** Lines 147-149. *)
Definition calibrationWidth (p : Pose) : Exc number :=
  l <- getKey p 5 ;;
  r <- getKey p 6 ;;
  Ok (orElse (Math_abs (x l - x r)) (int 1)).

(** Lines 146-150: the sample a pose contributes, if it is accepted. *)
Definition sampleOf (p : Pose) : Exc (option Sample) :=
  s <- getMidpointY p 5 6 ;;
  hip <- getMidpointY p 11 12 ;;
  shoulderWidth <- calibrationWidth p ;;
  match s, hip with
  | Some sv, Some hv =>
      if truthy sv && truthy hv && (shoulderWidth >? int 10)
      then Ok (Some {| sampleShoulderY := sv; sampleHipY := hv;
                       sampleShoulderWidth := shoulderWidth |})
      else Ok None
  | _, _ => Ok None
  end.

(** The loop of lines 143-153: [tries - i] attempts are left, and the
    [i]-th call of the pose source gives [estimatePoses i]. *)
Fixpoint collectSamples (estimatePoses : nat -> Estimate) (i left : nat)
    (collected : list Sample) : Exc (list Sample) :=
  match left with
  | O => Ok collected
  | S left' =>
      match estimatePoses i with
      | Rejected => Throw
      | Poses None => collectSamples estimatePoses (S i) left' collected
      | Poses (Some p) =>
          s <- sampleOf p ;;
          collectSamples estimatePoses (S i) left'
            match s with
            | Some smp => collected ++ [smp]
            | None => collected
            end
      end
  end.

Definition tries : nat := 6.

(** [collected.reduce((a,b) => a + f(b), 0) / collected.length]. *)
Definition average (f : Sample -> number) (collected : list Sample) : number :=
  fold_left (fun a b => a + f b) collected (int 0)
  / int (Z.of_nat (length collected)).

(** Lines 155-160. *)
Definition baselineOf (collected : list Sample) : Baseline :=
  let avgShoulderY := average sampleShoulderY collected in
  let avgHipY := average sampleHipY collected in
  let avgShoulderW := average sampleShoulderWidth collected in
  let bodyHeight := Math_max (int 20) (Math_abs (avgHipY - avgShoulderY)) in
  {| shoulderY := avgShoulderY; hipY := avgHipY; shoulderWidth := avgShoulderW;
     bodyHeight := bodyHeight;
     shoulderDropThreshold := bodyHeight * SHOULDER_DROP_RATIO |}.

(** [calibrateBaseline()]: the value returned and the state left. *)
Definition calibrateBaseline (estimatePoses : nat -> Estimate) (w : World)
    : Exc (bool * World) :=
  collected <- collectSamples estimatePoses 0 tries [] ;;
  match collected with
  | [] => Ok (false, w)
  | _ :: _ => Ok (true, set_baseline (Some (baselineOf collected)) w)
  end.

(** [startCountdownAndRun()], up to the first call of [runDetectionLoop].
    A throw of the calibration rejects the promise: the state stays as the
    countdown left it. *)
Definition startCountdownAndRun (estimatePoses : nat -> Estimate) (w : World)
    : World :=
  let w1 := updateUI (set_running false w) in
  let w2 := set_feedbackText FbPreparing w1 in
  match calibrateBaseline estimatePoses w2 with
  | Throw => w2
  | Ok (false, w3) => set_feedbackText FbCalibrationFailed w3
  | Ok (true, w3) =>
      let w4 := updateUI (set_running true w3) in
      let w5 := set_lastPosition Up w4 in
      let w6 := set_lastRepTime (int 0) w5 in
      set_feedbackText FbStarted w6
  end.

(** How [initPoseModel()] went: one of its three awaits rejected
    ([tf.ready], [tf.setBackend], [createDetector]), or the detector was
    created. *)
Inductive ModelOutcome : Type := LoadFailed | Loaded.

(** [initPoseModel()]: the state it leaves.  A rejection leaves the text
    of line 83 and no detector. *)
Definition initPoseModel (load : ModelOutcome) (w : World) : World :=
  let w1 := set_feedbackText FbLoadingModel w in
  match load with
  | LoadFailed => w1
  | Loaded => set_feedbackText FbModelLoaded (set_detector true w1)
  end.

(** [startOrStopDetection()].  When [initPoseModel] rejects, the handler
    ends there: line 94 is not reached. *)
Definition startOrStopDetection (load : ModelOutcome)
    (estimatePoses : nat -> Estimate) (w : World) : World :=
  if negb (stream w) then set_feedbackText FbOpenCameraFirst w
  else if running w then stopDetection w
  else if detector w then startCountdownAndRun estimatePoses w
  else
    match load with
    | LoadFailed => initPoseModel LoadFailed w
    | Loaded => startCountdownAndRun estimatePoses (initPoseModel Loaded w)
    end.

(* ===================================================================== *)
(** * Drawing *)
(* ===================================================================== *)

(** [strokeLine(a, b, color)]: reading [A.score] throws on a keypoint the
    pose does not have, and [B.score] is read only when [A.score ?? 0] is
    not below 0.35.  What is painted is not modelled. *)
Definition strokeLine (pose : Pose) (a b : nat) : Exc unit :=
  match nth_error (keypoints pose) a with
  | None => Throw
  | Some A =>
      if match raw_score A with Some s => s | None => int 0 end <? dec 35 2
      then Ok tt
      else match nth_error (keypoints pose) b with
           | None => Throw
           | Some _ => Ok tt
           end
  end.

(** [drawPose(pose)]: the ten segments in the order of lines 214-223; the
    points of line 225 range over the keypoints the pose has. *)
Definition drawPose (pose : Pose) : Exc unit :=
  _ <- strokeLine pose 5 7 ;;
  _ <- strokeLine pose 7 9 ;;
  _ <- strokeLine pose 6 8 ;;
  _ <- strokeLine pose 8 10 ;;
  _ <- strokeLine pose 5 6 ;;
  _ <- strokeLine pose 11 12 ;;
  _ <- strokeLine pose 5 11 ;;
  _ <- strokeLine pose 6 12 ;;
  _ <- strokeLine pose 11 13 ;;
  strokeLine pose 12 14.

(* ===================================================================== *)
(** * Per-frame evaluation *)
(* ===================================================================== *)

Section Evaluation.

(** [Math.hypot] of two arguments and [Math.acos]. *)
Variable Math_hypot : number -> number -> number.
Variable Math_acos : number -> number.

(** [angleDeg(a, b, c)]. *)
Definition angleDeg (a b c : Keypoint) : number :=
  let abx := x a - x b in
  let aby := y a - y b in
  let cbx := x c - x b in
  let cby := y c - y b in
  let dot := abx * cbx + aby * cby in
  let mag1 := Math_hypot abx aby in
  let mag2 := Math_hypot cbx cby in
  if (mag1 === int 0) || (mag2 === int 0) then int 180
  else
    let cos := Math_max (int (-1)) (Math_min (int 1) (dot / (mag1 * mag2))) in
    Math_acos cos * int 180 / Math_PI.

(** Lines 239-241. *)
Definition elbowAvgOf (j : Joints) : number :=
  let elbowAngleL := angleDeg (leftShoulder j) (leftElbow j) (leftWrist j) in
  let elbowAngleR := angleDeg (rightShoulder j) (rightElbow j) (rightWrist j) in
  (elbowAngleL + elbowAngleR) / int 2.

(** [evaluateForPushUp(pose)], with the reading [now] of
    [performance.now()].  With no baseline, [shoulderDrop] is [0] and
    reading [baseline.shoulderDropThreshold] throws; [&&] evaluates it
    only when the angle test before it holds. *)
Definition evaluateForPushUp (pose : Pose) (now : number) (w : World)
    : Exc World :=
  j <- getJoints pose ;;
  if shouldersUnusable j then Ok w
  else
    let elbowAvg := elbowAvgOf j in
    let wristsUnder := wristsUnderOf j in
    match baseline w with
    | Some b =>
        let shoulderDrop := shoulderDropOf j b in
        let downDetected := downDetectedOf elbowAvg shoulderDrop wristsUnder b in
        let upDetected := upDetectedOf elbowAvg shoulderDrop b in
        Ok (repetitionUpdate downDetected upDetected now w)
    | None =>
        if (elbowAvg <? DOWN_ANGLE_THRESHOLD) || (elbowAvg >? UP_ANGLE_THRESHOLD)
        then Throw
        else Ok (repetitionUpdate false false now w)
    end.

(** One run of [runDetectionLoop()]: the pose source gave [est] and the
    clock reads [now].  The [catch] logs and goes on. *)
Definition runDetectionLoop (est : Estimate) (now : number) (w : World)
    : World :=
  if negb (running w) then w
  else
    match est with
    | Rejected => w
    | Poses None => w
    | Poses (Some pose) =>
        match drawPose pose with
        | Throw => w
        | Ok _ =>
            match baseline w with
            | None => w
            | Some _ =>
                match evaluateForPushUp pose now w with
                | Ok w' => w'
                | Throw => w
                end
            end
        end
    end.

(** The commands of the page and the frames of the detection loop. *)
Inductive Op : Type :=
| ClickStartCamera (outcome : CameraOutcome)
| ClickStopCamera
| ClickStartDetect (load : ModelOutcome) (estimatePoses : nat -> Estimate)
| ClickResetCount
| Frame (est : Estimate) (now : number).

Definition step (op : Op) (w : World) : World :=
  match op with
  | ClickStartCamera outcome => startCamera outcome w
  | ClickStopCamera => stopCamera w
  | ClickStartDetect load estimatePoses =>
      startOrStopDetection load estimatePoses w
  | ClickResetCount => resetCount w
  | Frame est now => runDetectionLoop est now w
  end.

End Evaluation.

(* ===================================================================== *)
(** * The countdown and the timers *)
(* ===================================================================== *)

(** What the countdown overlay shows: the seconds left, or 'COMEÇAR'. *)
Inductive CountdownText : Type :=
| SecondsLeft (n : number)
| Comecar.

(** What [startCountdownAndRun] does, from its first line to the return
    of [calibrateBaseline], as far as the overlay and the clock go. *)
Inductive TimelineEvent : Type :=
| Shows (text : CountdownText)   (* showCountdown(n) *)
| Hides                          (* hideCountdown() *)
| Waits (ms : Z).                (* await new Promise(res => setTimeout(res, ms)) *)

(** [showCountdown(n)]. *)
Definition showCountdown (n : number) : TimelineEvent :=
  Shows (if n >? int 0 then SecondsLeft n else Comecar).

(** [hideCountdown()]. *)
Definition hideCountdown : TimelineEvent := Hides.

(** The loop of lines 123-127, for at most [fuel] tests of [t > 0]. *)
Fixpoint countdownLoop (fuel : nat) (t : number) : option (list TimelineEvent) :=
  match fuel with
  | O => None
  | S fuel' =>
      if t >? int 0 then
        let t' := t - int 1 in
        match countdownLoop fuel' t' with
        | Some rest => Some (Waits 1000 :: showCountdown t' :: rest)
        | None => None
        end
      else Some []
  end.

(** Lines 120-129 of [startCountdownAndRun]. *)
Definition countdown (fuel : nat) : option (list TimelineEvent) :=
  let t := COUNTDOWN_SECONDS in
  match countdownLoop fuel t with
  | Some loop => Some (showCountdown t :: loop ++ [Waits 300; hideCountdown])
  | None => None
  end.

(** The timers of [calibrateBaseline] (line 152): one after each attempt,
    as long as no attempt throws. *)
Fixpoint calibrationTimeline (estimatePoses : nat -> Estimate) (i left : nat)
    : Exc (list TimelineEvent) :=
  match left with
  | O => Ok []
  | S left' =>
      match estimatePoses i with
      | Rejected => Throw
      | Poses None =>
          rest <- calibrationTimeline estimatePoses (S i) left' ;;
          Ok (Waits 120 :: rest)
      | Poses (Some p) =>
          _ <- sampleOf p ;;
          rest <- calibrationTimeline estimatePoses (S i) left' ;;
          Ok (Waits 120 :: rest)
      end
  end.

(** [startCountdownAndRun] from line 118 to the return of
    [calibrateBaseline] at line 130; [None] when the fuel runs out or the
    calibration throws. *)
Definition sessionTimeline (fuel : nat) (estimatePoses : nat -> Estimate)
    : option (list TimelineEvent) :=
  match countdown fuel, calibrationTimeline estimatePoses 0 tries with
  | Some c, Ok k => Some (c ++ k)
  | _, _ => None
  end.

(** The time the timers of a timeline take at least, in ms. *)
Fixpoint delay (tl : list TimelineEvent) : Z :=
  match tl with
  | [] => 0%Z
  | Waits ms :: rest => (ms + delay rest)%Z
  | _ :: rest => delay rest
  end.



(* ===================================================================== *)
(** * The vocabulary of the specification *)
(* ===================================================================== *)

(** The two sides of the body, and the joints of a side. *)
Inductive Side : Type := LeftSide | RightSide.

Definition shoulder (s : Side) (j : Joints) : Keypoint :=
  match s with LeftSide => leftShoulder j | RightSide => rightShoulder j end.

Definition elbow (s : Side) (j : Joints) : Keypoint :=
  match s with LeftSide => leftElbow j | RightSide => rightElbow j end.

Definition wrist (s : Side) (j : Joints) : Keypoint :=
  match s with LeftSide => leftWrist j | RightSide => rightWrist j end.

(** The shoulder width of the current frame. *)
Definition currentShoulderWidth (j : Joints) : number :=
  Math_abs (x (leftShoulder j) - x (rightShoulder j)).

(** The two timing gates of a frame read at [now]. *)
Definition held (now : number) (w : World) : number := now - lastDownTime w.
Definition sinceLastRep (now : number) (w : World) : number := now - lastRepTime w.

Definition holdGate (now : number) (w : World) : bool :=
  held now w >=? int 250.
Definition intervalGate (now : number) (w : World) : bool :=
  sinceLastRep now w >=? int 800.

(** A midpoint is valid when it is not absent. *)
Definition valid (m : option number) : bool :=
  match m with Some _ => true | None => false end.

(** [v] floored at 1, as the specification words the calibration width. *)
Definition flooredAt1 (v : number) : number := Math_max (int 1) v.

(** The arithmetic mean of a list of numbers, summed from the left. *)
Definition mean (vs : list number) : number :=
  fold_left jadd vs (int 0) / int (Z.of_nat (length vs)).

(** An attempt of the calibration completes when the pose source resolves
    and the pose, if there is one, has the keypoints the sample reads. *)
Definition attemptCompletes (estimatePoses : nat -> Estimate) (i : nat) : bool :=
  match estimatePoses i with
  | Rejected => false
  | Poses None => true
  | Poses (Some p) => match sampleOf p with Ok _ => true | Throw => false end
  end.

(** The sample the [i]-th attempt accepts, if any. *)
Definition acceptedAt (estimatePoses : nat -> Estimate) (i : nat) : list Sample :=
  match estimatePoses i with
  | Poses (Some p) => match sampleOf p with Ok (Some s) => [s] | _ => [] end
  | _ => []
  end.

(** The samples accepted over the attempts [i, i + n). *)
Definition acceptedFrom (estimatePoses : nat -> Estimate) (i n : nat) : list Sample :=
  flat_map (acceptedAt estimatePoses) (seq i n).

(* ===================================================================== *)
(** * Example data *)
(* ===================================================================== *)

(** A keypoint with a score, as [getKey] returns it and as the pose source
    delivers it. *)
Definition pt (px py sc : number) : Keypoint :=
  {| x := px; y := py; score := sc |}.

Definition rawOf (k : Keypoint) : RawKeypoint :=
  {| raw_x := x k; raw_y := y k; raw_score := Some (score k);
     raw_probability := None |}.

(** A MoveNet pose of 17 keypoints, from the six joints the evaluation
    reads and the two hips; the face, the knees and the ankles are put at
    the origin with score 0. *)
Definition poseOf (j : Joints) (leftHip rightHip : Keypoint) : Pose :=
  let o := rawOf (pt (int 0) (int 0) (int 0)) in
  {| keypoints :=
       [o; o; o; o; o;
        rawOf (leftShoulder j); rawOf (rightShoulder j);
        rawOf (leftElbow j); rawOf (rightElbow j);
        rawOf (leftWrist j); rawOf (rightWrist j);
        rawOf leftHip; rawOf rightHip; o; o; o; o] |}.

(** Stand-ins for the two library functions, used to run the script on
    example poses: the square root of the sum of squares, and an arc
    cosine in three steps that has the values ECMAScript fixes (NaN on NaN
    and outside [-1, 1], [+0] at 1) and stays between [+0] and [Math.PI]. *)
Definition hypot_naive (a b : number) : number :=
  match a, b with
  | S754_infinity _, _ | _, S754_infinity _ => S754_infinity false
  | _, _ => SFsqrt prec emax (a * a + b * b)
  end.

Definition acos_steps (c : number) : number :=
  if (c >=? int (-1)) && (int 1 >=? c) then
    if c === int 1 then zero
    else if c === int (-1) then Math_PI
    else Math_PI / int 2
  else NaN.

(** A baseline with [shoulderY = 100] and [shoulderDropThreshold = 36]:
    shoulders at height 100, hips at 300, so that [bodyHeight] is 200. *)
Definition baseline100 : Baseline :=
  {| shoulderY := int 100; hipY := int 300; shoulderWidth := int 80;
     bodyHeight := int 200; shoulderDropThreshold := int 36 |}.

(** A running session on [baseline100]. *)
Definition session (p : Position) (count : N) (rep down : number) : World :=
  {| stream := true; running := true; pushCount := count; detector := true;
     baseline := Some baseline100; lastPosition := p;
     lastRepTime := rep; lastDownTime := down; feedbackText := FbStarted;
     screen := {| liveCounter := count; statusCamera := true;
                  statusDetection := true; statusPosture := MarkOk;
                  startDetectActive := true |} |}.

(** Top of a push-up: shoulders at height 110, 80 apart, each wrist on
    its elbow (a ray of length zero, so that the angle is 180). *)
Definition jointsTop : Joints :=
  {| leftShoulder := pt (int 140) (int 110) (dec 9 1);
     rightShoulder := pt (int 60) (int 110) (dec 9 1);
     leftElbow := pt (int 150) (int 200) (dec 9 1);
     rightElbow := pt (int 50) (int 200) (dec 9 1);
     leftWrist := pt (int 150) (int 200) (dec 9 1);
     rightWrist := pt (int 50) (int 200) (dec 9 1) |}.

Definition poseTop : Pose :=
  poseOf jointsTop (pt (int 130) (int 300) (dec 9 1)) (pt (int 70) (int 300) (dec 9 1)).

(** Bottom of a push-up: shoulders at height 135, each wrist folded back
    onto its shoulder (the two rays coincide, the cosine is 1). *)
Definition jointsBottom : Joints :=
  {| leftShoulder := pt (int 140) (int 135) (dec 9 1);
     rightShoulder := pt (int 60) (int 135) (dec 9 1);
     leftElbow := pt (int 140) (int 175) (dec 9 1);
     rightElbow := pt (int 60) (int 175) (dec 9 1);
     leftWrist := pt (int 140) (int 135) (dec 9 1);
     rightWrist := pt (int 60) (int 135) (dec 9 1) |}.

Definition poseBottom : Pose :=
  poseOf jointsBottom (pt (int 130) (int 300) (dec 9 1)) (pt (int 70) (int 300) (dec 9 1)).

(** The same pose with a left shoulder the model is unsure of. *)
Definition jointsUnsure : Joints :=
  {| leftShoulder := pt (int 140) (int 135) (dec 2 1);
     rightShoulder := pt (int 60) (int 135) (dec 9 1);
     leftElbow := pt (int 140) (int 175) (dec 9 1);
     rightElbow := pt (int 60) (int 175) (dec 9 1);
     leftWrist := pt (int 140) (int 135) (dec 9 1);
     rightWrist := pt (int 60) (int 135) (dec 9 1) |}.

Definition poseUnsure : Pose :=
  poseOf jointsUnsure (pt (int 130) (int 300) (dec 9 1)) (pt (int 70) (int 300) (dec 9 1)).



(** A pose whose shoulders are half a pixel apart. *)
Definition poseNarrow : Pose :=
  poseOf {| leftShoulder := pt (dec 105 1) (int 110) (dec 9 1);
            rightShoulder := pt (int 10) (int 110) (dec 9 1);
            leftElbow := pt (int 150) (int 200) (dec 9 1);
            rightElbow := pt (int 50) (int 200) (dec 9 1);
            leftWrist := pt (int 150) (int 200) (dec 9 1);
            rightWrist := pt (int 50) (int 200) (dec 9 1) |}
         (pt (int 130) (int 300) (dec 9 1)) (pt (int 70) (int 300) (dec 9 1)).

(** A pose whose shoulders touch the upper edge of the image ([y = 0]),
    80 apart, every joint with score 0.9. *)
Definition poseAtEdge : Pose :=
  poseOf {| leftShoulder := pt (int 140) (int 0) (dec 9 1);
            rightShoulder := pt (int 60) (int 0) (dec 9 1);
            leftElbow := pt (int 150) (int 90) (dec 9 1);
            rightElbow := pt (int 50) (int 90) (dec 9 1);
            leftWrist := pt (int 150) (int 90) (dec 9 1);
            rightWrist := pt (int 50) (int 90) (dec 9 1) |}
         (pt (int 130) (int 190) (dec 9 1)) (pt (int 70) (int 190) (dec 9 1)).

(** A pose source that always sees [poseTop], and one that sees nobody. *)
Definition alwaysTop : nat -> Estimate := fun _ => Poses (Some poseTop).
Definition nobody : nat -> Estimate := fun _ => Poses None.

(** Keypoints of a degenerate frame: a coordinate that is NaN, and a
    distance of [2^-600] whose square underflows. *)
Definition origin : Keypoint := pt (int 0) (int 0) (dec 9 1).
Definition lostPoint : Keypoint := pt NaN (int 0) (dec 9 1).
Definition tiny : number := lit 1 (-600).
Definition nearPoint : Keypoint := pt tiny (int 0) (dec 9 1).

(* ===================================================================== *)
(** * The vocabulary of rounding *)
(* ===================================================================== *)

(** The record [mrs] (a mantissa [m], a round bit and a sticky bit)
    places the exact value [N / D]: on [m], strictly between [m] and
    [m + 1/2], on [m + 1/2], or strictly between [m + 1/2] and [m + 1]. *)
Definition loc_ok (N D : Z) (mrs : shr_record) : Prop :=
  match shr_r mrs, shr_s mrs with
  | false, false => (N = shr_m mrs * D)%Z
  | false, true => (2 * shr_m mrs * D < 2 * N < (2 * shr_m mrs + 1) * D)%Z
  | true, false => (2 * N = (2 * shr_m mrs + 1) * D)%Z
  | true, true => ((2 * shr_m mrs + 1) * D < 2 * N < (2 * shr_m mrs + 2) * D)%Z
  end.

(** The mantissas of [Math.PI], of 180 and of their rounded product. *)
Definition mPI : positive := 7074237752028440.
Definition m180 : positive := 6333186975989760.
Definition mP : positive := 4974073419394997.
Definition cPI : number := S754_finite false mPI (-51).
Definition c180 : number := S754_finite false m180 (-45).
Definition cP : number := S754_finite false mP (-43).

(** Radians to degrees, as the last line of [angleDeg] computes it. *)
Definition toDegrees (r : number) : number := r * int 180 / Math_PI.

(* ===================================================================== *)
(** * What ECMAScript fixes of the two library functions *)
(* ===================================================================== *)

Definition isZero (a : number) : bool :=
  match a with S754_zero _ => true | _ => false end.

Definition isInfinite (a : number) : bool :=
  match a with S754_infinity _ => true | _ => false end.

Definition isNaN (a : number) : bool :=
  match a with S754_nan => true | _ => false end.

(** [Math.hypot]: [+0] when every argument is a zero, NaN when an argument
    is NaN and none is infinite. *)
Definition hypot_conforms (hypot : number -> number -> number) : Prop :=
  (forall a b, isZero a = true -> isZero b = true -> hypot a b = zero)
  /\ (forall a b, isNaN a || isNaN b = true ->
                  isInfinite a || isInfinite b = false -> hypot a b = NaN).

(** [Math.acos]: NaN on NaN, and on an argument from -1 to 1 a binary64
    number that ranges from [+0] to [Math.PI]. *)
Definition acos_conforms (acos : number -> number) : Prop :=
  acos NaN = NaN
  /\ (forall c, (c >=? int (-1)) = true -> (int 1 >=? c) = true ->
                valid_binary prec emax (acos c) = true
                /\ (acos c >=? zero) = true /\ (Math_PI >=? acos c) = true).

(** The ray from [b] to [a] has length zero: the two differences
    [angleDeg] computes are zeros. *)
Definition zeroRay (a b : Keypoint) : bool :=
  isZero (x a - x b) && isZero (y a - y b).

(** The quotient [angleDeg] clamps: [dot / (mag1 * mag2)]. *)
Definition cosineOf (hypot : number -> number -> number) (a b c : Keypoint)
    : number :=
  let abx := x a - x b in
  let aby := y a - y b in
  let cbx := x c - x b in
  let cby := y c - y b in
  (abx * cbx + aby * cby) / (hypot abx aby * hypot cbx cby).

(* ===================================================================== *)
(** * Runs of the page *)
(* ===================================================================== *)

Section Traces.

Variable Math_hypot : number -> number -> number.
Variable Math_acos : number -> number.

(** The page after a list of operations, the first of the list first. *)
Definition run (ops : list Op) (w : World) : World :=
  fold_left (fun v op => step Math_hypot Math_acos op v) ops w.

(** The page after a list of frames of the detection loop, each with what
    the pose source gave and the clock reading. *)
Definition runFrames (frames : list (Estimate * number)) (w : World) : World :=
  fold_left (fun v f => runDetectionLoop Math_hypot Math_acos (fst f) (snd f) v)
            frames w.

(** A frame rises when it takes the machine from [Down] to [Up]. *)
Definition rises (est : Estimate) (now : number) (w : World) : bool :=
  match lastPosition w,
        lastPosition (runDetectionLoop Math_hypot Math_acos est now w) with
  | Down, Up => true
  | _, _ => false
  end.

(** The clock readings of the frames of a list that rise. *)
Fixpoint repTimes (frames : list (Estimate * number)) (w : World) : list number :=
  match frames with
  | [] => []
  | f :: rest =>
      (if rises (fst f) (snd f) w then [snd f] else [])
      ++ repTimes rest (runDetectionLoop Math_hypot Math_acos (fst f) (snd f) w)
  end.

End Traces.

(** Each reading of the list is at least 800 ms after the one before it,
    the first one after [t]. *)
Fixpoint spaced (t : number) (ts : list number) : Prop :=
  match ts with
  | [] => True
  | t1 :: rest => (t1 - t >=? MIN_REP_INTERVAL_MS) = true /\ spaced t1 rest
  end.

(** The joints of the mirror image: left and right exchanged. *)
Definition mirror (j : Joints) : Joints :=
  {| leftShoulder := rightShoulder j; rightShoulder := leftShoulder j;
     leftElbow := rightElbow j; rightElbow := leftElbow j;
     leftWrist := rightWrist j; rightWrist := leftWrist j |}.

(** The operations that are frames of the detection loop. *)
Definition framesOf (frames : list (Estimate * number)) : list Op :=
  map (fun f => Frame (fst f) (snd f)) frames.

(** A frame in which the pose source gave no pose. *)
Definition noPose (f : Estimate * number) : bool :=
  match fst f with
  | Poses (Some _) => false
  | _ => true
  end.

(** A body seen from the side: the two shoulders at the same [x]. *)
Definition jointsSideways : Joints :=
  {| leftShoulder := pt (int 100) (int 135) (dec 9 1);
     rightShoulder := pt (int 100) (int 135) (dec 9 1);
     leftElbow := pt (int 100) (int 175) (dec 9 1);
     rightElbow := pt (int 100) (int 175) (dec 9 1);
     leftWrist := pt (int 100) (int 135) (dec 9 1);
     rightWrist := pt (int 100) (int 135) (dec 9 1) |}.

(** The pose [poseTop] with left and right exchanged. *)
Definition poseTopMirrored : Pose :=
  poseOf (mirror jointsTop)
         (pt (int 70) (int 300) (dec 9 1)) (pt (int 130) (int 300) (dec 9 1)).

(** A pose cut after its first [n] keypoints. *)
Definition truncated (n : nat) (p : Pose) : Pose :=
  {| keypoints := firstn n (keypoints p) |}.

(** A pose source whose third answer is a rejected promise. *)
Definition rejectsThird : nat -> Estimate :=
  fun i => if Nat.eqb i 2 then Rejected else Poses (Some poseTop).

(** [poseTop] with a left wrist whose [x] is NaN. *)
Definition jointsLost : Joints :=
  {| leftShoulder := leftShoulder jointsTop;
     rightShoulder := rightShoulder jointsTop;
     leftElbow := leftElbow jointsTop;
     rightElbow := rightElbow jointsTop;
     leftWrist := pt NaN (int 200) (dec 9 1);
     rightWrist := rightWrist jointsTop |}.

Definition poseLost : Pose :=
  poseOf jointsLost (pt (int 130) (int 300) (dec 9 1)) (pt (int 70) (int 300) (dec 9 1)).

(* ===================================================================== *)
(** * The synchronous stretches of the handlers *)
(* ===================================================================== *)

(** The handlers of the page are [async]: each runs from the click to its
    first [await], and then from one [await] to the next, and between two
    such stretches any stretch of another handler may run.  What follows
    are the stretches that write the state. *)

(** [startCamera]: lines 56-58 once [getUserMedia] resolved; the [catch]
    of line 64, for either rejection; lines 59-62 once [video.play()]
    resolved. *)
Definition cameraGranted (w : World) : World := set_stream true w.
Definition cameraError (w : World) : World := set_feedbackText FbCameraError w.
Definition cameraPlaying (w : World) : World :=
  updateUI (set_feedbackText FbCameraOn w).

(** Lines 118-122: [startCountdownAndRun] up to its first [await]. *)
Definition beginCountdown (w : World) : World :=
  set_feedbackText FbPreparing (updateUI (set_running false w)).

(** [startOrStopDetection] up to its first [await]: lines 91-92, then
    line 83 of [initPoseModel] when there is no detector, lines 118-122 of
    [startCountdownAndRun] when there is one. *)
Definition detectClick (w : World) : World :=
  if negb (stream w) then set_feedbackText FbOpenCameraFirst w
  else if running w then stopDetection w
  else if detector w then beginCountdown w
  else set_feedbackText FbLoadingModel w.

(** Lines 86-87 of [initPoseModel], once [createDetector] resolved. *)
Definition modelLoaded (w : World) : World :=
  set_feedbackText FbModelLoaded (set_detector true w).

(** Lines 154-161 and 131-137, once the last timer of the calibration
    fired: [calibrateBaseline] returns and [startCountdownAndRun] resumes
    at once, before any other stretch.  The attempts before only filled
    the local [collected].  The calibration calls
    [detector.estimatePoses] (line 144), which throws while there is no
    detector; a throw ends the handler. *)
Definition endCountdown (estimatePoses : nat -> Estimate) (w : World) : World :=
  if detector w then
    match calibrateBaseline estimatePoses w with
    | Throw => w
    | Ok (false, w3) => set_feedbackText FbCalibrationFailed w3
    | Ok (true, w3) =>
        let w4 := updateUI (set_running true w3) in
        let w5 := set_lastPosition Up w4 in
        let w6 := set_lastRepTime (int 0) w5 in
        set_feedbackText FbStarted w6
    end
  else w.

Section Turns.

Variable Math_hypot : number -> number -> number.
Variable Math_acos : number -> number.

(** Lines 284-293 of [runDetectionLoop], once [estimatePoses] settled:
    [running] was tested before the [await] (line 281) and is not read
    again. *)
Definition frameTail (est : Estimate) (now : number) (w : World) : World :=
  match est with
  | Rejected => w
  | Poses None => w
  | Poses (Some pose) =>
      match drawPose pose with
      | Throw => w
      | Ok _ =>
          match baseline w with
          | None => w
          | Some _ =>
              match evaluateForPushUp Math_hypot Math_acos pose now w with
              | Ok w' => w'
              | Throw => w
              end
          end
      end
  end.

(** The stretches, with what the environment gave. *)
Inductive Turn : Type :=
| CameraGranted
| CameraError
| CameraPlaying
| StopCameraClick
| DetectClick
| ModelLoaded
| CountdownBegins
| CountdownEnds (estimatePoses : nat -> Estimate)
| ResetClick
| FrameResumes (est : Estimate) (now : number).

Definition turn (t : Turn) (w : World) : World :=
  match t with
  | CameraGranted => cameraGranted w
  | CameraError => cameraError w
  | CameraPlaying => cameraPlaying w
  | StopCameraClick => stopCamera w
  | DetectClick => detectClick w
  | ModelLoaded => modelLoaded w
  | CountdownBegins => beginCountdown w
  | CountdownEnds estimatePoses => endCountdown estimatePoses w
  | ResetClick => resetCount w
  | FrameResumes est now => frameTail est now w
  end.

Definition turns (ts : list Turn) (w : World) : World :=
  fold_left (fun v t => turn t v) ts w.

(** The stretches a handler run from the click to its end is made of. *)
Definition turnsOf (op : Op) (w : World) : list Turn :=
  match op with
  | ClickStartCamera Denied => [CameraError]
  | ClickStartCamera PlayFailed => [CameraGranted; CameraError]
  | ClickStartCamera Playing => [CameraGranted; CameraPlaying]
  | ClickStopCamera => [StopCameraClick]
  | ClickStartDetect load estimatePoses =>
      if negb (stream w) || running w then [DetectClick]
      else if detector w then [DetectClick; CountdownEnds estimatePoses]
      else
        match load with
        | LoadFailed => [DetectClick]
        | Loaded => [DetectClick; ModelLoaded; CountdownBegins;
                     CountdownEnds estimatePoses]
        end
  | ClickResetCount => [ResetClick]
  | Frame est now => if running w then [FrameResumes est now] else []
  end.

(** The states the page can be in between two stretches: the page as
    loaded, and what a stretch makes of such a state.  The stretches are
    taken in any order, also in orders no run of the page produces: the
    states of the page are among these. *)
Inductive reachable : World -> Prop :=
| reachable_initial : reachable initialWorld
| reachable_turn (t : Turn) (w : World) :
    reachable w -> reachable (turn t w).

End Turns.

(** What holds of the state between two stretches. *)
Definition consistent (w : World) : Prop :=
  (running w = true -> baseline w <> None /\ detector w = true)
  /\ liveCounter (screen w) = pushCount w
  /\ statusDetection (screen w) = running w
  /\ startDetectActive (screen w) = running w
  /\ statusPosture (screen w) = (if running w then MarkOk else MarkDash)
  /\ (forall n, feedbackText w = FbValidRep n -> n = pushCount w)
  /\ (pushCount w <= MAX_EXACT)%N.

(** Deeper than [poseBottom]: shoulders at height 150. *)
Definition jointsDeep : Joints :=
  {| leftShoulder := pt (int 140) (int 150) (dec 9 1);
     rightShoulder := pt (int 60) (int 150) (dec 9 1);
     leftElbow := pt (int 140) (int 190) (dec 9 1);
     rightElbow := pt (int 60) (int 190) (dec 9 1);
     leftWrist := pt (int 140) (int 150) (dec 9 1);
     rightWrist := pt (int 60) (int 150) (dec 9 1) |}.

Definition poseDeep : Pose :=
  poseOf jointsDeep (pt (int 130) (int 300) (dec 9 1)) (pt (int 70) (int 300) (dec 9 1)).

(** Two clicks on the detection button while the model loads, the second
    load slower than the countdown of the first: the handlers overlap. *)
Definition overlapping : list Turn :=
  [CameraGranted; CameraPlaying; DetectClick; DetectClick;
   ModelLoaded; CountdownBegins; CountdownEnds alwaysTop;
   FrameResumes (Poses (Some poseDeep)) (int 12000);
   ModelLoaded; CountdownBegins].
(* ===================================================================== *)
(** * Facts about numbers *)
(* ===================================================================== *)

(** The literals of the script, as binary64 values. *)
Lemma int_0 : int 0 = S754_zero false.
Proof. reflexivity. Qed.

Lemma int_90 : int 90 = S754_finite false 6333186975989760 (-46).
Proof. vm_compute. reflexivity. Qed.

Lemma int_160 : int 160 = S754_finite false 5629499534213120 (-45).
Proof. vm_compute. reflexivity. Qed.

Lemma int_180 : int 180 = S754_finite false 6333186975989760 (-45).
Proof. vm_compute. reflexivity. Qed.

Lemma dec_35_2 : dec 35 2 = S754_finite false 6305039478318694 (-54).
Proof. vm_compute. reflexivity. Qed.

(** [dec 35 2] is the binary64 value nearest to 0.35: it is within half a
    unit in the last place, [2^-55], of 35/100. *)
Lemma dec_35_2_nearest :
  (Z.abs (6305039478318694 * 100 - 35 * 2 ^ 54) * 2 <= 100)%Z.
Proof. vm_compute. discriminate. Qed.

(** Swapping the operands of a comparison reverses its result. *)
Lemma SFcompare_swap (a b : number) :
  SFcompare b a = option_map CompOpp (SFcompare a b).
Proof.
  destruct a as [sa|sa| |sa ma ea], b as [sb|sb| |sb mb eb]; simpl;
    try reflexivity;
    try (destruct sa; reflexivity); try (destruct sb; reflexivity);
    try (destruct sa, sb; reflexivity).
  destruct sa, sb; simpl; try reflexivity;
    rewrite (Z.compare_antisym ea eb);
    destruct (ea ?= eb)%Z; simpl; try reflexivity;
    change (Pos.compare_cont Eq mb ma) with (Pos.compare mb ma);
    change (Pos.compare_cont Eq ma mb) with (Pos.compare ma mb);
    rewrite (Pos.compare_antisym ma mb); try reflexivity.
Qed.

(** [a >= c] excludes [a < c]. *)
Lemma jge_not_jlt (a c : number) : (a >=? c) = true -> (a <? c) = false.
Proof.
  unfold jge, jlt, SFleb, SFltb. rewrite (SFcompare_swap a c).
  destruct (SFcompare a c) as [[ | | ]|]; simpl; congruence.
Qed.

(** No number is both below 90 and above 160. *)
Lemma below_90_above_160 (e : number) :
  (e <? DOWN_ANGLE_THRESHOLD) && (e >? UP_ANGLE_THRESHOLD) = false.
Proof.
  unfold DOWN_ANGLE_THRESHOLD, UP_ANGLE_THRESHOLD, jlt, jgt, SFltb.
  rewrite int_90, int_160.
  destruct e as [s|s| |s m z]; try (destruct s; reflexivity); try reflexivity.
  destruct s; cbn [SFcompare]; try reflexivity.
  destruct (Z.compare_spec z (-46)); destruct (Z.compare_spec (-45) z);
    try reflexivity; try lia;
    try (now rewrite andb_false_r).
Qed.

(** Multiplication commutes, rounding included. *)
Lemma jmul_comm (a b : number) : a * b = b * a.
Proof.
  unfold jmul.
  destruct a as [sa|sa| |sa ma ea], b as [sb|sb| |sb mb eb]; cbn [SFmul];
    try reflexivity; try (now rewrite xorb_comm).
  now rewrite xorb_comm, Pos.mul_comm, Z.add_comm.
Qed.

(* ===================================================================== *)
(** * Rounding

    Facts about the rounding of [binary_round_aux], the last step of
    every binary64 operation: a rounded value does not cross a
    representable number it was below. *)
(* ===================================================================== *)

Section Rounding.

Local Open Scope Z_scope.
Local Unset Implicit Arguments.

(** One step of the right shift halves the mantissa and keeps the
    position of the exact value [N / D], now read against [2 * D]. *)
Lemma shr_1_ok (N D : Z) (mrs : shr_record) :
  0 <= shr_m mrs -> 0 < D -> loc_ok N D mrs ->
  loc_ok N (2 * D) (shr_1 mrs) /\ 0 <= shr_m (shr_1 mrs)
  /\ shr_m (shr_1 mrs) = shr_m mrs / 2.
Proof.
  destruct mrs as [m r s]. cbn [shr_m]. intros Hm HD H.
  destruct m as [|p|p]; [| | lia].
  - unfold loc_ok in *. cbn [shr_m shr_r shr_s] in *.
    destruct r, s; cbn [shr_1 shr_m shr_r shr_s orb];
      change (0 / 2) with 0; repeat split; try lia.
  - assert (Hq : Z.pos p / 2 = match p with xH => 0 | xO q => Z.pos q | xI q => Z.pos q end).
    { destruct p as [q|q|].
      - rewrite Pos2Z.inj_xI. symmetry. apply (Z.div_unique _ 2 _ 1); lia.
      - rewrite Pos2Z.inj_xO. symmetry. apply (Z.div_unique _ 2 _ 0); lia.
      - reflexivity. }
    unfold loc_ok in *. cbn [shr_m shr_r shr_s] in *.
    destruct p as [q|q|]; destruct r, s; cbn [shr_1 shr_m shr_r shr_s orb];
      rewrite ?Hq; repeat split; try lia; try nia.
Qed.

Lemma pow2_xO (p : positive) : 2 ^ Z.pos p~0 = 2 ^ Z.pos p * 2 ^ Z.pos p.
Proof.
  replace (Z.pos p~0) with (Z.pos p + Z.pos p) by lia.
  apply Z.pow_add_r; lia.
Qed.

Lemma pow2_xI (p : positive) : 2 ^ Z.pos p~1 = 2 * (2 ^ Z.pos p * 2 ^ Z.pos p).
Proof.
  replace (Z.pos p~1) with (1 + (Z.pos p + Z.pos p)) by lia.
  rewrite Z.pow_add_r by lia. rewrite Z.pow_add_r by lia. reflexivity.
Qed.

Lemma pow2_pos (k : Z) : 0 <= k -> 0 < 2 ^ k.
Proof. intros H. apply Z.pow_pos_nonneg; lia. Qed.

Lemma iter_shr_ok (p : positive) :
  forall (N D : Z) (mrs : shr_record),
    0 <= shr_m mrs -> 0 < D -> loc_ok N D mrs ->
    loc_ok N (D * 2 ^ Z.pos p) (iter_pos shr_1 p mrs)
    /\ 0 <= shr_m (iter_pos shr_1 p mrs)
    /\ shr_m (iter_pos shr_1 p mrs) = shr_m mrs / 2 ^ Z.pos p.
Proof.
  induction p as [p IH|p IH|]; intros N D mrs Hm HD H; cbn [iter_pos].
  - destruct (shr_1_ok N D mrs Hm HD H) as (H1 & Hm1 & E1).
    assert (HD1 : 0 < 2 * D) by lia.
    destruct (IH N (2 * D) _ Hm1 HD1 H1) as (H2 & Hm2 & E2).
    pose proof (pow2_pos (Z.pos p) ltac:(lia)) as Hp.
    assert (HD2 : 0 < 2 * D * 2 ^ Z.pos p) by (apply Z.mul_pos_pos; lia).
    destruct (IH N _ _ Hm2 HD2 H2) as (H3 & Hm3 & E3).
    replace (D * 2 ^ Z.pos p~1) with (2 * D * 2 ^ Z.pos p * 2 ^ Z.pos p)
      by (rewrite pow2_xI; ring).
    split; [exact H3 | split; [exact Hm3 |]].
    rewrite E3, E2, E1.
    rewrite !Z.div_div by lia.
    f_equal. rewrite pow2_xI. ring.
  - destruct (IH N D _ Hm HD H) as (H2 & Hm2 & E2).
    pose proof (pow2_pos (Z.pos p) ltac:(lia)) as Hp.
    assert (HD2 : 0 < D * 2 ^ Z.pos p) by (apply Z.mul_pos_pos; lia).
    destruct (IH N _ _ Hm2 HD2 H2) as (H3 & Hm3 & E3).
    replace (D * 2 ^ Z.pos p~0) with (D * 2 ^ Z.pos p * 2 ^ Z.pos p)
      by (rewrite pow2_xO; ring).
    split; [exact H3 | split; [exact Hm3 |]].
    rewrite E3, E2.
    rewrite !Z.div_div by lia.
    f_equal. rewrite pow2_xO. ring.
  - destruct (shr_1_ok N D mrs Hm HD H) as (H1 & Hm1 & E1).
    change (2 ^ 1) with 2.
    replace (D * 2) with (2 * D) by ring. auto.
Qed.

Lemma round_nearest_even_le (N D : Z) (mrs : shr_record) (B : Z) :
  0 <= shr_m mrs -> 0 < D -> loc_ok N D mrs -> N <= B * D ->
  0 <= round_nearest_even (shr_m mrs) (loc_of_shr_record mrs) <= B.
Proof.
  destruct mrs as [m r s]. unfold loc_ok. cbn [shr_m shr_r shr_s].
  intros Hm HD H HB.
  destruct r, s; cbn [loc_of_shr_record round_nearest_even];
    try destruct (Z.even m); split; try lia; nia.
Qed.

Lemma digits2_size (p : positive) : digits2_pos p = Pos.size p.
Proof. induction p; cbn; congruence. Qed.

(** [2^(d-1) <= m < 2^d] for the number [d] of binary digits of [m > 0]. *)
Lemma Zdigits2_bounds (p : positive) :
  2 ^ (Z.pos (digits2_pos p) - 1) <= Z.pos p < 2 ^ Z.pos (digits2_pos p).
Proof.
  rewrite digits2_size. split.
  - pose proof (Pos.size_le p) as H.
    apply Pos2Z.pos_le_pos in H. rewrite Pos2Z.inj_pow in H.
    replace (Z.pos (Pos.size p)) with (1 + (Z.pos (Pos.size p) - 1)) in H by lia.
    rewrite Z.pow_add_r in H by lia. change (2 ^ 1) with 2 in H. lia.
  - pose proof (Pos.size_gt p) as H.
    apply Pos2Z.pos_lt_pos in H. now rewrite Pos2Z.inj_pow in H.
Qed.

Lemma Zdigits2_nonneg (m : Z) : 0 <= Zdigits2 m.
Proof. destruct m; cbn; lia. Qed.

Lemma Zdigits2_le (m n : Z) : 0 <= m < 2 ^ n -> 0 <= n -> Zdigits2 m <= n.
Proof.
  intros [H0 H] Hn. destruct m as [|p|p]; [cbn; lia | | lia].
  cbn [Zdigits2]. pose proof (Zdigits2_bounds p) as [Hl _].
  assert (Hlt : 2 ^ (Z.pos (digits2_pos p) - 1) < 2 ^ n) by lia.
  apply Z.pow_lt_mono_r_iff in Hlt; lia.
Qed.

Lemma Zdigits2_ge (m n : Z) : 2 ^ n <= m -> 0 <= n -> n + 1 <= Zdigits2 m.
Proof.
  intros H Hn. pose proof (pow2_pos n Hn).
  destruct m as [|p|p]; [lia | | lia].
  cbn [Zdigits2]. pose proof (Zdigits2_bounds p) as [_ Hu].
  assert (Hlt : 2 ^ n < 2 ^ Z.pos (digits2_pos p)) by lia.
  apply Z.pow_lt_mono_r_iff in Hlt; lia.
Qed.

Lemma fexp_mono (a b : Z) : a <= b -> fexp prec emax a <= fexp prec emax b.
Proof. unfold fexp, emin, prec, emax. lia. Qed.

Lemma shr_m_of_loc (m : Z) (l : location) : shr_m (shr_record_of_loc m l) = m.
Proof. destruct l as [|[| |]]; reflexivity. Qed.

(** What [shr_fexp] computes: the mantissa shifted to the exponent
    [fexp (digits + e)] when that is above [e]. *)
Lemma shr_fexp_spec (m e : Z) (l : location) (N D : Z) :
  0 <= m -> 0 < D -> loc_ok N D (shr_record_of_loc m l) ->
  let k := Z.max 0 (fexp prec emax (Zdigits2 m + e) - e) in
  exists mrs,
    shr_fexp prec emax m e l = (mrs, e + k)
    /\ loc_ok N (D * 2 ^ k) mrs
    /\ 0 <= shr_m mrs
    /\ shr_m mrs = m / 2 ^ k.
Proof.
  intros Hm HD H k. unfold shr_fexp, shr. subst k.
  destruct (fexp prec emax (Zdigits2 m + e) - e) as [|p|p] eqn:E.
  - exists (shr_record_of_loc m l). cbn [Z.max Z.compare].
    rewrite Z.add_0_r, Z.mul_1_r, shr_m_of_loc, Z.div_1_r. auto.
  - exists (iter_pos shr_1 p (shr_record_of_loc m l)).
    replace (Z.max 0 (Z.pos p)) with (Z.pos p) by lia.
    pose proof (iter_shr_ok p N D (shr_record_of_loc m l)) as G.
    rewrite shr_m_of_loc in G. destruct (G Hm HD H) as (G1 & G2 & G3). auto.
  - exists (shr_record_of_loc m l).
    replace (Z.max 0 (Z.neg p)) with 0 by lia.
    rewrite Z.add_0_r, Z.mul_1_r, shr_m_of_loc, Z.div_1_r. auto.
Qed.

Lemma loc_ok_exact (m : Z) : loc_ok m 1 (shr_record_of_loc m loc_Exact).
Proof. unfold loc_ok. cbn. lia. Qed.

(** Rounding does not cross a representable number: if the exact value
    [(N / D) * 2^ex] is at most the canonical float [mc * 2^ec], so is
    its rounding. *)
Lemma binary_round_aux_le (mx ex : Z) (lx : location) (N D : Z)
    (mc : positive) (ec : Z) :
  0 <= mx -> 0 < D -> loc_ok N D (shr_record_of_loc mx lx) ->
  ex <= fexp prec emax (Zdigits2 mx + ex) <= ec ->
  fexp prec emax (Z.pos (digits2_pos mc) + ec) = ec ->
  ec <= emax - prec ->
  N <= D * Z.pos mc * 2 ^ (ec - ex) ->
  SFleb (binary_round_aux prec emax false mx ex lx) (S754_finite false mc ec) = true.
Proof.
  intros Hm HD HL [Hk He] Hc Hb HN.
  unfold binary_round_aux.
  destruct (shr_fexp_spec mx ex lx N D Hm HD HL) as (mrs' & E1 & L1 & M1 & _).
  set (e' := fexp prec emax (Zdigits2 mx + ex)) in *.
  replace (Z.max 0 (e' - ex)) with (e' - ex) in * by lia.
  replace (ex + (e' - ex)) with e' in E1 by lia.
  rewrite E1.
  set (m2 := round_nearest_even (shr_m mrs') (loc_of_shr_record mrs')).
  set (B := Z.pos mc * 2 ^ (ec - e')).
  pose proof (pow2_pos (e' - ex) ltac:(lia)) as P1.
  pose proof (pow2_pos (ec - e') ltac:(lia)) as P2.
  assert (HB : 0 <= m2 <= B).
  { apply (round_nearest_even_le N (D * 2 ^ (e' - ex)) mrs' B M1); [nia | exact L1 |].
    unfold B. replace (ec - ex) with ((ec - e') + (e' - ex)) in HN by lia.
    rewrite Z.pow_add_r in HN by lia. nia. }
  destruct (shr_fexp_spec m2 e' loc_Exact m2 1 (proj1 HB) ltac:(lia) (loc_ok_exact m2))
    as (mrs'' & E2 & _ & M2 & Q2).
  set (k2 := Z.max 0 (fexp prec emax (Zdigits2 m2 + e') - e')) in *.
  rewrite E2.
  pose proof (Zdigits2_bounds mc) as [_ Hmc].
  assert (Hd : Zdigits2 m2 + e' <= Z.pos (digits2_pos mc) + ec).
  { assert (Zdigits2 m2 <= Z.pos (digits2_pos mc) + (ec - e')); [| lia].
    apply Zdigits2_le; [| lia].
    split; [lia |]. rewrite Z.pow_add_r by lia. unfold B in HB. nia. }
  assert (Hef : e' + k2 <= ec).
  { unfold k2. pose proof (fexp_mono _ _ Hd) as Hf. rewrite Hc in Hf. lia. }
  assert (Hmf : e' + k2 = ec -> shr_m mrs'' <= Z.pos mc).
  { intros E. rewrite Q2. replace k2 with (ec - e') by lia.
    apply Z.div_le_upper_bound; [lia |]. unfold B in HB. lia. }
  destruct (shr_m mrs'') as [|mf|mf] eqn:Em; [reflexivity | | lia].
  replace (e' + k2 <=? emax - prec) with true by (symmetry; apply Z.leb_le; lia).
  unfold SFleb, SFcompare.
  destruct (Z.compare_spec (e' + k2) ec) as [E|E|E]; [| reflexivity | lia].
  change (Pos.compare_cont Eq mf mc) with (Pos.compare mf mc).
  specialize (Hmf E).
  destruct (Pos.compare_spec mf mc) as [E'|E'|E']; try reflexivity. lia.
Qed.

Lemma loc_ok_exists (m : Z) (l : location) :
  exists N, loc_ok N 4 (shr_record_of_loc m l).
Proof.
  destruct l as [|[| |]]; unfold loc_ok; cbn [shr_record_of_loc shr_m shr_r shr_s].
  - exists (4 * m). lia.
  - exists (4 * m + 2). lia.
  - exists (4 * m + 1). lia.
  - exists (4 * m + 3). lia.
Qed.

Lemma round_nearest_even_nonneg (m : Z) (l : location) :
  0 <= m -> 0 <= round_nearest_even m l.
Proof.
  intros H. destruct l as [|[| |]]; cbn [round_nearest_even];
    try destruct (Z.even m); lia.
Qed.

(** The shape of a rounded non-negative value: a zero, an infinity or a
    finite number with a mantissa of at most 53 bits, never NaN and never
    negative. *)
Lemma binary_round_aux_shape (mx ex : Z) (lx : location) :
  0 <= mx ->
  binary_round_aux prec emax false mx ex lx = S754_zero false
  \/ binary_round_aux prec emax false mx ex lx = S754_infinity false
  \/ exists mf ef,
       binary_round_aux prec emax false mx ex lx = S754_finite false mf ef
       /\ Z.pos mf < 2 ^ 53.
Proof.
  intros Hm. unfold binary_round_aux.
  destruct (loc_ok_exists mx lx) as [N HL].
  destruct (shr_fexp_spec mx ex lx N 4 Hm ltac:(lia) HL) as (mrs' & E1 & _ & M1 & _).
  rewrite E1.
  set (e' := ex + Z.max 0 (fexp prec emax (Zdigits2 mx + ex) - ex)).
  set (m2 := round_nearest_even (shr_m mrs') (loc_of_shr_record mrs')).
  assert (H2 : 0 <= m2) by (apply round_nearest_even_nonneg; exact M1).
  destruct (shr_fexp_spec m2 e' loc_Exact m2 1 H2 ltac:(lia) (loc_ok_exact m2))
    as (mrs'' & E2 & _ & M2 & Q2).
  rewrite E2.
  set (k2 := Z.max 0 (fexp prec emax (Zdigits2 m2 + e') - e')) in *.
  destruct (shr_m mrs'') as [|mf|mf] eqn:Em; [now left | | lia].
  right. destruct (e' + k2 <=? emax - prec); [right | now left].
  exists mf, (e' + k2). split; [reflexivity |].
  rewrite Q2.
  assert (Hk : Zdigits2 m2 - 53 <= k2).
  { unfold k2, fexp, emin, prec, emax. lia. }
  pose proof (pow2_pos k2 ltac:(unfold k2; lia)) as P2.
  apply Z.div_lt_upper_bound; [lia |].
  rewrite <- Z.pow_add_r by (unfold k2; lia).
  destruct m2 as [|p|p]; [apply pow2_pos; unfold k2; lia | | lia].
  pose proof (Zdigits2_bounds p) as [_ Hu]. cbn [Zdigits2] in Hk.
  eapply Z.lt_le_trans; [exact Hu |].
  apply Z.pow_le_mono_r; unfold k2 in *; lia.
Qed.

(** A valid mantissa has at most 53 bits. *)
Lemma valid_mantissa (m : positive) (e : Z) :
  valid_binary prec emax (S754_finite false m e) = true -> Z.pos m < 2 ^ 53.
Proof.
  cbn [valid_binary]. unfold bounded, canonical_mantissa.
  intros H. apply andb_true_iff in H as [H _]. apply Z.eqb_eq in H.
  pose proof (Zdigits2_bounds m) as [_ Hu].
  eapply Z.lt_le_trans; [exact Hu |].
  apply Z.pow_le_mono_r; [lia |]. unfold fexp, emin, prec, emax in H. lia.
Qed.


(** A number of at most 53 bits that is at most [mc * 2^ec] as a float. *)
Lemma SFleb_value (m : positive) (e : Z) (mc : positive) (ec : Z) :
  Z.pos m < 2 ^ 53 -> 2 ^ 52 < Z.pos mc ->
  SFleb (S754_finite false m e) (S754_finite false mc ec) = true ->
  e <= ec /\ Z.pos m <= Z.pos mc * 2 ^ (ec - e)
  /\ (Z.pos m <= (Z.pos mc - 1) * 2 ^ (ec - e) \/ (m = mc /\ e = ec)).
Proof.
  intros Hm Hc.
  assert (H4 : 2 ^ 53 = 2 ^ 52 * 2) by reflexivity.
  set (U := 2 ^ 52) in *. set (V := 2 ^ 53) in *.
  unfold SFleb, SFcompare.
  destruct (Z.compare_spec e ec) as [E|E|E]; [| | discriminate].
  - subst e. change (Pos.compare_cont Eq m mc) with (Pos.compare m mc).
    rewrite Z.sub_diag. change (2 ^ 0) with 1.
    destruct (Pos.compare_spec m mc) as [E'|E'|E']; [| | discriminate]; intros _.
    + subst. split; [lia | split; [lia | right; split; reflexivity]].
    + split; [lia | split; [lia | left; lia]].
  - intros _. split; [lia |].
    assert (H2 : 2 ^ 1 <= 2 ^ (ec - e)) by (apply Z.pow_le_mono_r; lia).
    change (2 ^ 1) with 2 in H2.
    set (T := 2 ^ (ec - e)) in *.
    assert (H3 : (Z.pos mc - 1) * 2 <= (Z.pos mc - 1) * T)
      by (apply Z.mul_le_mono_nonneg_l; lia).
    split; [| left]; lia.
Qed.

Lemma mul_180_le (my : positive) (ey : Z) :
  Z.pos my < 2 ^ 53 ->
  SFleb (S754_finite false my ey) cPI = true ->
  SFleb (SFmul prec emax (S754_finite false my ey) c180) cP = true.
Proof.
  intros Hv Hle.
  destruct (SFleb_value my ey mPI (-51) Hv ltac:(vm_compute; reflexivity) Hle)
    as (He & Hval & _).
  cbn [SFmul c180 xorb].
  pose proof (pow2_pos (-51 - ey) ltac:(lia)) as P1.
  assert (HN : Z.pos (my * m180) <= Z.pos mP * 2 ^ (2 - ey)).
  { rewrite Pos2Z.inj_mul.
    replace (2 - ey) with (53 + (-51 - ey)) by lia.
    rewrite Z.pow_add_r by lia.
    assert (C : Z.pos mPI * Z.pos m180 <= Z.pos mP * 2 ^ 53)
      by (vm_compute; discriminate).
    assert (0 < Z.pos m180) by lia. nia. }
  assert (Hd1 : 53 <= Zdigits2 (Z.pos (my * m180))).
  { apply (Zdigits2_ge _ 52); [| lia]. rewrite Pos2Z.inj_mul.
    assert (2 ^ 52 <= Z.pos m180) by (vm_compute; discriminate). nia. }
  assert (Hd2 : Zdigits2 (Z.pos (my * m180)) <= 55 - ey).
  { apply Zdigits2_le; [| lia]. split; [lia |].
    replace (55 - ey) with (53 + (2 - ey)) by lia. rewrite Z.pow_add_r by lia.
    assert (Z.pos mP < 2 ^ 53) by (vm_compute; reflexivity).
    pose proof (pow2_pos (2 - ey) ltac:(lia)). nia. }
  apply (binary_round_aux_le (Z.pos (my * m180)) (ey + -45) loc_Exact
           (Z.pos (my * m180)) 1 mP (-43)).
  - lia.
  - lia.
  - apply loc_ok_exact.
  - split.
    + unfold fexp, emin, prec, emax. lia.
    + pose proof (fexp_mono (Zdigits2 (Z.pos (my * m180)) + (ey + -45)) 10 ltac:(lia)) as F.
      change (fexp prec emax 10) with (-43) in F. exact F.
  - reflexivity.
  - vm_compute. discriminate.
  - replace (-43 - (ey + -45)) with (2 - ey) by lia. lia.
Qed.

Lemma new_location_even_ok (q r D : Z) :
  Z.even D = true -> 0 <= r < D ->
  loc_ok (q * D + r) D (shr_record_of_loc q (new_location D r)).
Proof.
  intros HD Hr. unfold new_location. rewrite HD. unfold new_location_even.
  destruct (Z.eqb_spec r 0) as [->|Hn].
  - unfold loc_ok. cbn [shr_record_of_loc shr_m shr_r shr_s]. lia.
  - destruct (Z.compare_spec (2 * r) D); unfold loc_ok;
      cbn [shr_record_of_loc shr_m shr_r shr_s]; lia.
Qed.

Lemma div_pi_le (mz : positive) (ez : Z) :
  Z.pos mz < 2 ^ 53 ->
  SFleb (S754_finite false mz ez) cP = true ->
  SFleb (SFdiv prec emax (S754_finite false mz ez) cPI) c180 = true.
Proof.
  intros Hv Hle.
  destruct (SFleb_value mz ez mP (-43) Hv ltac:(vm_compute; reflexivity) Hle)
    as (He & _ & [Hval | [-> ->]]); [| vm_compute; reflexivity].
  cbn [SFdiv cPI xorb]. unfold SFdiv_core_binary.
  change (Zdigits2 (Z.pos mPI)) with 53.
  assert (Hd1 : 1 <= Zdigits2 (Z.pos mz) <= 53).
  { split; [cbn [Zdigits2]; lia | apply Zdigits2_le; lia]. }
  pose proof (Zdigits2_bounds mz) as [Hlo _]. 
  change (Z.pos (digits2_pos mz)) with (Zdigits2 (Z.pos mz)) in Hlo.
  set (d1 := Zdigits2 (Z.pos mz)) in *.
  set (e' := Z.min (fexp prec emax (d1 + ez - (53 + -51))) (ez - -51)).
  assert (HeA : e' <= fexp prec emax (d1 + ez - 2)).
  { unfold e'. replace (d1 + ez - (53 + -51)) with (d1 + ez - 2) by lia. lia. }
  assert (He45 : e' <= -45).
  { pose proof (fexp_mono (d1 + ez - 2) 8 ltac:(lia)) as F.
    change (fexp prec emax 8) with (-45) in F. lia. }
  set (s := ez - -51 - e').
  assert (Hs : 0 <= s) by (unfold s, e'; lia).
  assert (Em : match s with
               | 0 => Z.pos mz
               | Z.pos _ => Z.shiftl (Z.pos mz) s
               | Z.neg _ => 0
               end = Z.pos mz * 2 ^ s).
  { destruct s as [|p|p] eqn:Es; [change (2 ^ 0) with 1; lia | | lia].
    apply Z.shiftl_mul_pow2. lia. }
  rewrite Em.
  pose proof (Z_div_mod (Z.pos mz * 2 ^ s) (Z.pos mPI) ltac:(lia)) as Hdiv.
  destruct (Z.div_eucl (Z.pos mz * 2 ^ s) (Z.pos mPI)) as [q r].
  destruct Hdiv as [Hq Hr].
  pose proof (pow2_pos s Hs) as Ps.
  assert (Hq0 : 0 <= q) by nia.
  pose proof (pow2_pos (-45 - e') ltac:(lia)) as P45.
  assert (HN : Z.pos mz * 2 ^ s <= Z.pos mPI * Z.pos m180 * 2 ^ (-45 - e')).
  { assert (C : (Z.pos mP - 1) * 2 ^ 53 <= Z.pos mPI * Z.pos m180)
      by (vm_compute; discriminate).
    assert (E1 : 2 ^ (-43 - ez) * 2 ^ s = 2 ^ 53 * 2 ^ (-45 - e')).
    { rewrite <- !Z.pow_add_r by lia. f_equal. unfold s. lia. }
    set (T := 2 ^ (-43 - ez)) in *. set (S := 2 ^ s) in *.
    set (W := 2 ^ (-45 - e')) in *. set (V := 2 ^ 53) in *.
    set (K := Z.pos mPI * Z.pos m180) in *.
    assert (Z.pos mz * S <= (Z.pos mP - 1) * T * S)
      by (apply Z.mul_le_mono_nonneg_r; lia).
    assert ((Z.pos mP - 1) * V * W <= K * W)
      by (apply Z.mul_le_mono_nonneg_r; lia).
    nia. }
  apply (binary_round_aux_le q e' (new_location (Z.pos mPI) r)
           (Z.pos mz * 2 ^ s) (Z.pos mPI) m180 (-45)).
  - exact Hq0.
  - lia.
  - rewrite Hq. replace (Z.pos mPI * q + r) with (q * Z.pos mPI + r) by ring.
    apply new_location_even_ok; [reflexivity | lia].
  - split.
    + assert (Hdq : d1 + s - 53 <= Zdigits2 q).
      { destruct (Z_lt_le_dec (d1 + s - 54) 0) as [Hneg|Hpos].
        - pose proof (Zdigits2_nonneg q). lia.
        - assert (2 ^ (d1 + s - 54) <= q); [| apply Zdigits2_ge in H; lia].
          assert (E2 : 2 ^ (d1 - 1) * 2 ^ s = 2 ^ 53 * 2 ^ (d1 + s - 54)).
          { rewrite <- !Z.pow_add_r by lia. f_equal. lia. }
          assert (Hpi : Z.pos mPI < 2 ^ 53) by (vm_compute; reflexivity).
          pose proof (pow2_pos (d1 + s - 54) Hpos) as Pq.
          set (A := 2 ^ (d1 - 1)) in *. set (S := 2 ^ s) in *.
          set (V := 2 ^ 53) in *. set (Q := 2 ^ (d1 + s - 54)) in *.
          assert (A * S <= Z.pos mz * S) by (apply Z.mul_le_mono_nonneg_r; lia).
          assert (V * Q < V * (q + 1)) by nia.
          apply Z.mul_lt_mono_pos_l in H0; lia. }
      pose proof (fexp_mono (d1 + ez - 2) (Zdigits2 q + e') ltac:(unfold s in Hdq; lia)).
      lia.
    + assert (Hdq : Zdigits2 q <= 8 - e').
      { apply Zdigits2_le; [| lia]. split; [exact Hq0 |].
        replace (8 - e') with (53 + (-45 - e')) by lia. rewrite Z.pow_add_r by lia.
        assert (H180 : Z.pos m180 < 2 ^ 53) by (vm_compute; reflexivity).
        set (W := 2 ^ (-45 - e')) in *. set (V := 2 ^ 53) in *.
        assert (Z.pos mPI * q <= Z.pos mPI * (Z.pos m180 * W)) by nia.
        apply Z.mul_le_mono_pos_l in H; [| lia].
        assert (Z.pos m180 * W < V * W) by (apply Z.mul_lt_mono_pos_r; lia).
        lia. }
      pose proof (fexp_mono (Zdigits2 q + e') 8 ltac:(lia)) as F.
      change (fexp prec emax 8) with (-45) in F. exact F.
  - reflexivity.
  - vm_compute. discriminate.
  - exact HN.
Qed.

End Rounding.

(* ===================================================================== *)
(** * Degrees *)
(* ===================================================================== *)

Lemma Math_PI_eq : Math_PI = cPI.
Proof. vm_compute. reflexivity. Qed.

Lemma int_180_eq : int 180 = c180.
Proof. vm_compute. reflexivity. Qed.

(** The quotient of two positive numbers is a zero, an infinity or a
    positive number. *)
Lemma SFdiv_shape (m1 : positive) (e1 : Z) (m2 : positive) (e2 : Z) :
  let q := SFdiv prec emax (S754_finite false m1 e1) (S754_finite false m2 e2) in
  q = S754_zero false \/ q = S754_infinity false
  \/ exists mf ef, q = S754_finite false mf ef /\ (Z.pos mf < 2 ^ 53)%Z.
Proof.
  cbn [SFdiv xorb]. unfold SFdiv_core_binary.
  set (s := (e1 - e2 - Z.min (fexp prec emax (Zdigits2 (Z.pos m1) + e1
                                  - (Zdigits2 (Z.pos m2) + e2))) (e1 - e2))%Z).
  set (m' := match s with
             | 0%Z => Z.pos m1
             | Z.pos _ => Z.shiftl (Z.pos m1) s
             | Z.neg _ => 0%Z
             end).
  assert (Hm' : (0 <= m')%Z).
  { unfold m'. destruct s; [lia | apply Z.shiftl_nonneg; lia | lia]. }
  pose proof (Z_div_mod m' (Z.pos m2) ltac:(lia)) as Hdiv.
  destruct (Z.div_eucl m' (Z.pos m2)) as [q r]. destruct Hdiv as [Hq Hr].
  apply binary_round_aux_shape. nia.
Qed.

(** A zero, an infinity or a positive number is at least 0. *)
Lemma shape_nonneg (r : number) :
  r = S754_zero false \/ r = S754_infinity false
  \/ (exists mf ef, r = S754_finite false mf ef /\ (Z.pos mf < 2 ^ 53)%Z) ->
  SFleb zero r = true.
Proof.
  intros [-> | [-> | (mf & ef & -> & _)]]; reflexivity.
Qed.

(** A number of radians from 0 to [Math.PI] makes from 0 to 180
    degrees, rounding included. *)
Lemma toDegrees_range (r : number) :
  valid_binary prec emax r = true ->
  (r >=? zero) = true -> (Math_PI >=? r) = true ->
  (toDegrees r >=? zero) = true /\ (int 180 >=? toDegrees r) = true.
Proof.
  unfold toDegrees, jge, jmul, jdiv. rewrite Math_PI_eq, int_180_eq.
  intros Hv H0 Hpi.
  destruct r as [s|s| |s m e].
  - destruct s; vm_compute; auto.
  - destruct s; discriminate.
  - discriminate.
  - destruct s; [discriminate |].
    pose proof (valid_mantissa m e Hv) as Hm.
    pose proof (mul_180_le m e Hm Hpi) as Hz.
    destruct (binary_round_aux_shape (Z.pos (m * m180)) (e + -45) loc_Exact
                ltac:(lia)) as [E | [E | (mz & ez & E & Hmz)]];
      change (binary_round_aux prec emax false (Z.pos (m * m180)) (e + -45) loc_Exact)
        with (SFmul prec emax (S754_finite false m e) c180) in E;
      rewrite E in *.
    + vm_compute. auto.
    + discriminate Hz.
    + split.
      * apply shape_nonneg. apply SFdiv_shape.
      * apply div_pi_le; assumption.
Qed.

(* ===================================================================== *)
(** * Facts about the accessors *)
(* ===================================================================== *)

Lemma bind_Ok {A B : Type} (c : Exc A) (k : A -> Exc B) (b : B) :
  bind c k = Ok b -> exists a, c = Ok a /\ k a = Ok b.
Proof.
  destruct c as [a|]; simpl; intros H; [exists a; auto | discriminate].
Qed.

(** [getJoints] succeeds exactly when the six keypoints are there. *)
Lemma getJoints_Ok (pose : Pose) (j : Joints) :
  getJoints pose = Ok j ->
  getKey pose 5 = Ok (leftShoulder j) /\ getKey pose 6 = Ok (rightShoulder j) /\
  getKey pose 7 = Ok (leftElbow j) /\ getKey pose 8 = Ok (rightElbow j) /\
  getKey pose 9 = Ok (leftWrist j) /\ getKey pose 10 = Ok (rightWrist j).
Proof.
  unfold getJoints. intros H.
  repeat (apply bind_Ok in H; destruct H as [? [? H]]).
  injection H as <-. cbn. repeat split; assumption.
Qed.

(** The texts on screen are no part of the session. *)
Lemma pushCount_set_feedbackText (f : Feedback) (w : World) :
  pushCount (set_feedbackText f w) = pushCount w.
Proof. reflexivity. Qed.

Section Properties.

Variable Math_hypot : number -> number -> number.
Variable Math_acos : number -> number.

Abbreviation elbowAvgOf' := (elbowAvgOf Math_hypot Math_acos).
Abbreviation evaluateForPushUp' := (evaluateForPushUp Math_hypot Math_acos).
Abbreviation runDetectionLoop' := (runDetectionLoop Math_hypot Math_acos).
Abbreviation step' := (step Math_hypot Math_acos).

(** A frame with usable shoulders and a baseline runs the state machine
    on the two predicates of lines 248 and 249. *)
Lemma evaluateForPushUp_usable (pose : Pose) (j : Joints) (b : Baseline)
    (now : number) (w : World) :
  getJoints pose = Ok j -> shouldersUnusable j = false -> baseline w = Some b ->
  evaluateForPushUp' pose now w =
  Ok (repetitionUpdate
        (downDetectedOf (elbowAvgOf' j) (shoulderDropOf j b) (wristsUnderOf j) b)
        (upDetectedOf (elbowAvgOf' j) (shoulderDropOf j b) b) now w).
Proof.
  intros Hj Hs Hb. unfold evaluateForPushUp. rewrite Hj. cbn [bind].
  rewrite Hs, Hb. reflexivity.
Qed.

(** The two predicates of a frame exclude each other. *)
Lemma predicates_exclusive (e d : number) (wu : bool) (b : Baseline) :
  downDetectedOf e d wu b && upDetectedOf e d b = false.
Proof.
  unfold downDetectedOf, upDetectedOf.
  pose proof (below_90_above_160 e) as H.
  destruct (e <? DOWN_ANGLE_THRESHOLD); [| reflexivity].
  destruct (e >? UP_ANGLE_THRESHOLD); [discriminate H |].
  cbn. now rewrite andb_false_r.
Qed.

(** C10: for every evaluated frame, [downDetected] and [upDetected] are
    never both true: the averaged elbow angle cannot be both below 90 and
    above 160, whatever the joints and the baseline, so that at most one
    of the two transition predicates holds in a frame. *)
Theorem down_and_up_exclusive :
  forall (j : Joints) (b : Baseline) (elbowAvg shoulderDrop : number)
         (wristsUnder : bool),
    (elbowAvg <? DOWN_ANGLE_THRESHOLD) && (elbowAvg >? UP_ANGLE_THRESHOLD) = false
    /\ downDetectedOf elbowAvg shoulderDrop wristsUnder b
       && upDetectedOf elbowAvg shoulderDrop b = false
    /\ downDetectedOf (elbowAvgOf' j) (shoulderDropOf j b) (wristsUnderOf j) b
       && upDetectedOf (elbowAvgOf' j) (shoulderDropOf j b) b = false.
Proof.
  intros j b elbowAvg shoulderDrop wristsUnder.
  split; [apply below_90_above_160 | split; apply predicates_exclusive].
Qed.

(** [wristsUnder] asks the same of the two sides. *)
Lemma wristsUnderOf_sides (j : Joints) :
  wristsUnderOf j = true <->
  forall s : Side,
    (score (wrist s j) >=? dec 25 2) = true /\
    (Math_abs (x (wrist s j) - x (shoulder s j))
       <? dec 9 1 * currentShoulderWidth j) = true.
Proof.
  unfold wristsUnderOf, currentShoulderWidth.
  rewrite (jmul_comm (dec 9 1)).
  rewrite !andb_true_iff. split.
  - intros [[H1 H2] [H3 H4]] [|]; cbn; auto.
  - intros H. pose proof (H LeftSide) as [H1 H2]. pose proof (H RightSide) as [H3 H4].
    cbn in *. auto.
Qed.

(** C3: for every frame whose signals are computed (both shoulder
    confidences at least 0.35) and every baseline, the frame runs the
    state machine on [downDetected] and [upDetected], where [downDetected]
    holds iff the averaged elbow angle is below 90, [shoulderDrop] exceeds
    0.85 times the baseline's threshold and [wristsUnder] holds;
    [upDetected] holds iff the averaged angle is above 160 and
    [shoulderDrop] is below 0.45 times the threshold; and [wristsUnder]
    holds iff on both sides the wrist confidence is at least 0.25 and the
    horizontal wrist-to-shoulder distance is below 0.9 times the current
    shoulder width. *)
Theorem detection_predicates :
  forall (pose : Pose) (j : Joints) (b : Baseline) (now : number) (w : World),
    getJoints pose = Ok j ->
    (score (leftShoulder j) >=? dec 35 2) = true ->
    (score (rightShoulder j) >=? dec 35 2) = true ->
    baseline w = Some b ->
    let elbowAvg :=
      (angleDeg Math_hypot Math_acos (leftShoulder j) (leftElbow j) (leftWrist j)
       + angleDeg Math_hypot Math_acos (rightShoulder j) (rightElbow j) (rightWrist j))
      / int 2 in
    let shoulderDrop :=
      (y (leftShoulder j) + y (rightShoulder j)) / int 2 - shoulderY b in
    exists downDetected upDetected wristsUnder : bool,
      evaluateForPushUp' pose now w
        = Ok (repetitionUpdate downDetected upDetected now w)
      /\ (downDetected = true <->
            (elbowAvg <? int 90) = true /\
            (shoulderDrop >? dec 85 2 * shoulderDropThreshold b) = true /\
            wristsUnder = true)
      /\ (upDetected = true <->
            (elbowAvg >? int 160) = true /\
            (shoulderDrop <? dec 45 2 * shoulderDropThreshold b) = true)
      /\ (wristsUnder = true <->
            forall s : Side,
              (score (wrist s j) >=? dec 25 2) = true /\
              (Math_abs (x (wrist s j) - x (shoulder s j))
                 <? dec 9 1 * currentShoulderWidth j) = true).
Proof.
  intros pose j b now w Hj Hl Hr Hb elbowAvg shoulderDrop.
  assert (Hs : shouldersUnusable j = false).
  { unfold shouldersUnusable.
    now rewrite (jge_not_jlt _ _ Hl), (jge_not_jlt _ _ Hr). }
  exists (downDetectedOf (elbowAvgOf' j) (shoulderDropOf j b) (wristsUnderOf j) b),
         (upDetectedOf (elbowAvgOf' j) (shoulderDropOf j b) b),
         (wristsUnderOf j).
  split; [now apply evaluateForPushUp_usable |].
  split; [| split; [| apply wristsUnderOf_sides]].
  - unfold downDetectedOf. rewrite (jmul_comm (dec 85 2)), !andb_true_iff.
    fold elbowAvg. tauto.
  - unfold upDetectedOf. rewrite (jmul_comm (dec 45 2)), !andb_true_iff.
    fold elbowAvg. tauto.
Qed.

(** [getMidpointY] is absent as soon as one score is below 0.35. *)
Lemma getMidpointY_absent (pose : Pose) (aIdx bIdx : nat) (a b : Keypoint) :
  getKey pose aIdx = Ok a -> getKey pose bIdx = Ok b ->
  (score a <? dec 35 2) = true \/ (score b <? dec 35 2) = true ->
  getMidpointY pose aIdx bIdx = Ok None.
Proof.
  intros Ha Hb H. unfold getMidpointY. rewrite Ha, Hb. cbn [bind].
  destruct H as [H|H]; rewrite H; [reflexivity | now rewrite orb_true_r].
Qed.

(** A frame that throws or is skipped leaves the page as it was. *)
Lemma runDetectionLoop_skipped (pose : Pose) (now : number) (w : World) :
  evaluateForPushUp' pose now w = Ok w ->
  runDetectionLoop' (Poses (Some pose)) now w = w.
Proof.
  intros H. unfold runDetectionLoop. rewrite H.
  destruct (running w); cbn; [| reflexivity].
  destruct (drawPose pose); [| reflexivity].
  now destruct (baseline w).
Qed.

(** C6: for every pose and every pair of keypoint indices, if either
    keypoint's confidence is below 0.35 then [getMidpointY] returns the
    absent value; and for every pose, if either shoulder keypoint's
    confidence is below 0.35 then the per-frame evaluation returns at once
    and leaves the page as it was: no update of the repetition state
    machine, no change of the count and no feedback text, in the function
    itself and in the frame of the detection loop that calls it. *)
Theorem low_confidence_is_absent :
  forall (pose : Pose) (aIdx bIdx : nat) (a b : Keypoint) (j : Joints)
         (now : number) (w : World),
    (getKey pose aIdx = Ok a -> getKey pose bIdx = Ok b ->
     (score a <? dec 35 2) = true \/ (score b <? dec 35 2) = true ->
     getMidpointY pose aIdx bIdx = Ok None)
    /\
    (getJoints pose = Ok j ->
     (score (leftShoulder j) <? dec 35 2) = true \/
     (score (rightShoulder j) <? dec 35 2) = true ->
     evaluateForPushUp' pose now w = Ok w
     /\ runDetectionLoop' (Poses (Some pose)) now w = w
     /\ step' (Frame (Poses (Some pose)) now) w = w).
Proof.
  intros pose aIdx bIdx a b j now w. split.
  - apply getMidpointY_absent.
  - intros Hj H.
    assert (E : evaluateForPushUp' pose now w = Ok w).
    { unfold evaluateForPushUp. rewrite Hj. cbn [bind].
      unfold shouldersUnusable.
      destruct H as [H|H]; rewrite H; [reflexivity | now rewrite orb_true_r]. }
    split; [exact E |].
    split; [| cbn [step]]; now apply runDetectionLoop_skipped.
Qed.

(** C9: the reset command sets the count to 0 from every state, whatever
    the position, the running flag and the timestamps, and leaves the
    baseline, the position, [lastRepTime], [lastDownTime], the running
    flag, the camera stream and the loaded model as they were; what it
    changes besides the count is the text on screen. *)
Theorem reset_zeroes_the_count_only :
  forall w : World,
    step' ClickResetCount w = resetCount w
    /\ pushCount (resetCount w) = 0%N
    /\ baseline (resetCount w) = baseline w
    /\ lastPosition (resetCount w) = lastPosition w
    /\ lastRepTime (resetCount w) = lastRepTime w
    /\ lastDownTime (resetCount w) = lastDownTime w
    /\ running (resetCount w) = running w
    /\ stream (resetCount w) = stream w
    /\ detector (resetCount w) = detector w
    /\ feedbackText (resetCount w) = FbCountReset
    /\ liveCounter (screen (resetCount w)) = 0%N.
Proof.
  intros w. unfold resetCount, updateUI. cbn.
  repeat split.
Qed.

(* ===================================================================== *)
(** * The repetition state machine *)
(* ===================================================================== *)

Lemma increment_below (n : N) : (n < MAX_EXACT)%N -> increment n = (n + 1)%N.
Proof.
  intros H. unfold increment. apply N.ltb_lt in H. now rewrite H.
Qed.

Lemma increment_cases (n : N) : increment n = n \/ increment n = (n + 1)%N.
Proof.
  unfold increment. destruct (n <? MAX_EXACT)%N; auto.
Qed.

(** In [Down], a frame with [upDetected] and not [downDetected] counts
    when the two gates are open and only changes the feedback text when
    one is closed. *)
Lemma repetitionUpdate_rising (now : number) (w : World) :
  lastPosition w = Down ->
  let w' := repetitionUpdate false true now w in
  (holdGate now w && intervalGate now w = true ->
     pushCount w' = increment (pushCount w) /\ lastPosition w' = Up /\
     lastRepTime w' = now /\ lastDownTime w' = lastDownTime w /\
     feedbackText w' = FbValidRep (increment (pushCount w)))
  /\
  (holdGate now w && intervalGate now w = false ->
     pushCount w' = pushCount w /\ lastPosition w' = Down /\
     lastRepTime w' = lastRepTime w /\ lastDownTime w' = lastDownTime w).
Proof.
  intros Hp w'. subst w'. unfold repetitionUpdate, holdGate, intervalGate, held,
    sinceLastRep, MIN_DOWN_HOLD_MS, MIN_REP_INTERVAL_MS.
  cbn [lastPosition]. rewrite Hp.
  destruct ((now - lastDownTime w >=? int 250) && (now - lastRepTime w >=? int 800)).
  - split; [intros _ | discriminate]. cbn. auto.
  - split; [discriminate | intros _].
    destruct (now - lastDownTime w <? int 250); [cbn; auto |].
    destruct (now - lastRepTime w <? int 800); cbn; auto.
Qed.

(** What a frame can do to the count, whatever its two predicates (which
    exclude each other). *)
Lemma repetitionUpdate_count (d u : bool) (now : number) (w : World) :
  d && u = false ->
  pushCount (repetitionUpdate d u now w) = pushCount w
  \/ (lastPosition w = Down /\ u = true /\ holdGate now w = true /\
      intervalGate now w = true /\
      pushCount (repetitionUpdate d u now w) = increment (pushCount w)).
Proof.
  intros Hdu. destruct u.
  - rewrite andb_true_r in Hdu. subst d.
    destruct (lastPosition w) eqn:Hp.
    + left. unfold repetitionUpdate. rewrite Hp. reflexivity.
    + destruct (repetitionUpdate_rising now w Hp) as [Hopen Hclosed].
      destruct (holdGate now w && intervalGate now w) eqn:Hg.
      * right. apply andb_true_iff in Hg as [? ?].
        destruct (Hopen eq_refl) as [? _]. auto.
      * left. now destruct (Hclosed eq_refl).
  - left. unfold repetitionUpdate.
    destruct d, (lastPosition w) eqn:Hp; cbn; rewrite ?Hp; reflexivity.
Qed.

(** What a frame can do to [lastDownTime]. *)
Lemma repetitionUpdate_lastDownTime (d u : bool) (now : number) (w : World) :
  d && u = false ->
  (lastDownTime (repetitionUpdate d u now w) = lastDownTime w
   /\ (lastPosition w = Down -> d = true ->
       lastPosition (repetitionUpdate d u now w) = Down))
  \/ (d = true /\ lastPosition w = Up /\
      lastPosition (repetitionUpdate d u now w) = Down /\
      lastDownTime (repetitionUpdate d u now w) = now).
Proof.
  intros Hdu. destruct d.
  - cbn in Hdu. subst u.
    destruct (lastPosition w) eqn:Hp.
    + right. unfold repetitionUpdate. rewrite Hp. cbn. auto.
    + left. unfold repetitionUpdate. rewrite Hp. cbn. rewrite Hp. cbn. auto.
  - left. split; [| discriminate].
    destruct u.
    + destruct (lastPosition w) eqn:Hp.
      * unfold repetitionUpdate. rewrite Hp. reflexivity.
      * destruct (repetitionUpdate_rising now w Hp) as [Hopen Hclosed].
        destruct (holdGate now w && intervalGate now w) eqn:Hg.
        -- now destruct (Hopen eq_refl) as (_ & _ & _ & ? & _).
        -- now destruct (Hclosed eq_refl) as (_ & _ & _ & ?).
    + unfold repetitionUpdate. destruct (lastPosition w); reflexivity.
Qed.

(** The calibration writes the baseline and nothing else. *)
Lemma calibrateBaseline_world (estimatePoses : nat -> Estimate) (w w' : World)
    (ok : bool) :
  calibrateBaseline estimatePoses w = Ok (ok, w') ->
  (ok = false /\ w' = w) \/
  (ok = true /\ exists b, w' = set_baseline (Some b) w).
Proof.
  unfold calibrateBaseline. intros H.
  apply bind_Ok in H as [collected [_ H]].
  destruct collected; injection H as <- <-; [left | right]; eauto.
Qed.

(** The countdown and the calibration leave the count and
    [lastDownTime] where they were. *)
Lemma startCountdownAndRun_count (estimatePoses : nat -> Estimate) (w : World) :
  pushCount (startCountdownAndRun estimatePoses w) = pushCount w /\
  lastDownTime (startCountdownAndRun estimatePoses w) = lastDownTime w.
Proof.
  unfold startCountdownAndRun.
  match goal with |- context [calibrateBaseline ?e ?v] =>
    destruct (calibrateBaseline e v) as [[ok w']|] eqn:Hc end.
  - apply calibrateBaseline_world in Hc as [[-> ->] | [-> [b ->]]]; now cbn.
  - now cbn.
Qed.

(** The commands other than a frame leave the count where it was or at
    0, and never write [lastDownTime]. *)
Lemma startOrStopDetection_session (load : ModelOutcome)
    (estimatePoses : nat -> Estimate) (w : World) :
  pushCount (startOrStopDetection load estimatePoses w) = pushCount w /\
  lastDownTime (startOrStopDetection load estimatePoses w) = lastDownTime w.
Proof.
  unfold startOrStopDetection.
  destruct (stream w); cbn [negb]; [| now cbn].
  destruct (running w); [now cbn |].
  destruct (detector w); [apply startCountdownAndRun_count |].
  destruct load; [now cbn |].
  destruct (startCountdownAndRun_count estimatePoses (initPoseModel Loaded w))
    as [-> ->].
  now cbn.
Qed.

(** A frame of the loop either leaves the page as it was or runs the
    state machine on the predicates of a pose with usable shoulders. *)
Lemma runDetectionLoop_cases (est : Estimate) (now : number) (w : World) :
  runDetectionLoop' est now w = w
  \/ exists pose j b,
       est = Poses (Some pose) /\ getJoints pose = Ok j /\
       shouldersUnusable j = false /\ baseline w = Some b /\
       runDetectionLoop' est now w =
       repetitionUpdate
         (downDetectedOf (elbowAvgOf' j) (shoulderDropOf j b) (wristsUnderOf j) b)
         (upDetectedOf (elbowAvgOf' j) (shoulderDropOf j b) b) now w.
Proof.
  unfold runDetectionLoop.
  destruct (running w); cbn [negb]; [| now left].
  destruct est as [|[pose|]]; try now left.
  destruct (drawPose pose); [| now left].
  destruct (baseline w) as [b|] eqn:Hb; [| now left].
  destruct (getJoints pose) as [j|] eqn:Hj.
  - destruct (shouldersUnusable j) eqn:Hs.
    + left. unfold evaluateForPushUp. now rewrite Hj; cbn [bind]; rewrite Hs.
    + right. exists pose, j, b.
      rewrite (evaluateForPushUp_usable pose now w Hj Hs Hb). auto.
  - left. unfold evaluateForPushUp. now rewrite Hj.
Qed.

(** C1: for every frame evaluated while the state machine is in [Down]
    with [upDetected] true, the count is incremented if and only if
    [held = now - lastDownTime >= 250] and
    [sinceLastRep = now - lastRepTime >= 800] (a transition held for 249 ms
    does not increment); a qualifying transition increments the count by
    exactly one; and every operation of the page leaves the count where it
    was or lower, except a frame that takes this path.  The counter is a
    binary64 number: the count is taken below [2^53], where adding one is
    exact. *)
Theorem count_increments_through_the_gates :
  forall (pose : Pose) (j : Joints) (b : Baseline) (now : number) (w : World)
         (op : Op),
    (getJoints pose = Ok j -> shouldersUnusable j = false ->
     baseline w = Some b -> lastPosition w = Down ->
     upDetectedOf (elbowAvgOf' j) (shoulderDropOf j b) b = true ->
     (pushCount w < MAX_EXACT)%N ->
     exists w',
       evaluateForPushUp' pose now w = Ok w'
       /\ (pushCount w' = (pushCount w + 1)%N <->
             (now - lastDownTime w >=? int 250) = true /\
             (now - lastRepTime w >=? int 800) = true)
       /\ (pushCount w' = pushCount w \/ pushCount w' = (pushCount w + 1)%N)
       /\ (now - lastDownTime w = int 249 -> pushCount w' = pushCount w))
    /\
    ((pushCount (step' op w) <= pushCount w)%N
     \/ exists pose' j' b' now',
          op = Frame (Poses (Some pose')) now'
          /\ getJoints pose' = Ok j' /\ baseline w = Some b'
          /\ lastPosition w = Down
          /\ upDetectedOf (elbowAvgOf' j') (shoulderDropOf j' b') b' = true
          /\ (now' - lastDownTime w >=? int 250) = true
          /\ (now' - lastRepTime w >=? int 800) = true
          /\ pushCount (step' op w) = (pushCount w + 1)%N).
Proof.
  intros pose j b now w op. split.
  - intros Hj Hs Hb Hp Hu Hn.
    rewrite (evaluateForPushUp_usable pose now w Hj Hs Hb).
    pose proof (predicates_exclusive (elbowAvgOf' j) (shoulderDropOf j b)
                  (wristsUnderOf j) b) as Hx.
    rewrite Hu, andb_true_r in Hx. rewrite Hu, Hx.
    eexists; split; [reflexivity |].
    destruct (repetitionUpdate_rising now w Hp) as [Hopen Hclosed].
    unfold holdGate, intervalGate, held, sinceLastRep in Hopen, Hclosed.
    destruct ((now - lastDownTime w >=? int 250) && (now - lastRepTime w >=? int 800))
      eqn:Hg.
    + destruct (Hopen eq_refl) as [Hc _]. rewrite Hc, (increment_below Hn).
      apply andb_true_iff in Hg as [Hh Hi].
      split; [tauto |]. split; [now right |].
      intros E. rewrite E in Hh. vm_compute in Hh. discriminate Hh.
    + destruct (Hclosed eq_refl) as [Hc _]. rewrite Hc.
      split; [| split; [now left | reflexivity]].
      split; [lia |]. intros [Hh Hi]. rewrite Hh, Hi in Hg. discriminate Hg.
  - destruct op as [outcome| |load estimatePoses| |est now'].
    + left. destruct outcome; cbn; lia.
    + left. cbn. lia.
    + left. cbn [step].
      destruct (startOrStopDetection_session load estimatePoses w) as [-> _]. lia.
    + left. cbn. lia.
    + cbn [step].
      destruct (runDetectionLoop_cases est now' w)
        as [-> | (pose' & j' & b' & -> & Hj & Hs & Hb & ->)]; [left; lia |].
      destruct (repetitionUpdate_count
                  (downDetectedOf (elbowAvgOf' j') (shoulderDropOf j' b')
                     (wristsUnderOf j') b')
                  (upDetectedOf (elbowAvgOf' j') (shoulderDropOf j' b') b') now' w
                  (predicates_exclusive _ _ _ _))
        as [-> | (Hp & Hu & Hh & Hi & Hc)]; [left; lia |].
      rewrite Hc. destruct (increment_cases (pushCount w)) as [-> | E];
        [left; lia |].
      right. exists pose', j', b', now'. rewrite E. auto 10.
Qed.

(** C8: for every frame evaluated while the state machine is already in
    [Down], a frame with [downDetected] true does not take the Up-to-Down
    transition again: the position stays [Down] and [lastDownTime], the
    count and [lastRepTime] are unchanged; and every operation of the page
    leaves [lastDownTime] as it was, except a frame that leaves [Up] for
    [Down], which sets it to the clock reading of that frame. *)
Theorem down_is_not_retriggered :
  forall (pose : Pose) (j : Joints) (b : Baseline) (now : number) (w : World)
         (op : Op),
    (getJoints pose = Ok j -> shouldersUnusable j = false ->
     baseline w = Some b -> lastPosition w = Down ->
     downDetectedOf (elbowAvgOf' j) (shoulderDropOf j b) (wristsUnderOf j) b = true ->
     exists w',
       evaluateForPushUp' pose now w = Ok w'
       /\ lastPosition w' = Down
       /\ lastDownTime w' = lastDownTime w
       /\ pushCount w' = pushCount w
       /\ lastRepTime w' = lastRepTime w
       /\ feedbackText w' = FbDescentDetected)
    /\
    (lastDownTime (step' op w) = lastDownTime w
     \/ exists est now',
          op = Frame est now'
          /\ lastPosition w = Up
          /\ lastPosition (step' op w) = Down
          /\ lastDownTime (step' op w) = now').
Proof.
  intros pose j b now w op. split.
  - intros Hj Hs Hb Hp Hd.
    rewrite (evaluateForPushUp_usable pose now w Hj Hs Hb).
    pose proof (predicates_exclusive (elbowAvgOf' j) (shoulderDropOf j b)
                  (wristsUnderOf j) b) as Hx.
    rewrite Hd in Hx. cbn in Hx. rewrite Hd, Hx.
    eexists; split; [reflexivity |].
    unfold repetitionUpdate. rewrite Hp. cbn. rewrite Hp. cbn. auto.
  - destruct op as [outcome| |load estimatePoses| |est now'].
    + left. now destruct outcome.
    + now left.
    + left. cbn [step]. now destruct (startOrStopDetection_session load estimatePoses w).
    + now left.
    + cbn [step].
      destruct (runDetectionLoop_cases est now' w)
        as [-> | (pose' & j' & b' & -> & Hj & Hs & Hb & ->)]; [now left |].
      destruct (repetitionUpdate_lastDownTime
                  (downDetectedOf (elbowAvgOf' j') (shoulderDropOf j' b')
                     (wristsUnderOf j') b')
                  (upDetectedOf (elbowAvgOf' j') (shoulderDropOf j' b') b') now' w
                  (predicates_exclusive _ _ _ _))
        as [[E _] | (_ & Hp & Hq & E)]; [now left |].
      right. eauto 10.
Qed.

End Properties.

(* ===================================================================== *)
(** * The scenario of the specification *)
(* ===================================================================== *)




(* ===================================================================== *)
(** * The clock of a session *)
(* ===================================================================== *)

(** The countdown needs 11 tests of [t > 0]: it shows 10, waits a second
    and shows one less ten times, the last time 'COMEÇAR', waits 300 ms
    and hides the overlay. *)
Lemma countdown_enough (k : nat) :
  countdown (11 + k)
  = Some (Shows (SecondsLeft (int 10))
          :: flat_map (fun n => [Waits 1000; showCountdown (int n)])
                      [9; 8; 7; 6; 5; 4; 3; 2; 1; 0]%Z
          ++ [Waits 300; Hides]).
Proof. vm_compute. reflexivity. Qed.

Lemma countdown_short (fuel : nat) :
  (fuel < 11)%nat -> countdown fuel = None.
Proof.
  intros H.
  do 11 (destruct fuel as [|fuel]; [vm_compute; reflexivity |]).
  lia.
Qed.

Lemma countdown_cases (fuel : nat) :
  ((fuel < 11)%nat /\ countdown fuel = None)
  \/ ((11 <= fuel)%nat /\ countdown fuel = countdown 11).
Proof.
  destruct (Nat.lt_ge_cases fuel 11) as [H | H].
  - left. split; [exact H | now apply countdown_short].
  - right. split; [exact H |].
    replace fuel with (11 + (fuel - 11))%nat by lia.
    rewrite countdown_enough. symmetry. apply (countdown_enough 0).
Qed.

(** The calibration's own pace: an attempt that completes waits 120 ms,
    and the timeline stops where the loop of samples does. *)
Lemma calibrationTimeline_cases (estimatePoses : nat -> Estimate) :
  forall (n i : nat) (collected : list Sample),
    (calibrationTimeline estimatePoses i n = Throw
     /\ collectSamples estimatePoses i n collected = Throw)
    \/ (calibrationTimeline estimatePoses i n = Ok (repeat (Waits 120) n)
        /\ exists l, collectSamples estimatePoses i n collected = Ok l).
Proof.
  induction n as [|n IH]; intros i collected.
  - right. split; [reflexivity | now exists collected].
  - cbn [calibrationTimeline collectSamples repeat].
    destruct (estimatePoses i) as [|[p|]]; [now left | |].
    + destruct (sampleOf p) as [s|]; cbn [bind]; [| now left].
      match goal with |- context [collectSamples _ _ _ ?c] =>
        destruct (IH (S i) c) as [[-> ->] | [-> [l ->]]] end;
        [now left | right; eauto].
    + destruct (IH (S i) collected) as [[-> ->] | [-> [l ->]]];
        [now left | right; eauto].
Qed.







(* ===================================================================== *)
(** * Calibration *)
(* ===================================================================== *)

Lemma int_20 : int 20 = S754_finite false 5629499534213120 (-48).
Proof. vm_compute. reflexivity. Qed.

(** [Math.max(20, v)] is at least 20, or NaN when [v] is. *)
Lemma Math_max_20 (v : number) :
  (Math_max (int 20) v >=? int 20) = true \/ Math_max (int 20) v = NaN.
Proof.
  unfold Math_max, jge, SFleb.
  destruct (SFcompare (int 20) v) as [[| |]|] eqn:E.
  - left. rewrite int_20. vm_compute. reflexivity.
  - left. now rewrite E.
  - left. vm_compute. reflexivity.
  - now right.
Qed.

(** The loop collects, in order, what the attempts accept. *)
Lemma collectSamples_accepted (estimatePoses : nat -> Estimate) :
  forall (n i : nat) (collected : list Sample),
    (forall k, (i <= k < i + n)%nat -> attemptCompletes estimatePoses k = true) ->
    collectSamples estimatePoses i n collected
    = Ok (collected ++ acceptedFrom estimatePoses i n).
Proof.
  induction n as [|n IH]; intros i collected H.
  - cbn. now rewrite app_nil_r.
  - assert (Hi : attemptCompletes estimatePoses i = true) by (apply H; lia).
    assert (Hn : forall k, (S i <= k < S i + n)%nat ->
                           attemptCompletes estimatePoses k = true)
      by (intros k Hk; apply H; lia).
    unfold acceptedFrom. cbn [collectSamples seq flat_map].
    fold (acceptedFrom estimatePoses (S i) n).
    unfold attemptCompletes in Hi. unfold acceptedAt at 1.
    destruct (estimatePoses i) as [|[p|]]; [discriminate Hi | |].
    + destruct (sampleOf p) as [[smp|]|]; [| | discriminate Hi]; cbn [bind].
      * rewrite (IH (S i) _ Hn). now rewrite <- app_assoc.
      * now rewrite (IH (S i) _ Hn).
    + now rewrite (IH (S i) _ Hn).
Qed.

(** The average the script folds is the mean of the field. *)
Lemma average_mean (f : Sample -> number) (collected : list Sample) :
  average f collected = mean (map f collected).
Proof.
  unfold average, mean. rewrite length_map. f_equal.
  generalize (int 0). induction collected as [|s l IH]; intros a; cbn.
  - reflexivity.
  - apply IH.
Qed.

(** C7: when every one of the 6 attempts completes, then with zero
    accepted samples the calibration returns failure and writes no
    baseline (the baseline is left as it was, absent if it was absent, and
    [startCountdownAndRun] leaves detection stopped); otherwise it returns
    success with a baseline whose [shoulderY], [hipY] and [shoulderWidth]
    are the arithmetic means of the accepted samples, whose [bodyHeight]
    is [Math.max(20, |hipY - shoulderY|)] and whose
    [shoulderDropThreshold] is [bodyHeight * 0.18], and detection
    starts. *)
Theorem calibration_outcome :
  forall (estimatePoses : nat -> Estimate) (w : World),
    (forall i, (i < tries)%nat -> attemptCompletes estimatePoses i = true) ->
    (acceptedFrom estimatePoses 0 tries = [] ->
       calibrateBaseline estimatePoses w = Ok (false, w)
       /\ baseline (startCountdownAndRun estimatePoses w) = baseline w
       /\ running (startCountdownAndRun estimatePoses w) = false
       /\ feedbackText (startCountdownAndRun estimatePoses w) = FbCalibrationFailed)
    /\
    (acceptedFrom estimatePoses 0 tries <> [] ->
       exists b : Baseline,
         calibrateBaseline estimatePoses w = Ok (true, set_baseline (Some b) w)
         /\ shoulderY b
            = mean (map sampleShoulderY (acceptedFrom estimatePoses 0 tries))
         /\ hipY b = mean (map sampleHipY (acceptedFrom estimatePoses 0 tries))
         /\ shoulderWidth b
            = mean (map sampleShoulderWidth (acceptedFrom estimatePoses 0 tries))
         /\ bodyHeight b = Math_max (int 20) (Math_abs (hipY b - shoulderY b))
         /\ ((bodyHeight b >=? int 20) = true \/ bodyHeight b = NaN)
         /\ shoulderDropThreshold b = bodyHeight b * dec 18 2
         /\ baseline (startCountdownAndRun estimatePoses w) = Some b
         /\ running (startCountdownAndRun estimatePoses w) = true).
Proof.
  intros estimatePoses w H.
  assert (E : forall v, calibrateBaseline estimatePoses v
              = match acceptedFrom estimatePoses 0 tries with
                | [] => Ok (false, v)
                | _ :: _ => Ok (true, set_baseline
                              (Some (baselineOf (acceptedFrom estimatePoses 0 tries))) v)
                end).
  { intros v. unfold calibrateBaseline.
    rewrite (@collectSamples_accepted estimatePoses tries 0 []) by (intros k Hk; apply H; lia).
    cbn [app bind]. reflexivity. }
  split.
  - intros Hnil. unfold startCountdownAndRun. rewrite !E, Hnil. cbn. auto.
  - intros Hsome. exists (baselineOf (acceptedFrom estimatePoses 0 tries)).
    unfold startCountdownAndRun. rewrite !E.
    destruct (acceptedFrom estimatePoses 0 tries) as [|s l] eqn:Ha;
      [now elim Hsome |].
    split; [reflexivity |].
    unfold baselineOf. cbn [shoulderY hipY shoulderWidth bodyHeight shoulderDropThreshold].
    rewrite !average_mean.
    repeat split; try reflexivity.
    apply Math_max_20.
Qed.

(** Six sightings of [poseTop]: every attempt completes and is accepted. *)
Lemma calibration_outcome_witness :
  (acceptedFrom alwaysTop 0 tries = [] ->
     calibrateBaseline alwaysTop initialWorld = Ok (false, initialWorld)
     /\ baseline (startCountdownAndRun alwaysTop initialWorld) = baseline initialWorld
     /\ running (startCountdownAndRun alwaysTop initialWorld) = false
     /\ feedbackText (startCountdownAndRun alwaysTop initialWorld) = FbCalibrationFailed)
  /\
  (acceptedFrom alwaysTop 0 tries <> [] ->
     exists b : Baseline,
       calibrateBaseline alwaysTop initialWorld
       = Ok (true, set_baseline (Some b) initialWorld)
       /\ shoulderY b = mean (map sampleShoulderY (acceptedFrom alwaysTop 0 tries))
       /\ hipY b = mean (map sampleHipY (acceptedFrom alwaysTop 0 tries))
       /\ shoulderWidth b
          = mean (map sampleShoulderWidth (acceptedFrom alwaysTop 0 tries))
       /\ bodyHeight b = Math_max (int 20) (Math_abs (hipY b - shoulderY b))
       /\ ((bodyHeight b >=? int 20) = true \/ bodyHeight b = NaN)
       /\ shoulderDropThreshold b = bodyHeight b * dec 18 2
       /\ baseline (startCountdownAndRun alwaysTop initialWorld) = Some b
       /\ running (startCountdownAndRun alwaysTop initialWorld) = true).
Proof.
  apply (calibration_outcome alwaysTop initialWorld).
  intros i _. vm_compute. reflexivity.
Defined.

(** Nobody in front of the camera: the calibration fails and detection
    does not start. *)
Example calibration_of_nobody :
  acceptedFrom nobody 0 tries = []
  /\ calibrateBaseline nobody initialWorld = Ok (false, initialWorld)
  /\ baseline (startCountdownAndRun nobody initialWorld) = None
  /\ running (startCountdownAndRun nobody initialWorld) = false.
Proof.
  vm_compute. repeat split.
Qed.

(** The baseline of six sightings of [poseTop]: shoulders at 110, hips at
    300, 80 wide. *)
Example calibration_of_poseTop :
  attemptCompletes alwaysTop 0 = true
  /\ length (acceptedFrom alwaysTop 0 tries) = 6%nat
  /\ option_map shoulderY (baseline (startCountdownAndRun alwaysTop initialWorld))
     = Some (int 110)
  /\ option_map hipY (baseline (startCountdownAndRun alwaysTop initialWorld))
     = Some (int 300)
  /\ option_map shoulderWidth (baseline (startCountdownAndRun alwaysTop initialWorld))
     = Some (int 80)
  /\ option_map bodyHeight (baseline (startCountdownAndRun alwaysTop initialWorld))
     = Some (int 190)
  /\ option_map shoulderDropThreshold
       (baseline (startCountdownAndRun alwaysTop initialWorld))
     = Some (int 190 * dec 18 2).
Proof.
  vm_compute. repeat split.
Qed.

(** A calibration that succeeds starts the session in [Up] with
    [lastRepTime = 0], and keeps the count and [lastDownTime]. *)
Lemma startCountdownAndRun_session (estimatePoses : nat -> Estimate) (w : World) :
  running (startCountdownAndRun estimatePoses w) = true ->
  lastPosition (startCountdownAndRun estimatePoses w) = Up
  /\ lastRepTime (startCountdownAndRun estimatePoses w) = int 0
  /\ pushCount (startCountdownAndRun estimatePoses w) = pushCount w
  /\ lastDownTime (startCountdownAndRun estimatePoses w) = lastDownTime w.
Proof.
  unfold startCountdownAndRun.
  match goal with |- context [calibrateBaseline ?e ?v] =>
    destruct (calibrateBaseline e v) as [[ok w']|] eqn:Hc end.
  - apply calibrateBaseline_world in Hc as [[-> ->] | [-> [b ->]]]; cbn.
    + discriminate.
    + auto.
  - cbn. discriminate.
Qed.

(** The page after the camera is opened and detection started in front of
    [poseTop]. *)
Example session_after_start :
  let w := startOrStopDetection Loaded alwaysTop (startCamera Playing initialWorld) in
  running w = true /\ lastPosition w = Up /\ pushCount w = 0%N
  /\ lastRepTime w = int 0 /\ lastDownTime w = zero
  /\ feedbackText w = FbStarted.
Proof.
  vm_compute. repeat split.
Qed.

(* ===================================================================== *)
(** * The samples of the calibration *)
(* ===================================================================== *)

(** The width of a sample passes the test [> 10] exactly when the
    distance of the shoulders does: the replacement 1 does not. *)
Lemma orElse_above_10 (d : number) :
  (orElse d (int 1) >? int 10) = (d >? int 10).
Proof.
  unfold orElse. destruct d as [s|s| |s m e]; cbn [truthy]; reflexivity.
Qed.

(** The width of a sample is not its distance floored at 1: shoulders half
    a pixel apart give the width 0.5.  And a midpoint that is valid by the
    0.35 rule but equal to 0 is taken for an absent one: with the
    shoulders on the upper edge of the image, both scores 0.9 and a width
    of 80, the sample is not accepted. *)
Lemma sample_width_and_acceptance :
  (calibrationWidth poseNarrow = Ok (dec 5 1)
   /\ flooredAt1 (Math_abs (dec 105 1 - int 10)) = int 1
   /\ (dec 5 1 === int 1) = false)
  /\
  (getMidpointY poseAtEdge 5 6 = Ok (Some zero)
   /\ getMidpointY poseAtEdge 11 12 = Ok (Some (int 190))
   /\ calibrationWidth poseAtEdge = Ok (int 80)
   /\ (int 80 >? int 10) = true
   /\ sampleOf poseAtEdge = Ok None).
Proof.
  vm_compute. repeat split.
Qed.

(** C4, amended: during calibration, for every fetched pose, the width of
    the attempt is [|leftShoulder.x - rightShoulder.x|], replaced by 1 when
    that is 0 or NaN (it is not floored: a distance between 0 and 1 is
    kept), which passes the test [> 10] exactly when the distance does; a
    midpoint is valid exactly when neither of its two scores is below
    0.35; a sample is accepted only if both midpoints are valid and the
    width is above 10, and it then holds the two midpoints and the width;
    and when both midpoints are valid and neither is 0 or NaN, the sample
    is accepted if and only if the width is above 10. *)
Theorem calibration_sample :
  forall (p : Pose) (l r hl hr : Keypoint) (s hip : option number),
    getKey p 5 = Ok l -> getKey p 6 = Ok r ->
    getKey p 11 = Ok hl -> getKey p 12 = Ok hr ->
    getMidpointY p 5 6 = Ok s -> getMidpointY p 11 12 = Ok hip ->
    exists width : number,
      calibrationWidth p = Ok width
      /\ width = (if truthy (Math_abs (x l - x r))
                  then Math_abs (x l - x r) else int 1)
      /\ (width >? int 10) = (Math_abs (x l - x r) >? int 10)
      /\ valid s = negb ((score l <? dec 35 2) || (score r <? dec 35 2))
      /\ valid hip = negb ((score hl <? dec 35 2) || (score hr <? dec 35 2))
      /\ (forall smp : Sample,
            sampleOf p = Ok (Some smp) ->
            valid s = true /\ valid hip = true /\ (width >? int 10) = true
            /\ s = Some (sampleShoulderY smp) /\ hip = Some (sampleHipY smp)
            /\ sampleShoulderWidth smp = width)
      /\ (forall sv hv : number,
            s = Some sv -> hip = Some hv ->
            truthy sv = true -> truthy hv = true ->
            (sampleOf p = Ok (Some {| sampleShoulderY := sv; sampleHipY := hv;
                                      sampleShoulderWidth := width |})
             <-> (width >? int 10) = true)).
Proof.
  intros p l r hl hr s hip Hl Hr Hhl Hhr Hs Hh.
  exists (orElse (Math_abs (x l - x r)) (int 1)).
  assert (Hw : calibrationWidth p = Ok (orElse (Math_abs (x l - x r)) (int 1))).
  { unfold calibrationWidth. now rewrite Hl, Hr. }
  split; [exact Hw |]. split; [reflexivity |].
  split; [apply orElse_above_10 |].
  split.
  { unfold getMidpointY in Hs. rewrite Hl, Hr in Hs. cbn [bind] in Hs.
    destruct ((score l <? dec 35 2) || (score r <? dec 35 2));
      injection Hs as <-; reflexivity. }
  split.
  { unfold getMidpointY in Hh. rewrite Hhl, Hhr in Hh. cbn [bind] in Hh.
    destruct ((score hl <? dec 35 2) || (score hr <? dec 35 2));
      injection Hh as <-; reflexivity. }
  unfold sampleOf. rewrite Hs, Hh, Hw. cbn [bind].
  split.
  - intros smp H. destruct s as [sv|], hip as [hv|]; try discriminate H.
    destruct (truthy sv && truthy hv
              && (orElse (Math_abs (x l - x r)) (int 1) >? int 10)) eqn:E;
      [| discriminate H].
    injection H as <-. apply andb_true_iff in E as [_ E]. cbn.
    repeat split; auto.
  - intros sv hv -> -> Hsv Hhv. rewrite Hsv, Hhv. cbn [andb].
    destruct (orElse (Math_abs (x l - x r)) (int 1) >? int 10); split;
      intros H; reflexivity || discriminate H.
Qed.

(** [poseTop] gives an accepted sample. *)
Lemma calibration_sample_witness :
  exists width : number,
    calibrationWidth poseTop = Ok width
    /\ width = (if truthy (Math_abs (int 140 - int 60))
                then Math_abs (int 140 - int 60) else int 1)
    /\ (width >? int 10) = (Math_abs (int 140 - int 60) >? int 10)
    /\ valid (Some (int 110)) = negb ((dec 9 1 <? dec 35 2) || (dec 9 1 <? dec 35 2))
    /\ valid (Some (int 300)) = negb ((dec 9 1 <? dec 35 2) || (dec 9 1 <? dec 35 2))
    /\ (forall smp : Sample,
          sampleOf poseTop = Ok (Some smp) ->
          valid (Some (int 110)) = true /\ valid (Some (int 300)) = true
          /\ (width >? int 10) = true
          /\ Some (int 110) = Some (sampleShoulderY smp)
          /\ Some (int 300) = Some (sampleHipY smp)
          /\ sampleShoulderWidth smp = width)
    /\ (forall sv hv : number,
          Some (int 110) = Some sv -> Some (int 300) = Some hv ->
          truthy sv = true -> truthy hv = true ->
          (sampleOf poseTop = Ok (Some {| sampleShoulderY := sv; sampleHipY := hv;
                                          sampleShoulderWidth := width |})
           <-> (width >? int 10) = true)).
Proof.
  apply (@calibration_sample poseTop
           (pt (int 140) (int 110) (dec 9 1)) (pt (int 60) (int 110) (dec 9 1))
           (pt (int 130) (int 300) (dec 9 1)) (pt (int 70) (int 300) (dec 9 1))
           (Some (int 110)) (Some (int 300)));
    vm_compute; reflexivity.
Defined.

(* ===================================================================== *)
(** * The theorems on example frames *)
(* ===================================================================== *)

(** The example poses have the joints they were built from. *)
Lemma getJoints_poseOf (j : Joints) (leftHip rightHip : Keypoint) :
  getJoints (poseOf j leftHip rightHip) = Ok j.
Proof.
  destruct j as [[] [] [] [] [] []]. reflexivity.
Qed.

(** A frame at the top of a push-up, in a session that went down a second
    before: the predicates are as the specification words them. *)
Lemma detection_predicates_witness :
  let j := jointsTop in
  let b := baseline100 in
  let now := int 12000 in
  let w := session Down 0 (int 0) (int 11000) in
  let elbowAvg :=
    (angleDeg hypot_naive acos_steps (leftShoulder j) (leftElbow j) (leftWrist j)
     + angleDeg hypot_naive acos_steps (rightShoulder j) (rightElbow j) (rightWrist j))
    / int 2 in
  let shoulderDrop :=
    (y (leftShoulder j) + y (rightShoulder j)) / int 2 - shoulderY b in
  exists downDetected upDetected wristsUnder : bool,
    evaluateForPushUp hypot_naive acos_steps poseTop now w
      = Ok (repetitionUpdate downDetected upDetected now w)
    /\ (downDetected = true <->
          (elbowAvg <? int 90) = true /\
          (shoulderDrop >? dec 85 2 * shoulderDropThreshold b) = true /\
          wristsUnder = true)
    /\ (upDetected = true <->
          (elbowAvg >? int 160) = true /\
          (shoulderDrop <? dec 45 2 * shoulderDropThreshold b) = true)
    /\ (wristsUnder = true <->
          forall s : Side,
            (score (wrist s j) >=? dec 25 2) = true /\
            (Math_abs (x (wrist s j) - x (shoulder s j))
               <? dec 9 1 * currentShoulderWidth j) = true).
Proof.
  apply (@detection_predicates hypot_naive acos_steps poseTop jointsTop
           baseline100 (int 12000) (session Down 0 (int 0) (int 11000)));
    vm_compute; reflexivity.
Defined.

(** A frame whose left shoulder has score 0.2 is skipped. *)
Lemma low_confidence_is_absent_witness :
  let w := session Down 3 (int 0) (int 11000) in
  getMidpointY poseUnsure 5 6 = Ok None
  /\ evaluateForPushUp hypot_naive acos_steps poseUnsure (int 12000) w = Ok w
  /\ runDetectionLoop hypot_naive acos_steps (Poses (Some poseUnsure)) (int 12000) w = w
  /\ step hypot_naive acos_steps (Frame (Poses (Some poseUnsure)) (int 12000)) w = w.
Proof.
  intros w.
  destruct (@low_confidence_is_absent hypot_naive acos_steps poseUnsure 5 6
              (leftShoulder jointsUnsure) (rightShoulder jointsUnsure)
              jointsUnsure (int 12000) w) as [Hm He].
  split.
  - apply Hm; [reflexivity | reflexivity | left; vm_compute; reflexivity].
  - apply He; [reflexivity | left; vm_compute; reflexivity].
Defined.

(** A frame at the top of a push-up, one second after the descent and
    twelve seconds into the session: the count goes from 0 to 1. *)
Lemma count_increments_through_the_gates_witness :
  let now := int 12000 in
  let w := session Down 0 (int 0) (int 11000) in
  (exists w',
     evaluateForPushUp hypot_naive acos_steps poseTop now w = Ok w'
     /\ (pushCount w' = (pushCount w + 1)%N <->
           (now - lastDownTime w >=? int 250) = true /\
           (now - lastRepTime w >=? int 800) = true)
     /\ (pushCount w' = pushCount w \/ pushCount w' = (pushCount w + 1)%N)
     /\ (now - lastDownTime w = int 249 -> pushCount w' = pushCount w))
  /\ pushCount (step hypot_naive acos_steps (Frame (Poses (Some poseTop)) now) w)
     = 1%N.
Proof.
  intros now w.
  destruct (@count_increments_through_the_gates hypot_naive acos_steps poseTop
              jointsTop baseline100 now w (Frame (Poses (Some poseTop)) now))
    as [Hframe _].
  split.
  - apply Hframe; vm_compute; reflexivity.
  - vm_compute. reflexivity.
Defined.

(** A second frame at the bottom of a push-up, half a second after the
    descent: the machine stays in [Down] and keeps [lastDownTime]. *)
Lemma down_is_not_retriggered_witness :
  let now := int 11500 in
  let w := session Down 0 (int 0) (int 11000) in
  exists w',
    evaluateForPushUp hypot_naive acos_steps poseBottom now w = Ok w'
    /\ lastPosition w' = Down
    /\ lastDownTime w' = lastDownTime w
    /\ pushCount w' = pushCount w
    /\ lastRepTime w' = lastRepTime w
    /\ feedbackText w' = FbDescentDetected.
Proof.
  intros now w.
  destruct (@down_is_not_retriggered hypot_naive acos_steps poseBottom
              jointsBottom baseline100 now w ClickResetCount) as [Hframe _].
  apply Hframe; vm_compute; reflexivity.
Defined.

(** The first frame at the bottom of a push-up takes the machine from
    [Up] to [Down] and stamps the descent; the next frame at the top, a
    second later, counts it. *)
Example one_repetition_on_poses :
  let w0 := session Up 0 (int 0) zero in
  let w1 := step hypot_naive acos_steps (Frame (Poses (Some poseBottom)) (int 11000)) w0 in
  let w2 := step hypot_naive acos_steps (Frame (Poses (Some poseTop)) (int 12000)) w1 in
  lastPosition w1 = Down /\ lastDownTime w1 = int 11000 /\ pushCount w1 = 0%N
  /\ lastPosition w2 = Up /\ lastRepTime w2 = int 12000 /\ pushCount w2 = 1%N
  /\ feedbackText w2 = FbValidRep 1.
Proof.
  vm_compute. repeat split.
Qed.

(* ===================================================================== *)
(** * The angle at a joint *)
(* ===================================================================== *)

Lemma int_1_eq : int 1 = S754_finite false 4503599627370496 (-52).
Proof. vm_compute. reflexivity. Qed.

Lemma int_m1_eq : int (-1) = S754_finite true 4503599627370496 (-52).
Proof. vm_compute. reflexivity. Qed.

(** A comparison fails on NaN only. *)
Lemma SFcompare_None (a b : number) :
  SFcompare a b = None -> a = NaN \/ b = NaN.
Proof.
  destruct a as [sa|sa| |sa ma ea], b as [sb|sb| |sb mb eb]; cbn [SFcompare];
    try discriminate; auto.
Qed.

(** The clamp of line 185 lets NaN through and puts every other
    quotient between -1 and 1. *)
Lemma clamp_range (q : number) :
  let cos := Math_max (int (-1)) (Math_min (int 1) q) in
  (q = NaN /\ cos = NaN)
  \/ (q <> NaN /\ (cos >=? int (-1)) = true /\ (int 1 >=? cos) = true).
Proof.
  assert (Hone : (int 1 >=? int (-1)) = true /\ (int 1 >=? int 1) = true
                 /\ (int (-1) >=? int (-1)) = true)
    by (vm_compute; auto).
  destruct Hone as (H1 & H2 & H3).
  assert (Hmax1 : Math_max (int (-1)) (int 1) = int 1) by (vm_compute; reflexivity).
  cbn zeta. unfold Math_min.
  destruct (SFcompare (int 1) q) as [[| |]|] eqn:E1.
  - right. rewrite int_1_eq at 1. cbn iota. rewrite Hmax1.
    split; [intros -> ; rewrite int_1_eq in E1; discriminate E1 | auto].
  - right. rewrite Hmax1.
    split; [intros -> ; rewrite int_1_eq in E1; discriminate E1 | auto].
  - assert (Hq : q <> NaN)
      by (intros -> ; rewrite int_1_eq in E1; discriminate E1).
    assert (Hq1 : (int 1 >=? q) = true).
    { unfold jge, SFleb. rewrite (SFcompare_swap (int 1) q), E1. reflexivity. }
    right. split; [exact Hq |].
    unfold Math_max.
    destruct (SFcompare (int (-1)) q) as [[| |]|] eqn:E2.
    + rewrite int_m1_eq at 1. cbn iota. auto.
    + split; [| exact Hq1]. unfold jge, SFleb. now rewrite E2.
    + auto.
    + apply SFcompare_None in E2 as [E2 | E2]; [| contradiction].
      rewrite int_m1_eq in E2. discriminate E2.
  - left. apply SFcompare_None in E1 as [E1 | ->].
    + rewrite int_1_eq in E1. discriminate E1.
    + split; reflexivity.
Qed.

(** [angleDeg] on a NaN coordinate: every magnitude is NaN, no ray has
    length zero, and the result is NaN. *)
Lemma angleDeg_of_lostPoint (hypot : number -> number -> number)
    (acos : number -> number) :
  hypot_conforms hypot -> acos NaN = NaN ->
  angleDeg hypot acos lostPoint origin lostPoint = NaN.
Proof.
  intros [_ Hnan] Hacos. unfold angleDeg.
  assert (E : hypot (x lostPoint - x origin) (y lostPoint - y origin) = NaN)
    by (apply Hnan; reflexivity).
  rewrite E.
  change (NaN === int 0) with false. cbn [orb].
  match goal with |- context [acos ?c] =>
    assert (Ec : c = NaN) by (vm_compute; reflexivity); rewrite Ec end.
  rewrite Hacos. reflexivity.
Qed.

(** [angleDeg] on two coincident rays of length [2^-600]: the dot product
    and the product of the magnitudes underflow to 0, and [0 / 0] is
    NaN. *)
Lemma angleDeg_of_nearPoint (hypot : number -> number -> number)
    (acos : number -> number) :
  hypot tiny zero = tiny -> acos NaN = NaN ->
  angleDeg hypot acos nearPoint origin nearPoint = NaN.
Proof.
  intros Hh Hacos. unfold angleDeg.
  assert (Ex : x nearPoint - x origin = tiny) by (vm_compute; reflexivity).
  assert (Ey : y nearPoint - y origin = zero) by (vm_compute; reflexivity).
  rewrite Ex, Ey, Hh.
  change (tiny === int 0) with false. cbn [orb].
  match goal with |- context [acos ?c] =>
    assert (Ec : c = NaN) by (vm_compute; reflexivity); rewrite Ec end.
  rewrite Hacos. reflexivity.
Qed.

Lemma jadd_NaN_r (a : number) : a + NaN = NaN.
Proof. destruct a as [[|]|[|]| |s m e]; reflexivity. Qed.

(** The stand-ins have what ECMAScript fixes. *)
Lemma hypot_naive_conforms : hypot_conforms hypot_naive.
Proof.
  split.
  - intros a b Ha Hb. destruct a as [sa| | |]; try discriminate Ha.
    destruct b as [sb| | |]; try discriminate Hb.
    destruct sa, sb; reflexivity.
  - intros a b Hn Hi.
    destruct a as [sa|sa| |sa ma ea]; try discriminate Hi;
      destruct b as [sb|sb| |sb mb eb]; try discriminate Hi; try discriminate Hn;
      unfold hypot_naive; rewrite ?jadd_NaN_r; reflexivity.
Qed.

Lemma acos_steps_conforms : acos_conforms acos_steps.
Proof.
  split; [reflexivity |].
  intros c H1 H2. unfold acos_steps. rewrite H1, H2. cbn [andb].
  destruct (c === int 1); [vm_compute; auto |].
  destruct (c === int (-1)); vm_compute; auto.
Qed.

(** C5, amended: for all inputs [a], [b], [c], [angleDeg] returns exactly
    180 when either ray [b -> a] or [b -> c] has length zero (more
    generally when either magnitude is 0); otherwise, when the quotient
    [dot / (mag1 * mag2)] is a number, it is clamped to [-1, 1] and the
    result is a value in [0, 180]; and when the quotient is NaN, which the
    clamp lets through, the result is NaN.  [Math.hypot] and [Math.acos]
    are any functions with what ECMAScript fixes of them. *)
Theorem angleDeg_is_180_or_in_range :
  forall (hypot : number -> number -> number) (acos : number -> number)
         (a b c : Keypoint),
    hypot_conforms hypot -> acos_conforms acos ->
    let angle := angleDeg hypot acos a b c in
    let mag1 := hypot (x a - x b) (y a - y b) in
    let mag2 := hypot (x c - x b) (y c - y b) in
    (zeroRay a b || zeroRay c b = true -> angle = int 180)
    /\ ((mag1 === int 0) || (mag2 === int 0) = true -> angle = int 180)
    /\ ((mag1 === int 0) || (mag2 === int 0) = false ->
        (cosineOf hypot a b c = NaN /\ angle = NaN)
        \/ (cosineOf hypot a b c <> NaN
            /\ (angle >=? int 0) = true /\ (int 180 >=? angle) = true)).
Proof.
  intros hypot acos a b c [Hzero _] [Hnan Hrange] angle mag1 mag2.
  assert (Hmag : (mag1 === int 0) || (mag2 === int 0) = true -> angle = int 180).
  { intros H. subst angle mag1 mag2. unfold angleDeg. now rewrite H. }
  split; [| split; [exact Hmag |]].
  - intros H. apply Hmag. apply orb_true_iff in H as [H | H];
      unfold zeroRay in H; apply andb_true_iff in H as [Hx Hy].
    + subst mag1. rewrite (Hzero _ _ Hx Hy). reflexivity.
    + subst mag2. rewrite (Hzero _ _ Hx Hy). apply orb_true_r.
  - intros H. subst angle mag1 mag2. unfold angleDeg. rewrite H.
    fold (cosineOf hypot a b c).
    destruct (clamp_range (cosineOf hypot a b c)) as [[Eq Ec] | (Hq & Hlo & Hhi)].
    + left. split; [exact Eq |]. cbn zeta in Ec. rewrite Ec, Hnan. reflexivity.
    + right. split; [exact Hq |]. cbn zeta in Hlo, Hhi.
      destruct (Hrange _ Hlo Hhi) as (Hv & H0 & Hpi).
      rewrite int_0. apply (toDegrees_range _ Hv H0 Hpi).
Qed.

(** The angle of a folded arm with the stand-ins: the two rays coincide,
    the cosine is 1 and the angle 0. *)
Lemma angleDeg_is_180_or_in_range_witness :
  let a := leftShoulder jointsBottom in
  let b := leftElbow jointsBottom in
  let c := leftWrist jointsBottom in
  let angle := angleDeg hypot_naive acos_steps a b c in
  let mag1 := hypot_naive (x a - x b) (y a - y b) in
  let mag2 := hypot_naive (x c - x b) (y c - y b) in
  (zeroRay a b || zeroRay c b = true -> angle = int 180)
  /\ ((mag1 === int 0) || (mag2 === int 0) = true -> angle = int 180)
  /\ ((mag1 === int 0) || (mag2 === int 0) = false ->
      (cosineOf hypot_naive a b c = NaN /\ angle = NaN)
      \/ (cosineOf hypot_naive a b c <> NaN
          /\ (angle >=? int 0) = true /\ (int 180 >=? angle) = true)).
Proof.
  apply (@angleDeg_is_180_or_in_range hypot_naive acos_steps
           (leftShoulder jointsBottom) (leftElbow jointsBottom)
           (leftWrist jointsBottom) hypot_naive_conforms acos_steps_conforms).
Defined.

(** The values of the example angles. *)
Example angles_of_the_examples :
  angleDeg hypot_naive acos_steps (leftShoulder jointsBottom)
    (leftElbow jointsBottom) (leftWrist jointsBottom) = int 0
  /\ angleDeg hypot_naive acos_steps (leftShoulder jointsTop)
       (leftElbow jointsTop) (leftWrist jointsTop) = int 180
  /\ zeroRay (leftWrist jointsTop) (leftElbow jointsTop) = true.
Proof.
  vm_compute. repeat split.
Qed.

(** A NaN coordinate, or two coincident rays of length [2^-600], make
    [angleDeg] return NaN although no ray has length zero: NaN is not a
    value in [0, 180].  This holds for every [Math.hypot] and [Math.acos]
    with what ECMAScript fixes of them (for the short rays, a [Math.hypot]
    that is exact on one non-zero argument), and the stand-ins are such
    functions. *)
Lemma angleDeg_can_be_NaN :
  zeroRay lostPoint origin = false
  /\ (forall hypot acos, hypot_conforms hypot -> acos_conforms acos ->
        angleDeg hypot acos lostPoint origin lostPoint = NaN)
  /\ zeroRay nearPoint origin = false
  /\ (forall hypot acos, hypot tiny zero = tiny -> acos_conforms acos ->
        angleDeg hypot acos nearPoint origin nearPoint = NaN)
  /\ hypot_conforms hypot_naive /\ acos_conforms acos_steps
  /\ angleDeg hypot_naive acos_steps lostPoint origin lostPoint = NaN
  /\ (NaN >=? int 0) = false /\ (int 180 >=? NaN) = false.
Proof.
  split; [reflexivity |].
  split; [intros hypot acos Hh [Ha _]; now apply angleDeg_of_lostPoint |].
  split; [reflexivity |].
  split; [intros hypot acos Hh [Ha _]; now apply angleDeg_of_nearPoint |].
  split; [exact hypot_naive_conforms |].
  split; [exact acos_steps_conforms |].
  split; [| split; reflexivity].
  apply angleDeg_of_lostPoint; [exact hypot_naive_conforms | reflexivity].
Qed.

(* ===================================================================== *)
(** * What every state of the page satisfies *)
(* ===================================================================== *)

Lemma increment_le (n : N) : (n <= MAX_EXACT)%N -> (increment n <= MAX_EXACT)%N.
Proof.
  intros H. unfold increment.
  destruct (n <? MAX_EXACT)%N eqn:E; [apply N.ltb_lt in E; lia | exact H].
Qed.

(** The cases of a state in which detection runs only with a baseline. *)
Lemma running_baseline_cases (w : World) :
  (running w = true -> baseline w <> None /\ detector w = true) ->
  (running w = true /\ detector w = true /\ exists b, baseline w = Some b)
  \/ running w = false.
Proof.
  intros H. destruct (running w); [left | now right].
  destruct (H eq_refl) as [Hb Hd].
  destruct (baseline w) as [b|]; [eauto | now elim Hb].
Qed.

Ltac unfold_page :=
  unfold consistent, updateUI;
  cbn [running stream detector baseline lastPosition pushCount screen
       feedbackText liveCounter statusDetection startDetectActive
       statusPosture lastRepTime lastDownTime
       set_stream set_running set_detector set_baseline
       set_lastDownTime set_lastPosition set_feedbackText
       set_pushCount set_lastRepTime set_screen].

Ltac close_page :=
  repeat split; intros; auto; try discriminate; try congruence; try lia;
  try tauto.

(** The state machine keeps the state consistent, whether detection
    runs or not. *)
Lemma repetitionUpdate_consistent (d u : bool) (now : number) (w : World) :
  consistent w -> consistent (repetitionUpdate d u now w).
Proof.
  intros (H1 & H2 & H3 & H4 & H5 & H6 & H7).
  assert (Hi := increment_le H7).
  unfold repetitionUpdate.
  destruct (running_baseline_cases w H1) as [(Hr & Hd & b & Hb) | Hr];
    destruct d, u, (lastPosition w);
    cbn [lastPosition set_lastDownTime set_lastPosition set_feedbackText
         lastDownTime lastRepTime negb andb];
    repeat match goal with
      | |- context [if ?c then _ else _] => destruct c
      end;
    unfold_page; rewrite ?Hr, ?Hb, ?Hd in *;
    try (destruct (baseline w));
    close_page.
Qed.

Lemma stopDetection_consistent (w : World) :
  consistent w -> consistent (stopDetection w).
Proof.
  intros (H1 & H2 & H3 & H4 & H5 & H6 & H7).
  unfold stopDetection. unfold_page. close_page.
Qed.

Lemma beginCountdown_consistent (w : World) :
  consistent w -> consistent (beginCountdown w).
Proof.
  intros (H1 & H2 & H3 & H4 & H5 & H6 & H7).
  unfold beginCountdown. unfold_page. destruct (baseline w); close_page.
Qed.

Lemma endCountdown_consistent (estimatePoses : nat -> Estimate) (w : World) :
  consistent w -> consistent (endCountdown estimatePoses w).
Proof.
  intros H. unfold endCountdown.
  destruct (detector w) eqn:Hd; [| exact H].
  destruct (calibrateBaseline estimatePoses w) as [[ok w']|] eqn:Hc;
    [| exact H].
  destruct H as (H1 & H2 & H3 & H4 & H5 & H6 & H7).
  apply calibrateBaseline_world in Hc as [[-> ->] | [-> [b ->]]];
    unfold_page; rewrite ?Hd; close_page.
Qed.

Section Invariant.

Variable Math_hypot : number -> number -> number.
Variable Math_acos : number -> number.

Lemma frameTail_consistent (est : Estimate) (now : number) (w : World) :
  consistent w -> consistent (frameTail Math_hypot Math_acos est now w).
Proof.
  intros H. unfold frameTail.
  destruct est as [|[pose|]]; try exact H.
  destruct (drawPose pose); [| exact H].
  destruct (baseline w) as [b|] eqn:Hb; [| exact H].
  destruct (getJoints pose) as [j|] eqn:Hj.
  - destruct (shouldersUnusable j) eqn:Hs.
    + unfold evaluateForPushUp. rewrite Hj. cbn [bind]. now rewrite Hs.
    + rewrite (evaluateForPushUp_usable Math_hypot Math_acos pose now w Hj Hs Hb).
      now apply repetitionUpdate_consistent.
  - unfold evaluateForPushUp. now rewrite Hj.
Qed.

(** Every stretch keeps the state consistent. *)
Lemma turn_consistent (t : Turn) (w : World) :
  consistent w -> consistent (turn Math_hypot Math_acos t w).
Proof.
  intros H. destruct t; cbn [turn].
  - destruct H as (H1 & H2 & H3 & H4 & H5 & H6 & H7).
    unfold cameraGranted. unfold_page. close_page.
  - destruct H as (H1 & H2 & H3 & H4 & H5 & H6 & H7).
    unfold cameraError. unfold_page. close_page.
  - destruct H as (H1 & H2 & H3 & H4 & H5 & H6 & H7).
    unfold cameraPlaying.
    destruct (running_baseline_cases w H1) as [(Hr & Hd & b & Hb) | Hr];
      unfold_page; rewrite ?Hr, ?Hb, ?Hd in *;
      try (destruct (baseline w)); close_page.
  - unfold stopCamera.
    destruct (stopDetection_consistent H) as (H1 & H2 & H3 & H4 & H5 & H6 & H7).
    assert (Hr : running (stopDetection w) = false) by reflexivity.
    assert (Hb : baseline (stopDetection w) = None) by reflexivity.
    unfold_page. rewrite ?Hr, ?Hb in *. close_page.
  - unfold detectClick.
    destruct (stream w); cbn [negb].
    + destruct (running w) eqn:Hr; [now apply stopDetection_consistent |].
      destruct (detector w); [now apply beginCountdown_consistent |].
      destruct H as (H1 & H2 & H3 & H4 & H5 & H6 & H7).
      unfold_page. rewrite ?Hr in *. close_page.
    + destruct H as (H1 & H2 & H3 & H4 & H5 & H6 & H7).
      unfold_page. close_page.
  - destruct H as (H1 & H2 & H3 & H4 & H5 & H6 & H7).
    unfold modelLoaded. unfold_page. close_page.
  - now apply beginCountdown_consistent.
  - now apply endCountdown_consistent.
  - destruct H as (H1 & H2 & H3 & H4 & H5 & H6 & H7).
    unfold resetCount.
    destruct (running_baseline_cases w H1) as [(Hr & Hd & b & Hb) | Hr];
      unfold_page; rewrite ?Hr, ?Hb, ?Hd in *;
      try (destruct (baseline w)); close_page; try (apply N.le_0_l).
  - now apply frameTail_consistent.
Qed.

(** A handler run from the click to its end is the run of its
    stretches. *)
Lemma step_turns (op : Op) (w : World) :
  step Math_hypot Math_acos op w
  = turns Math_hypot Math_acos (turnsOf op w) w.
Proof.
  unfold turns. destruct op as [outcome| |load estimatePoses| |est now];
    cbn [step turnsOf].
  - destruct outcome; reflexivity.
  - reflexivity.
  - unfold startOrStopDetection.
    destruct (stream w) eqn:Hs; cbn [negb orb].
    + destruct (running w) eqn:Hr.
      * cbn [fold_left turn]. unfold detectClick. now rewrite Hs, Hr.
      * destruct (detector w) eqn:Hd.
        -- cbn [fold_left turn]. unfold detectClick. rewrite Hs, Hr, Hd.
           cbn [negb]. unfold endCountdown, beginCountdown.
           cbn [detector set_feedbackText updateUI set_screen set_running].
           rewrite Hd. reflexivity.
        -- destruct load; cbn [fold_left turn]; unfold detectClick;
             rewrite Hs, Hr, Hd; cbn [negb]; [reflexivity |].
           unfold endCountdown, beginCountdown, modelLoaded.
           cbn [detector set_feedbackText updateUI set_screen set_running
                set_detector].
           reflexivity.
    + cbn [fold_left turn]. unfold detectClick. now rewrite Hs.
  - reflexivity.
  - unfold runDetectionLoop. destruct (running w); reflexivity.
Qed.

Lemma turns_reachable (ts : list Turn) :
  forall w : World,
    reachable Math_hypot Math_acos w ->
    reachable Math_hypot Math_acos (turns Math_hypot Math_acos ts w).
Proof.
  unfold turns. induction ts as [|t ts IH]; intros w H; [exact H |].
  cbn [fold_left]. apply IH. now apply reachable_turn.
Qed.

(** The states that whole handlers, one after the other, make of the
    page are reachable. *)
Lemma run_reachable (ops : list Op) :
  forall w : World,
    reachable Math_hypot Math_acos w ->
    reachable Math_hypot Math_acos (run Math_hypot Math_acos ops w).
Proof.
  unfold run. induction ops as [|op ops IH]; intros w H; [exact H |].
  cbn [fold_left]. apply IH. rewrite step_turns. now apply turns_reachable.
Qed.

(** X1: between two synchronous stretches of its code, whatever the
    clicks, whatever the camera, the model and the pose source answer,
    and however the handlers overlap at their [await]s, the page is
    consistent: detection runs only with a baseline and a loaded model;
    the counter, the detection mark and the button on screen show the
    count and the running flag; the posture mark is the tick when
    detection runs and the dash when it does not, never the dots; a text
    of a valid repetition on screen carries the current count; and the
    count is at most [2^53]. *)
Theorem reachable_consistent :
  forall w : World, reachable Math_hypot Math_acos w -> consistent w.
Proof.
  intros w H. induction H as [|t w H IH].
  - unfold consistent, initialWorld. unfold_page.
    repeat split; intros; try discriminate; auto; try contradiction.
  - now apply turn_consistent.
Qed.

End Invariant.

(* ===================================================================== *)
(** * Runs of frames and operations *)
(* ===================================================================== *)

Section Runs.

Variable Math_hypot : number -> number -> number.
Variable Math_acos : number -> number.

Abbreviation frame := (runDetectionLoop Math_hypot Math_acos).
Abbreviation stepOf := (step Math_hypot Math_acos).
Abbreviation runOf := (run Math_hypot Math_acos).
Abbreviation runFramesOf := (runFrames Math_hypot Math_acos).
Abbreviation elbowAvgOf2 := (elbowAvgOf Math_hypot Math_acos).

Lemma run_framesOf (frames : list (Estimate * number)) (w : World) :
  runOf (framesOf frames) w = runFramesOf frames w.
Proof.
  unfold run, runFrames, framesOf. revert w.
  induction frames as [|f rest IH]; intros w; cbn; [reflexivity | apply IH].
Qed.

(** A frame without a pose, or while detection does not run, changes
    nothing. *)
Lemma frame_idle (est : Estimate) (now : number) (w : World) :
  running w = false \/ noPose (est, now) = true -> frame est now w = w.
Proof.
  unfold runDetectionLoop, noPose. cbn [fst].
  intros [H | H]; [now rewrite H |].
  destruct (running w); cbn [negb]; [| reflexivity].
  destruct est as [|[p|]]; [reflexivity | discriminate H | reflexivity].
Qed.

Lemma runFrames_idle (frames : list (Estimate * number)) (w : World) :
  running w = false \/ forallb noPose frames = true ->
  runFramesOf frames w = w.
Proof.
  intros H. unfold runFrames.
  induction frames as [|[est now] rest IH]; [reflexivity |].
  cbn [fold_left fst snd].
  assert (Hf : frame est now w = w).
  { apply frame_idle. destruct H as [H | H]; [now left | right].
    cbn [forallb] in H. now apply andb_true_iff in H as [H _]. }
  rewrite Hf. apply IH.
  destruct H as [H | H]; [now left | right].
  cbn [forallb] in H. now apply andb_true_iff in H as [_ H].
Qed.

(** X2: the detection loop idles: as long as detection does not run, or
    the pose source gives no pose (an empty list or a rejected promise),
    the frames of the loop, however many, leave the whole page as it
    was. *)
Theorem frames_idle :
  forall (frames : list (Estimate * number)) (w : World),
    running w = false \/ forallb noPose frames = true ->
    runFramesOf frames w = w /\ runOf (framesOf frames) w = w.
Proof.
  intros frames w H.
  assert (E : runFramesOf frames w = w) by now apply runFrames_idle.
  split; [exact E | now rewrite run_framesOf].
Qed.

(** X3: the detection button pressed while detection runs stops it: the
    running flag is cleared, the baseline discarded and the position put
    back to [Up], while the count, [lastRepTime], [lastDownTime] and the
    camera stay as they were; and no frame that comes after changes
    anything. *)
Theorem stop_is_effective :
  forall (load : ModelOutcome) (estimatePoses : nat -> Estimate)
         (frames : list (Estimate * number)) (w : World),
    stream w = true -> running w = true ->
    let w' := stepOf (ClickStartDetect load estimatePoses) w in
    w' = stopDetection w
    /\ running w' = false /\ baseline w' = None /\ lastPosition w' = Up
    /\ pushCount w' = pushCount w /\ lastRepTime w' = lastRepTime w
    /\ lastDownTime w' = lastDownTime w /\ stream w' = true
    /\ feedbackText w' = FbStopped
    /\ runFramesOf frames w' = w'.
Proof.
  intros load estimatePoses frames w Hs Hr w'.
  assert (E : w' = stopDetection w).
  { subst w'. cbn [step]. unfold startOrStopDetection. now rewrite Hs, Hr. }
  rewrite E. repeat split; try reflexivity; try assumption.
  apply runFrames_idle. now left.
Qed.

(** What one operation does to the count and the position. *)
Lemma step_count_cases (op : Op) (w : World) :
  (pushCount (stepOf op w) <= pushCount w)%N
  \/ (lastPosition w = Down /\ lastPosition (stepOf op w) = Up
      /\ pushCount (stepOf op w) = (pushCount w + 1)%N).
Proof.
  destruct op as [outcome| |load estimatePoses| |est now]; cbn [step].
  - left. destruct outcome; cbn; lia.
  - left. cbn. lia.
  - left. destruct (startOrStopDetection_session load estimatePoses w) as [-> _]. lia.
  - left. cbn. lia.
  - destruct (@runDetectionLoop_cases Math_hypot Math_acos est now w)
      as [-> | (pose & j & b & -> & Hj & Hu & Hb & ->)]; [left; lia |].
    set (d := downDetectedOf (elbowAvgOf2 j) (shoulderDropOf j b) (wristsUnderOf j) b).
    set (u := upDetectedOf (elbowAvgOf2 j) (shoulderDropOf j b) b).
    assert (Hx : d && u = false) by apply predicates_exclusive.
    destruct (repetitionUpdate_count d u now w Hx)
      as [-> | (Hp & Hu' & Hh & Hi & Hc)]; [left; lia |].
    rewrite Hu' in *. rewrite andb_true_r in Hx. rewrite Hx in *.
    destruct (repetitionUpdate_rising now w Hp) as [Hopen _].
    rewrite Hh, Hi in Hopen. destruct (Hopen eq_refl) as (_ & Hq & _).
    rewrite Hc. destruct (increment_cases (pushCount w)) as [-> | ->];
      [left; lia | right; auto].
Qed.

Lemma run_count_bound (ops : list Op) :
  forall w : World,
    (pushCount (runOf ops w)
     <= pushCount w
        + N.of_nat ((length ops
                     + match lastPosition w with Down => 1 | Up => 0 end) / 2))%N.
Proof.
  unfold run. induction ops as [|op rest IH]; intros w.
  - cbn [fold_left length]. destruct (lastPosition w); cbn; lia.
  - cbn [fold_left length]. specialize (IH (stepOf op w)).
    destruct (step_count_cases op w) as [Hle | (Hp & Hq & Hc)].
    + assert (Hn : ((length rest
                     + match lastPosition (stepOf op w) with Down => 1 | Up => 0 end) / 2
                    <= (S (length rest)
                        + match lastPosition w with Down => 1 | Up => 0 end) / 2)%nat).
      { apply Nat.Div0.div_le_mono.
        destruct (lastPosition (stepOf op w)), (lastPosition w); lia. }
      lia.
    + rewrite Hq in IH. rewrite Hp, Hc in *.
      replace ((S (length rest) + 1) / 2)%nat with (S ((length rest + 0) / 2))%nat.
      * lia.
      * rewrite Nat.add_0_r.
        replace (S (length rest) + 1)%nat with (length rest + 1 * 2)%nat by lia.
        rewrite Nat.div_add by lia. lia.
Qed.

(** X4: no two operations in a row count a repetition each: an operation
    that counts leaves the machine in [Up], and only a frame that starts
    in [Down] counts.  So [n] operations count at most [n / 2]
    repetitions from [Up], and at most [(n + 1) / 2] from [Down]. *)
Theorem count_at_most_every_other :
  forall (op1 op2 : Op) (ops : list Op) (w : World),
    ((pushCount w < pushCount (stepOf op1 w))%N ->
     (pushCount (stepOf op2 (stepOf op1 w)) <= pushCount (stepOf op1 w))%N)
    /\ (pushCount (runOf ops w)
        <= pushCount w
           + N.of_nat ((length ops
                        + match lastPosition w with Down => 1 | Up => 0 end) / 2))%N.
Proof.
  intros op1 op2 ops w. split; [| apply run_count_bound].
  intros H1.
  destruct (step_count_cases op1 w) as [Hle | (_ & Hq & _)]; [lia |].
  destruct (step_count_cases op2 (stepOf op1 w)) as [Hle | (Hp & _)];
    [exact Hle | congruence].
Qed.


(** What one frame does to the count and to [lastRepTime]: a frame that
    rises passed the two gates, counts and stamps the repetition; any
    other frame keeps both. *)
Lemma frame_rise_cases (est : Estimate) (now : number) (w : World) :
  (rises Math_hypot Math_acos est now w = true
   /\ (now - lastRepTime w >=? MIN_REP_INTERVAL_MS) = true
   /\ (now - lastDownTime w >=? MIN_DOWN_HOLD_MS) = true
   /\ lastRepTime (frame est now w) = now
   /\ pushCount (frame est now w) = increment (pushCount w))
  \/ (rises Math_hypot Math_acos est now w = false
      /\ lastRepTime (frame est now w) = lastRepTime w
      /\ pushCount (frame est now w) = pushCount w).
Proof.
  unfold rises.
  destruct (@runDetectionLoop_cases Math_hypot Math_acos est now w)
    as [-> | (pose & j & b & -> & Hj & Hu & Hb & ->)].
  - right. destruct (lastPosition w); auto.
  - set (d := downDetectedOf (elbowAvgOf2 j) (shoulderDropOf j b) (wristsUnderOf j) b).
    set (u := upDetectedOf (elbowAvgOf2 j) (shoulderDropOf j b) b).
    assert (Hx : d && u = false) by apply predicates_exclusive.
    destruct u.
    + rewrite andb_true_r in Hx. rewrite Hx.
      destruct (lastPosition w) eqn:Hp.
      * right. unfold repetitionUpdate. rewrite Hp. cbn. auto.
      * destruct (repetitionUpdate_rising now w Hp) as [Hopen Hclosed].
        unfold holdGate, intervalGate, held, sinceLastRep in Hopen, Hclosed.
        unfold MIN_REP_INTERVAL_MS, MIN_DOWN_HOLD_MS.
        destruct ((now - lastDownTime w >=? int 250)
                  && (now - lastRepTime w >=? int 800)) eqn:Hg.
        -- left. destruct (Hopen eq_refl) as (Hc & Hq & Hr & _).
           apply andb_true_iff in Hg as [Hh Hi]. rewrite Hq. auto.
        -- right. destruct (Hclosed eq_refl) as (Hc & Hq & Hr & _).
           rewrite Hq. auto.
    + right. unfold repetitionUpdate.
      destruct d, (lastPosition w) eqn:Hp; cbn; rewrite ?Hp; cbn;
        rewrite ?Hp; auto.
Qed.

Lemma last_default {A : Type} (l : list A) :
  forall a d1 d2 : A, last (a :: l) d1 = last (a :: l) d2.
Proof.
  induction l as [|b l IH]; intros a d1 d2; [reflexivity |].
  change (last (b :: l) d1 = last (b :: l) d2). apply IH.
Qed.

(** X5: over any list of frames, the repetitions that are counted are at
    least 800 ms apart by the clock readings of their frames, the first
    one at least 800 ms after [lastRepTime]; the count ends as the count
    at the start incremented once for each of them, and [lastRepTime] as
    the reading of the last one. *)
Theorem repetitions_are_spaced :
  forall (frames : list (Estimate * number)) (w : World),
    spaced (lastRepTime w) (repTimes Math_hypot Math_acos frames w)
    /\ pushCount (runFramesOf frames w)
       = Nat.iter (length (repTimes Math_hypot Math_acos frames w)) increment
                  (pushCount w)
    /\ lastRepTime (runFramesOf frames w)
       = last (repTimes Math_hypot Math_acos frames w) (lastRepTime w).
Proof.
  unfold runFrames.
  induction frames as [|[est now] rest IH]; intros w.
  - cbn. auto.
  - cbn [repTimes fold_left fst snd].
    destruct (IH (frame est now w)) as (Hs & Hc & Hl).
    destruct (frame_rise_cases est now w)
      as [(Hr & Hi & _ & Ht & Hn) | (Hr & Ht & Hn)]; rewrite Hr.
    + cbn [app length spaced]. rewrite Ht in Hs, Hl. rewrite Hn in Hc.
      split; [split; assumption |]. split.
      * rewrite Hc. apply Nat.iter_swap.
      * rewrite Hl.
        destruct (repTimes Math_hypot Math_acos rest (frame est now w))
          as [|t ts]; [reflexivity |].
        change (last (t :: ts) now = last (t :: ts) (lastRepTime w)).
        apply last_default.
    + cbn [app]. rewrite Ht in Hs, Hl. rewrite Hn in Hc. auto.
Qed.

(** X6: only the reset lowers the count: through operations none of which
    is the reset, the count never goes down. *)
Theorem count_is_monotone :
  forall (ops : list Op) (w : World),
    ~ In ClickResetCount ops ->
    (pushCount w <= pushCount (runOf ops w))%N.
Proof.
  unfold run. induction ops as [|op rest IH]; intros w H.
  - cbn. lia.
  - cbn [fold_left].
    assert (H1 : (pushCount w <= pushCount (stepOf op w))%N).
    { destruct op as [outcome| |load estimatePoses| |est now]; cbn [step].
      - destruct outcome; cbn; lia.
      - cbn. lia.
      - destruct (startOrStopDetection_session load estimatePoses w) as [-> _]. lia.
      - exfalso. apply H. now left.
      - destruct (frame_rise_cases est now w)
          as [(_ & _ & _ & _ & ->) | (_ & _ & ->)]; [| lia].
        destruct (increment_cases (pushCount w)) as [-> | ->]; lia. }
    assert (H2 : ~ In ClickResetCount rest) by (intros G; apply H; now right).
    specialize (IH (stepOf op w) H2). lia.
Qed.

End Runs.

(* ===================================================================== *)
(** * Left and right *)
(* ===================================================================== *)

(** Addition commutes, rounding included. *)
Lemma jadd_comm (a b : number) : a + b = b + a.
Proof.
  unfold jadd.
  destruct a as [sa|sa| |sa ma ea], b as [sb|sb| |sb mb eb]; cbn [SFadd];
    try reflexivity; try (destruct sa, sb; reflexivity).
  now rewrite Z.min_comm, Z.add_comm.
Qed.

(** The sign given to the rounding only signs the result. *)
Lemma SFabs_binary_round_aux (sx sy : bool) (m e : Z) (l : location) :
  SFabs (binary_round_aux prec emax sx m e l)
  = SFabs (binary_round_aux prec emax sy m e l).
Proof.
  unfold binary_round_aux.
  destruct (shr_fexp prec emax m e l) as [mrs e'].
  match goal with |- context [shr_fexp ?p ?q ?a ?b ?c] =>
    destruct (shr_fexp p q a b c) as [mrs' e''] end.
  destruct (shr_m mrs'); [reflexivity | | reflexivity].
  destruct (e'' <=? emax - prec)%Z; reflexivity.
Qed.

Lemma SFabs_binary_normalize (m e : Z) (s s' : bool) :
  SFabs (binary_normalize prec emax m e s)
  = SFabs (binary_normalize prec emax (- m) e s').
Proof.
  destruct m as [|p|p]; cbn [binary_normalize Z.opp]; [reflexivity | |];
    unfold binary_round;
    match goal with |- context [shl_align ?a ?b ?c] =>
      destruct (shl_align a b c) as [mz ez] end;
    apply SFabs_binary_round_aux.
Qed.

(** [Math.abs(a - b)] is [Math.abs(b - a)]. *)
Lemma Math_abs_jsub (a b : number) : Math_abs (a - b) = Math_abs (b - a).
Proof.
  unfold Math_abs, jsub.
  destruct a as [sa|sa| |sa ma ea], b as [sb|sb| |sb mb eb]; cbn [SFsub];
    try reflexivity; try (destruct sa, sb; reflexivity).
  rewrite (Z.min_comm eb ea).
  rewrite (SFabs_binary_normalize _ _ false false).
  now rewrite Z.opp_sub_distr, Z.add_comm, Z.add_opp_r.
Qed.

Lemma shouldersUnusable_mirror (j : Joints) :
  shouldersUnusable (mirror j) = shouldersUnusable j.
Proof. unfold shouldersUnusable, mirror. cbn. apply orb_comm. Qed.

Lemma wristsUnderOf_mirror (j : Joints) :
  wristsUnderOf (mirror j) = wristsUnderOf j.
Proof.
  unfold wristsUnderOf, mirror.
  cbn [leftShoulder rightShoulder leftWrist rightWrist].
  rewrite (Math_abs_jsub (x (rightShoulder j)) (x (leftShoulder j))).
  apply andb_comm.
Qed.

Lemma shoulderDropOf_mirror (j : Joints) (b : Baseline) :
  shoulderDropOf (mirror j) b = shoulderDropOf j b.
Proof.
  unfold shoulderDropOf, mirror. cbn [leftShoulder rightShoulder].
  now rewrite jadd_comm.
Qed.

Section Symmetry.

Variable Math_hypot : number -> number -> number.
Variable Math_acos : number -> number.

Abbreviation angleOf := (angleDeg Math_hypot Math_acos).

(** X7: the angle at [b] does not depend on the order of the two rays:
    [angleDeg(a, b, c)] and [angleDeg(c, b, a)] are the same number, NaN
    and rounding included, whatever [Math.hypot] and [Math.acos] are. *)
Theorem angleDeg_symmetric :
  forall a b c : Keypoint, angleOf a b c = angleOf c b a.
Proof.
  intros a b c. unfold angleDeg.
  rewrite (jmul_comm (x c - x b) (x a - x b)).
  rewrite (jmul_comm (y c - y b) (y a - y b)).
  rewrite (jmul_comm (Math_hypot (x c - x b) (y c - y b))
                     (Math_hypot (x a - x b) (y a - y b))).
  rewrite (orb_comm (Math_hypot (x c - x b) (y c - y b) === int 0)).
  reflexivity.
Qed.

Lemma elbowAvgOf_mirror (j : Joints) :
  elbowAvgOf Math_hypot Math_acos (mirror j) = elbowAvgOf Math_hypot Math_acos j.
Proof.
  unfold elbowAvgOf, mirror.
  cbn [leftShoulder rightShoulder leftElbow rightElbow leftWrist rightWrist].
  now rewrite jadd_comm.
Qed.

(** X8: the evaluation does not tell left from right.  Two poses whose
    six joints are each other's mirror image (left and right exchanged)
    have the same [elbowAvg], [wristsUnder] and [shoulderDrop], are
    skipped together, and make the same state out of any state, both in
    [evaluateForPushUp] and, when both can be drawn, in a frame of the
    detection loop. *)
Theorem evaluation_is_mirror_symmetric :
  forall (p q : Pose) (j : Joints) (now : number) (w : World),
    getJoints p = Ok j -> getJoints q = Ok (mirror j) ->
    (shouldersUnusable (mirror j) = shouldersUnusable j
     /\ elbowAvgOf Math_hypot Math_acos (mirror j) = elbowAvgOf Math_hypot Math_acos j
     /\ wristsUnderOf (mirror j) = wristsUnderOf j
     /\ forall b, shoulderDropOf (mirror j) b = shoulderDropOf j b)
    /\ evaluateForPushUp Math_hypot Math_acos q now w
       = evaluateForPushUp Math_hypot Math_acos p now w
    /\ (drawPose q = drawPose p ->
        runDetectionLoop Math_hypot Math_acos (Poses (Some q)) now w
        = runDetectionLoop Math_hypot Math_acos (Poses (Some p)) now w).
Proof.
  intros p q j now w Hp Hq.
  assert (E : evaluateForPushUp Math_hypot Math_acos q now w
              = evaluateForPushUp Math_hypot Math_acos p now w).
  { unfold evaluateForPushUp. rewrite Hp, Hq. cbn [bind].
    rewrite shouldersUnusable_mirror, elbowAvgOf_mirror, wristsUnderOf_mirror.
    destruct (baseline w) as [b|]; [| reflexivity].
    now rewrite shoulderDropOf_mirror. }
  split; [| split; [exact E |]].
  - repeat split.
    + apply shouldersUnusable_mirror.
    + apply elbowAvgOf_mirror.
    + apply wristsUnderOf_mirror.
    + intros b. apply shoulderDropOf_mirror.
  - intros Hd. unfold runDetectionLoop. now rewrite Hd, E.
Qed.

End Symmetry.

(** X9: the midpoint does not depend on the order of its two keypoints:
    [getMidpointY(pose, a, b)] and [getMidpointY(pose, b, a)] throw
    together, are [null] together, and otherwise are the same number. *)
Theorem getMidpointY_symmetric :
  forall (pose : Pose) (aIdx bIdx : nat),
    getMidpointY pose aIdx bIdx = getMidpointY pose bIdx aIdx.
Proof.
  intros pose aIdx bIdx. unfold getMidpointY.
  destruct (getKey pose aIdx) as [a|], (getKey pose bIdx) as [b|];
    cbn [bind]; try reflexivity.
  now rewrite orb_comm, jadd_comm.
Qed.

(* ===================================================================== *)
(** * Degenerate frames *)
(* ===================================================================== *)

Lemma dec_9_1 : dec 9 1 = S754_finite false 8106479329266893 (-53).
Proof. vm_compute. reflexivity. Qed.

(** Nothing is below a width that is not above 0. *)
Lemma not_below_narrow (u v : number) :
  (Math_abs v >? int 0) = false ->
  (Math_abs u <? Math_abs v * dec 9 1) = false.
Proof.
  rewrite dec_9_1, int_0. unfold Math_abs, jgt, jlt, jmul, SFltb.
  destruct v as [sv|sv| |sv mv ev]; cbn [SFabs SFmul SFcompare xorb];
    intros H; try discriminate H.
  - destruct u as [su|su| |su mu eu]; reflexivity.
  - destruct u as [su|su| |su mu eu]; reflexivity.
Qed.

(** X10: shoulders that are not apart never give a descent.  When the
    shoulder width of the frame is not above 0 (the two shoulders at the
    same [x], or an [x] that is NaN), [wristsUnder] is false whatever the
    wrists are, and so is [downDetected] whatever the angle and the
    drop. *)
Theorem narrow_shoulders_never_down :
  forall (j : Joints) (elbowAvg shoulderDrop : number) (b : Baseline),
    (currentShoulderWidth j >? int 0) = false ->
    wristsUnderOf j = false
    /\ downDetectedOf elbowAvg shoulderDrop (wristsUnderOf j) b = false.
Proof.
  intros j elbowAvg shoulderDrop b H.
  assert (E : wristsUnderOf j = false).
  { unfold wristsUnderOf. cbv zeta. unfold currentShoulderWidth in H.
    rewrite (not_below_narrow (x (leftWrist j) - x (leftShoulder j)) _ H).
    now rewrite andb_false_r. }
  split; [exact E |].
  unfold downDetectedOf. rewrite E. apply andb_false_r.
Qed.

Local Unset Implicit Arguments.

(** Neither predicate holds on a signal that is NaN. *)
Lemma predicates_of_NaN (e d : number) (wu : bool) (b : Baseline) :
  e = NaN \/ d = NaN \/ shoulderDropThreshold b = NaN ->
  downDetectedOf e d wu b = false /\ upDetectedOf e d b = false.
Proof.
  unfold downDetectedOf, upDetectedOf, jlt, jgt, jmul, NaN.
  intros [-> | [-> | ->]].
  - split; reflexivity.
  - split.
    + destruct (SFltb e _); [| reflexivity].
      destruct (SFmul prec emax (shoulderDropThreshold b) (dec 85 2));
        reflexivity.
    + now rewrite andb_false_r.
  - cbn [SFmul]. split.
    + destruct (SFltb e _); [| reflexivity].
      destruct d; reflexivity.
    + assert (E : SFltb d S754_nan = false) by (destruct d; reflexivity).
      rewrite E. apply andb_false_r.
Qed.

Section NotANumber.

Variable Math_hypot : number -> number -> number.
Variable Math_acos : number -> number.

(** X16: NaN never moves the machine.  On a frame with usable shoulders
    in which the angle of an elbow, the shoulder drop or the threshold
    of the baseline is NaN, neither a descent nor a rise is detected:
    the frame writes 'Ajusta postura: ...' and leaves the position, the
    count, the two timestamps and the screen as they were. *)
Theorem NaN_never_moves :
  forall (pose : Pose) (j : Joints) (b : Baseline) (now : number) (w : World),
    getJoints pose = Ok j -> shouldersUnusable j = false ->
    baseline w = Some b ->
    angleDeg Math_hypot Math_acos (leftShoulder j) (leftElbow j) (leftWrist j) = NaN
    \/ angleDeg Math_hypot Math_acos (rightShoulder j) (rightElbow j) (rightWrist j)
       = NaN
    \/ shoulderDropOf j b = NaN
    \/ shoulderDropThreshold b = NaN ->
    evaluateForPushUp Math_hypot Math_acos pose now w
    = Ok (set_feedbackText FbAdjustPosture w)
    /\ (running w = true -> drawPose pose = Ok tt ->
        runDetectionLoop Math_hypot Math_acos (Poses (Some pose)) now w
        = set_feedbackText FbAdjustPosture w).
Proof.
  intros pose j b now w Hj Hs Hb H.
  assert (S : elbowAvgOf Math_hypot Math_acos j = NaN
              \/ shoulderDropOf j b = NaN \/ shoulderDropThreshold b = NaN).
  { destruct H as [H | [H | H]]; [left | left | right; exact H];
      unfold elbowAvgOf; rewrite H.
    - reflexivity.
    - now rewrite jadd_NaN_r. }
  assert (E : evaluateForPushUp Math_hypot Math_acos pose now w
              = Ok (set_feedbackText FbAdjustPosture w)).
  { rewrite (evaluateForPushUp_usable Math_hypot Math_acos pose now w Hj Hs Hb).
    destruct (predicates_of_NaN (elbowAvgOf Math_hypot Math_acos j)
                (shoulderDropOf j b) (wristsUnderOf j) b S) as [-> ->].
    unfold repetitionUpdate. now destruct (lastPosition w). }
  split; [exact E |].
  intros Hr Hd. unfold runDetectionLoop. now rewrite Hr, Hd, Hb, E.
Qed.

End NotANumber.

(* ===================================================================== *)
(** * Poses with missing keypoints *)
(* ===================================================================== *)


Lemma getKey_Throw (pose : Pose) (idx : nat) :
  (length (keypoints pose) <= idx)%nat -> getKey pose idx = Throw.
Proof.
  intros H. unfold getKey. apply nth_error_None in H. now rewrite H.
Qed.

Lemma getKey_Ok (pose : Pose) (idx : nat) :
  (idx < length (keypoints pose))%nat -> exists k, getKey pose idx = Ok k.
Proof.
  intros H. unfold getKey.
  destruct (nth_error (keypoints pose) idx) as [k|] eqn:E; [eauto |].
  apply nth_error_None in E. lia.
Qed.

Lemma strokeLine_Ok (pose : Pose) (a b : nat) :
  (a < length (keypoints pose))%nat -> (b < length (keypoints pose))%nat ->
  strokeLine pose a b = Ok tt.
Proof.
  intros Ha Hb. unfold strokeLine.
  destruct (nth_error (keypoints pose) a) as [A|] eqn:EA;
    [| apply nth_error_None in EA; lia].
  destruct (nth_error (keypoints pose) b) as [B|] eqn:EB;
    [| apply nth_error_None in EB; lia].
  now destruct (_ <? _).
Qed.

Lemma getMidpointY_Ok (pose : Pose) (aIdx bIdx : nat) :
  (aIdx < length (keypoints pose))%nat -> (bIdx < length (keypoints pose))%nat ->
  exists m, getMidpointY pose aIdx bIdx = Ok m.
Proof.
  intros Ha Hb. unfold getMidpointY.
  destruct (getKey_Ok pose aIdx Ha) as [a ->].
  destruct (getKey_Ok pose bIdx Hb) as [b ->]. cbn [bind].
  destruct (_ || _); eauto.
Qed.

Lemma getJoints_Throw (pose : Pose) :
  (length (keypoints pose) < 11)%nat -> getJoints pose = Throw.
Proof.
  intros H. unfold getJoints.
  rewrite (getKey_Throw pose 10) by lia.
  destruct (getKey pose 5), (getKey pose 6), (getKey pose 7), (getKey pose 8),
    (getKey pose 9); reflexivity.
Qed.

Lemma sampleOf_Throw (pose : Pose) :
  (length (keypoints pose) < 13)%nat -> sampleOf pose = Throw.
Proof.
  intros H. unfold sampleOf.
  assert (E : getMidpointY pose 11 12 = Throw).
  { unfold getMidpointY. rewrite (getKey_Throw pose 12) by lia.
    now destruct (getKey pose 11). }
  rewrite E. now destruct (getMidpointY pose 5 6).
Qed.

Section Poses.

Variable Math_hypot : number -> number -> number.
Variable Math_acos : number -> number.

(** X11: a pose with fewer than 11 keypoints is no frame: reading its
    joints throws, so [evaluateForPushUp] throws in any state, the
    detection loop catches it, and the frame leaves the whole page as it
    was. *)
Theorem short_pose_is_no_frame :
  forall (pose : Pose) (now : number) (w : World),
    (length (keypoints pose) < 11)%nat ->
    evaluateForPushUp Math_hypot Math_acos pose now w = Throw
    /\ runDetectionLoop Math_hypot Math_acos (Poses (Some pose)) now w = w
    /\ step Math_hypot Math_acos (Frame (Poses (Some pose)) now) w = w.
Proof.
  intros pose now w H.
  assert (E : evaluateForPushUp Math_hypot Math_acos pose now w = Throw).
  { unfold evaluateForPushUp. now rewrite (getJoints_Throw pose H). }
  assert (F : runDetectionLoop Math_hypot Math_acos (Poses (Some pose)) now w = w).
  { unfold runDetectionLoop. rewrite E.
    destruct (running w), (drawPose pose), (baseline w); reflexivity. }
  auto.
Qed.

(** X12: a pose with at least 15 keypoints (MoveNet gives 17) throws
    nowhere: it can be drawn, its joints and its calibration sample can
    be read, and with a baseline [evaluateForPushUp] returns, so that
    the frame is the state machine's step or the skip of unusable
    shoulders. *)
Theorem complete_pose_never_throws :
  forall (pose : Pose) (now : number) (w : World),
    (15 <= length (keypoints pose))%nat ->
    drawPose pose = Ok tt
    /\ (exists j, getJoints pose = Ok j)
    /\ (exists s, sampleOf pose = Ok s)
    /\ (baseline w <> None ->
        exists w', evaluateForPushUp Math_hypot Math_acos pose now w = Ok w'
                   /\ (running w = true ->
                       runDetectionLoop Math_hypot Math_acos (Poses (Some pose)) now w
                       = w')).
Proof.
  intros pose now w H.
  assert (D : drawPose pose = Ok tt).
  { unfold drawPose. rewrite !strokeLine_Ok by lia. reflexivity. }
  assert (J : exists j, getJoints pose = Ok j).
  { unfold getJoints.
    destruct (getKey_Ok pose 5 ltac:(lia)) as [k5 ->].
    destruct (getKey_Ok pose 6 ltac:(lia)) as [k6 ->].
    destruct (getKey_Ok pose 7 ltac:(lia)) as [k7 ->].
    destruct (getKey_Ok pose 8 ltac:(lia)) as [k8 ->].
    destruct (getKey_Ok pose 9 ltac:(lia)) as [k9 ->].
    destruct (getKey_Ok pose 10 ltac:(lia)) as [k10 ->].
    cbn [bind]. eauto. }
  split; [exact D |]. split; [exact J |]. split.
  - unfold sampleOf, calibrationWidth.
    destruct (getMidpointY_Ok pose 5 6 ltac:(lia) ltac:(lia)) as [s ->].
    destruct (getMidpointY_Ok pose 11 12 ltac:(lia) ltac:(lia)) as [hip ->].
    destruct (getKey_Ok pose 5 ltac:(lia)) as [k5 ->].
    destruct (getKey_Ok pose 6 ltac:(lia)) as [k6 ->].
    cbn [bind]. destruct s, hip; try destruct (_ && _); eauto.
  - intros Hb. destruct J as [j Hj].
    destruct (baseline w) as [b|] eqn:Eb; [| now elim Hb].
    assert (E : exists w', evaluateForPushUp Math_hypot Math_acos pose now w = Ok w').
    { unfold evaluateForPushUp. rewrite Hj, Eb. cbn [bind].
      destruct (shouldersUnusable j); eauto. }
    destruct E as [w' E]. exists w'. split; [exact E |].
    intros Hr. unfold runDetectionLoop. now rewrite Hr, D, Eb, E.
Qed.

End Poses.

(* ===================================================================== *)
(** * A calibration that throws *)
(* ===================================================================== *)

Lemma collectSamples_Throw (estimatePoses : nat -> Estimate) :
  forall (n i : nat) (collected : list Sample),
    collectSamples estimatePoses i n collected = Throw
    <-> exists k, (i <= k < i + n)%nat /\ attemptCompletes estimatePoses k = false.
Proof.
  induction n as [|n IH]; intros i collected.
  - cbn. split; [discriminate | intros (k & Hk & _); lia].
  - cbn [collectSamples].
    assert (Hrest : forall c,
              collectSamples estimatePoses (S i) n c = Throw
              <-> exists k, (i <= k < i + S n)%nat /\ (k <> i)
                            /\ attemptCompletes estimatePoses k = false).
    { intros c. rewrite IH. split; intros (k & Hk & He).
      - exists k. repeat split; try lia. exact He.
      - destruct He as [Hne He]. exists k. split; [lia | exact He]. }
    assert (Hi : forall k, attemptCompletes estimatePoses i = true ->
                   (i <= k < i + S n)%nat ->
                   attemptCompletes estimatePoses k = false -> k <> i).
    { intros k Ht _ Hf ->. congruence. }
    unfold attemptCompletes at 1. unfold attemptCompletes in Hi.
    destruct (estimatePoses i) as [|[p|]] eqn:Ei.
    + split; [intros _ | reflexivity].
      exists i. split; [lia |]. unfold attemptCompletes. now rewrite Ei.
    + destruct (sampleOf p) as [s|] eqn:Es; cbn [bind].
      * rewrite Hrest. split; intros (k & Hk & He).
        -- exists k. split; [exact Hk | apply He].
        -- exists k. split; [exact Hk |]. split; [| exact He].
           apply Hi; auto.
      * split; [intros _ | reflexivity].
        exists i. split; [lia |]. unfold attemptCompletes. now rewrite Ei, Es.
    + rewrite Hrest. split; intros (k & Hk & He).
      * exists k. split; [exact Hk | apply He].
      * exists k. split; [exact Hk |]. split; [| exact He].
        apply Hi; auto.
Qed.

Lemma calibrateBaseline_Throw (estimatePoses : nat -> Estimate) (w : World) :
  calibrateBaseline estimatePoses w = Throw
  <-> exists i, (i < tries)%nat /\ attemptCompletes estimatePoses i = false.
Proof.
  unfold calibrateBaseline.
  destruct (collectSamples estimatePoses 0 tries []) as [collected|] eqn:E;
    cbn [bind].
  - split.
    + destruct collected; discriminate.
    + intros (i & Hi & Hf).
      assert (T : collectSamples estimatePoses 0 tries [] = Throw).
      { apply collectSamples_Throw. exists i. split; [lia | exact Hf]. }
      congruence.
  - split; [intros _ | reflexivity].
    apply collectSamples_Throw in E as (k & Hk & Hf).
    exists k. split; [lia | exact Hf].
Qed.

(** X13: the calibration throws exactly when one of its 6 attempts does
    not complete: the pose source rejects, or the pose lacks a keypoint
    the sample reads (fewer than 13 keypoints is enough).  The throw
    leaves [startCountdownAndRun] where the countdown left it: detection
    not running, the text 'Preparando...' on screen, and the baseline,
    the count and the camera as they were. *)
Theorem calibration_throws :
  forall (estimatePoses : nat -> Estimate) (w : World),
    (calibrateBaseline estimatePoses w = Throw
     <-> exists i, (i < tries)%nat /\ attemptCompletes estimatePoses i = false)
    /\ (forall i p, (i < tries)%nat -> estimatePoses i = Poses (Some p) ->
                    (length (keypoints p) < 13)%nat ->
                    calibrateBaseline estimatePoses w = Throw)
    /\ (calibrateBaseline estimatePoses w = Throw ->
        startCountdownAndRun estimatePoses w
        = set_feedbackText FbPreparing (updateUI (set_running false w))
        /\ running (startCountdownAndRun estimatePoses w) = false
        /\ feedbackText (startCountdownAndRun estimatePoses w) = FbPreparing
        /\ baseline (startCountdownAndRun estimatePoses w) = baseline w
        /\ pushCount (startCountdownAndRun estimatePoses w) = pushCount w
        /\ stream (startCountdownAndRun estimatePoses w) = stream w).
Proof.
  intros estimatePoses w.
  split; [apply calibrateBaseline_Throw |]. split.
  - intros i p Hi Ep Hl. apply calibrateBaseline_Throw.
    exists i. split; [exact Hi |].
    unfold attemptCompletes. now rewrite Ep, (sampleOf_Throw p Hl).
  - intros H. apply calibrateBaseline_Throw in H.
    assert (E : startCountdownAndRun estimatePoses w
                = set_feedbackText FbPreparing (updateUI (set_running false w))).
    { unfold startCountdownAndRun.
      match goal with |- context [calibrateBaseline ?e ?v] =>
        assert (T : calibrateBaseline e v = Throw)
          by (apply calibrateBaseline_Throw; exact H);
        rewrite T end.
      reflexivity. }
    rewrite E. repeat split.
Qed.

(* ===================================================================== *)
(** * What the detection loop leaves alone *)
(* ===================================================================== *)

Lemma repetitionUpdate_session (d u : bool) (now : number) (w : World) :
  stream (repetitionUpdate d u now w) = stream w
  /\ running (repetitionUpdate d u now w) = running w
  /\ detector (repetitionUpdate d u now w) = detector w
  /\ baseline (repetitionUpdate d u now w) = baseline w.
Proof.
  unfold repetitionUpdate.
  destruct d, u, (lastPosition w);
    cbn [lastPosition set_lastDownTime set_lastPosition negb andb];
    repeat match goal with
      | |- context [if ?c then _ else _] => destruct c
      end;
    cbn; auto.
Qed.

Section Loop.

Variable Math_hypot : number -> number -> number.
Variable Math_acos : number -> number.

(** X14: the detection loop never ends the session and never calibrates:
    through any frames, the camera, the running flag, the loaded model
    and the baseline stay as they were. *)
Theorem detection_loop_keeps_session :
  forall (frames : list (Estimate * number)) (w : World),
    stream (runFrames Math_hypot Math_acos frames w) = stream w
    /\ running (runFrames Math_hypot Math_acos frames w) = running w
    /\ detector (runFrames Math_hypot Math_acos frames w) = detector w
    /\ baseline (runFrames Math_hypot Math_acos frames w) = baseline w.
Proof.
  unfold runFrames.
  induction frames as [|[est now] rest IH]; intros w; [cbn; auto |].
  cbn [fold_left fst snd].
  destruct (IH (runDetectionLoop Math_hypot Math_acos est now w))
    as (-> & -> & -> & ->).
  destruct (@runDetectionLoop_cases Math_hypot Math_acos est now w)
    as [-> | (pose & j & b & _ & _ & _ & _ & ->)]; [auto |].
  apply repetitionUpdate_session.
Qed.

End Loop.

(* ===================================================================== *)
(** * A camera that does not start *)
(* ===================================================================== *)

(** X15: a camera whose stream was granted but whose [video.play()]
    rejected is open all the same: [STATE.stream] is set while the screen
    is not redrawn (the camera mark keeps what it showed) and the text is
    the error.  The detection button then does not ask for the camera:
    it stops detection when detection runs; with a detector it goes into
    the countdown; without one it loads the model and goes into the
    countdown, or, when the load fails, is left at 'A carregar modelo
    ...' with no detector and no countdown.  A camera that was denied
    leaves the stream as it was, and with no stream the detection button
    only writes 'Abre a câmara primeiro.'. *)
Theorem failed_play_leaves_camera_open :
  forall (load : ModelOutcome) (estimatePoses : nat -> Estimate) (w : World),
    let played := startCamera PlayFailed w in
    let denied := startCamera Denied w in
    (stream played = true /\ screen played = screen w
     /\ feedbackText played = FbCameraError
     /\ feedbackText (startOrStopDetection load estimatePoses played)
        <> FbOpenCameraFirst
     /\ (running w = true ->
         startOrStopDetection load estimatePoses played = stopDetection played)
     /\ (running w = false -> detector w = true ->
         startOrStopDetection load estimatePoses played
         = startCountdownAndRun estimatePoses played)
     /\ (running w = false -> detector w = false ->
         startOrStopDetection Loaded estimatePoses played
         = startCountdownAndRun estimatePoses
             (set_feedbackText FbModelLoaded
                (set_detector true (set_feedbackText FbLoadingModel played)))
         /\ startOrStopDetection LoadFailed estimatePoses played
            = set_feedbackText FbLoadingModel played
         /\ detector (startOrStopDetection LoadFailed estimatePoses played)
            = false
         /\ running (startOrStopDetection LoadFailed estimatePoses played)
            = false))
    /\ (stream denied = stream w /\ screen denied = screen w
        /\ feedbackText denied = FbCameraError
        /\ (stream w = false ->
            startOrStopDetection load estimatePoses denied
            = set_feedbackText FbOpenCameraFirst denied)).
Proof.
  intros load estimatePoses w played denied.
  assert (Hfb : forall e v, feedbackText (startCountdownAndRun e v)
                            <> FbOpenCameraFirst).
  { intros e v. unfold startCountdownAndRun.
    match goal with |- context [calibrateBaseline ?e ?v] =>
      destruct (calibrateBaseline e v) as [[[|] w']|] end; cbn; discriminate. }
  assert (E : forall l,
            startOrStopDetection l estimatePoses played
            = if running w then stopDetection played
              else if detector w then startCountdownAndRun estimatePoses played
              else match l with
                   | LoadFailed => initPoseModel LoadFailed played
                   | Loaded => startCountdownAndRun estimatePoses
                                 (initPoseModel Loaded played)
                   end) by reflexivity.
  split.
  - split; [reflexivity |]. split; [reflexivity |]. split; [reflexivity |].
    split; [| split; [| split]].
    + rewrite E. destruct (running w); [cbn; discriminate |].
      destruct (detector w); [apply Hfb |].
      destruct load; [cbn; discriminate | apply Hfb].
    + intros Hr. now rewrite E, Hr.
    + intros Hr Hd. now rewrite E, Hr, Hd.
    + intros Hr Hd. rewrite !E, Hr, Hd. repeat split; assumption.
  - split; [reflexivity |]. split; [reflexivity |]. split; [reflexivity |].
    intros Hs. subst denied. unfold startOrStopDetection.
    cbn [startCamera stream set_feedbackText negb]. now rewrite Hs.
Qed.

(* ===================================================================== *)
(** * From the click to the first frame *)
(* ===================================================================== *)

(** X17: what precedes a session.  [startCountdownAndRun] reaches the
    end of the calibration exactly when the calibration does not throw
    (11 tests of [t > 0] are enough for the countdown, and fewer are
    not), and then, whatever the pose source gave, it has shown 10,
    waited a second and shown one less ten times, the last time
    'COMEÇAR', waited 300 ms, hidden the overlay, and waited 120 ms
    after each of the 6 attempts: timers of 11020 ms in all before
    detection starts. *)
Theorem session_timeline :
  forall (estimatePoses : nat -> Estimate) (fuel : nat) (w : World),
    (sessionTimeline fuel estimatePoses = None
     <-> (fuel < 11)%nat \/ calibrateBaseline estimatePoses w = Throw)
    /\ (forall tl,
          sessionTimeline fuel estimatePoses = Some tl ->
          tl = Shows (SecondsLeft (int 10))
               :: flat_map (fun n => [Waits 1000; Shows (SecondsLeft (int n))])
                           [9; 8; 7; 6; 5; 4; 3; 2; 1]%Z
               ++ [Waits 1000; Shows Comecar; Waits 300; Hides]
               ++ repeat (Waits 120) 6
          /\ delay tl = 11020%Z).
Proof.
  intros estimatePoses fuel w.
  assert (C : calibrateBaseline estimatePoses w = Throw
              <-> collectSamples estimatePoses 0 tries [] = Throw).
  { unfold calibrateBaseline.
    destruct (collectSamples estimatePoses 0 tries []) as [[|s l]|];
      cbn [bind]; split; intros H; try discriminate H; reflexivity. }
  unfold sessionTimeline. split.
  - destruct (countdown_cases fuel) as [[Hf E] | [Hf E]]; rewrite E.
    + split; [now left | reflexivity].
    + change (countdown 11) with (countdown (11 + 0)).
      rewrite (countdown_enough 0).
      destruct (calibrationTimeline_cases estimatePoses tries 0 [])
        as [[T K] | [T [l K]]]; rewrite T.
      * split; [intros _; right; now apply C | reflexivity].
      * split; [discriminate |].
        intros [H | H]; [lia |].
        apply C in H. congruence.
  - intros tl H.
    destruct (countdown_cases fuel) as [[_ E] | [_ E]]; rewrite E in H;
      [discriminate H |].
    change (countdown 11) with (countdown (11 + 0)) in H.
    rewrite (countdown_enough 0) in H.
    destruct (calibrationTimeline_cases estimatePoses tries 0 [])
      as [[T _] | [T _]]; rewrite T in H; [discriminate H |].
    injection H as <-. split; vm_compute; reflexivity.
Qed.

(* ===================================================================== *)
(** * The properties on example sessions *)
(* ===================================================================== *)

(** The page after two handlers of the detection button overlapped. *)
Lemma reachable_consistent_witness :
  consistent (turns hypot_naive acos_steps overlapping initialWorld).
Proof.
  apply (@reachable_consistent hypot_naive acos_steps).
  apply turns_reachable. apply reachable_initial.
Defined.

(** What overlapping handlers break.  With the second click's model load
    slower than the countdown of the first, the second countdown starts
    on a session that runs: detection is off while a baseline is set and
    the position is [Down].  And closing the camera during the countdown
    does not end the handler: if the pose source still gives poses, the
    calibration starts detection with no stream. *)
Example handlers_that_overlap :
  (let w := turns hypot_naive acos_steps overlapping initialWorld in
   running w = false /\ baseline w <> None /\ lastPosition w = Down)
  /\ (let w := turns hypot_naive acos_steps
                 [CameraGranted; CameraPlaying; DetectClick; ModelLoaded;
                  CountdownBegins; StopCameraClick; CountdownEnds alwaysTop]
                 initialWorld in
      running w = true /\ stream w = false).
Proof.
  vm_compute. repeat split; discriminate.
Qed.

(** Two frames without a pose, in a session that is down. *)
Lemma frames_idle_witness :
  let frames := [(Poses None, int 1000); (Rejected, int 1016)] in
  let w := session Down 3 (int 0) (int 900) in
  runFrames hypot_naive acos_steps frames w = w
  /\ run hypot_naive acos_steps (framesOf frames) w = w.
Proof.
  intros frames w.
  apply (@frames_idle hypot_naive acos_steps frames w).
  right. reflexivity.
Defined.

(** The detection button pressed in a session that is down with 3
    repetitions counted, and the frame of a rise after it. *)
Lemma stop_is_effective_witness :
  let w := session Down 3 (int 0) (int 900) in
  let w' := step hypot_naive acos_steps (ClickStartDetect Loaded alwaysTop) w in
  w' = stopDetection w
  /\ running w' = false /\ baseline w' = None /\ lastPosition w' = Up
  /\ pushCount w' = pushCount w /\ lastRepTime w' = lastRepTime w
  /\ lastDownTime w' = lastDownTime w /\ stream w' = true
  /\ feedbackText w' = FbStopped
  /\ runFrames hypot_naive acos_steps [(Poses (Some poseTop), int 2000)] w' = w'.
Proof.
  intros w.
  apply (@stop_is_effective hypot_naive acos_steps Loaded alwaysTop
           [(Poses (Some poseTop), int 2000)] w); reflexivity.
Defined.

(** A session from the loading of the page to the closing of the camera,
    without a reset. *)
Lemma count_is_monotone_witness :
  (pushCount initialWorld
   <= pushCount (run hypot_naive acos_steps
                     [ClickStartCamera Playing; ClickStartDetect Loaded alwaysTop;
                      Frame (Poses (Some poseBottom)) (int 1000);
                      ClickStopCamera]
                     initialWorld))%N.
Proof.
  apply (@count_is_monotone hypot_naive acos_steps).
  intros [H|[H|[H|[H|[]]]]]; discriminate H.
Defined.

(** [poseTop] and its mirror image, in a session that went down a second
    before. *)
Lemma evaluation_is_mirror_symmetric_witness :
  let p := poseTop in
  let q := poseTopMirrored in
  let j := jointsTop in
  let now := int 12000 in
  let w := session Down 0 (int 0) (int 11000) in
  (shouldersUnusable (mirror j) = shouldersUnusable j
   /\ elbowAvgOf hypot_naive acos_steps (mirror j) = elbowAvgOf hypot_naive acos_steps j
   /\ wristsUnderOf (mirror j) = wristsUnderOf j
   /\ forall b, shoulderDropOf (mirror j) b = shoulderDropOf j b)
  /\ evaluateForPushUp hypot_naive acos_steps q now w
     = evaluateForPushUp hypot_naive acos_steps p now w
  /\ (drawPose q = drawPose p ->
      runDetectionLoop hypot_naive acos_steps (Poses (Some q)) now w
      = runDetectionLoop hypot_naive acos_steps (Poses (Some p)) now w).
Proof.
  intros p q j now w.
  apply (@evaluation_is_mirror_symmetric hypot_naive acos_steps p q j now w);
    vm_compute; reflexivity.
Defined.

(** A body seen from the side, with the angle and the drop of a
    descent. *)
Lemma narrow_shoulders_never_down_witness :
  wristsUnderOf jointsSideways = false
  /\ downDetectedOf (int 70) (int 35) (wristsUnderOf jointsSideways) baseline100
     = false.
Proof.
  apply (@narrow_shoulders_never_down jointsSideways (int 70) (int 35) baseline100).
  vm_compute. reflexivity.
Defined.

(** [poseTop] cut before its right wrist: 10 keypoints. *)
Lemma short_pose_is_no_frame_witness :
  let pose := truncated 10 poseTop in
  let now := int 12000 in
  let w := session Down 0 (int 0) (int 11000) in
  evaluateForPushUp hypot_naive acos_steps pose now w = Throw
  /\ runDetectionLoop hypot_naive acos_steps (Poses (Some pose)) now w = w
  /\ step hypot_naive acos_steps (Frame (Poses (Some pose)) now) w = w.
Proof.
  intros pose now w.
  apply (@short_pose_is_no_frame hypot_naive acos_steps pose now w).
  cbn. lia.
Defined.

(** [poseTop] has 17 keypoints. *)
Lemma complete_pose_never_throws_witness :
  let pose := poseTop in
  let now := int 12000 in
  let w := session Down 0 (int 0) (int 11000) in
  drawPose pose = Ok tt
  /\ (exists j, getJoints pose = Ok j)
  /\ (exists s, sampleOf pose = Ok s)
  /\ (baseline w <> None ->
      exists w', evaluateForPushUp hypot_naive acos_steps pose now w = Ok w'
                 /\ (running w = true ->
                     runDetectionLoop hypot_naive acos_steps (Poses (Some pose)) now w
                     = w')).
Proof.
  intros pose now w.
  apply (@complete_pose_never_throws hypot_naive acos_steps pose now w).
  cbn. lia.
Defined.

(** A pose source that rejects once makes the calibration throw, and one
    frame that rises counts on the example session. *)
Example sessions_of_the_examples :
  calibrateBaseline rejectsThird initialWorld = Throw
  /\ feedbackText (startCountdownAndRun rejectsThird
                     (startCamera Playing initialWorld)) = FbPreparing
  /\ repTimes hypot_naive acos_steps
       [(Poses (Some poseBottom), int 1000); (Poses (Some poseTop), int 2000);
        (Poses (Some poseTop), int 2016)]
       (session Up 3 (int 0) (int 0)) = [int 2000]
  /\ pushCount (runFrames hypot_naive acos_steps
       [(Poses (Some poseBottom), int 1000); (Poses (Some poseTop), int 2000);
        (Poses (Some poseTop), int 2016)]
       (session Up 3 (int 0) (int 0))) = 4%N.
Proof.
  vm_compute. repeat split.
Qed.

(** A left wrist whose [x] is NaN, in a session that is down. *)
Lemma NaN_never_moves_witness :
  let w := session Down 3 (int 0) (int 11000) in
  evaluateForPushUp hypot_naive acos_steps poseLost (int 12000) w
  = Ok (set_feedbackText FbAdjustPosture w)
  /\ (running w = true -> drawPose poseLost = Ok tt ->
      runDetectionLoop hypot_naive acos_steps (Poses (Some poseLost)) (int 12000) w
      = set_feedbackText FbAdjustPosture w).
Proof.
  intros w.
  apply (@NaN_never_moves hypot_naive acos_steps poseLost jointsLost baseline100
           (int 12000) w);
    [vm_compute; reflexivity | vm_compute; reflexivity | reflexivity |].
  left. vm_compute. reflexivity.
Defined.
